(** * gordp Qt GUI: input translation and the engine bridge

    A shallow embedding of the three classes of the Qt front-end that carry
    logic: [InputHandler] (src/input/input_handler.cpp), [RDPDisplayWidget]
    (src/display/rdp_display.cpp) and [GoRDPBridge]
    (src/utils/gordp_bridge.cpp).

    Member functions that change the object or emit signals are computations
    in a small state-and-trace monad; [const] member functions are plain
    functions of the object ([this]) and their arguments.  The results of
    blocking Qt calls (process start-up, image loading, JSON parsing, ...)
    are read from an environment record.  Log output (qDebug, qWarning) is
    not part of the model. *)

From Stdlib Require Import ZArith Lia Bool.
From Stdlib Require Import PrimFloat SpecFloat FloatOps Uint63.
From Stdlib Require FloatAxioms.
From Stdlib Require Import DecimalString.
From Stdlib Require Import Ascii.
From stdpp Require Import base gmap strings list.

Local Open Scope Z_scope.
Set Warnings "-register-all".

(** ** Computations with state and an effect trace *)

Definition Eff (St Ev A : Type) : Type := St -> A * St * list Ev.

Module Eff.
Section Ops.
Context {St Ev : Type}.

Definition ret {A} (a : A) : Eff St Ev A := fun s => (a, s, []).

Definition bind {A B} (m : Eff St Ev A) (k : A -> Eff St Ev B) : Eff St Ev B :=
  fun s =>
    let '(a, s1, t1) := m s in
    let '(b, s2, t2) := k a s1 in
    (b, s2, t1 ++ t2).

Definition get : Eff St Ev St := fun s => (s, s, []).
Definition modify (f : St -> St) : Eff St Ev unit := fun s => (tt, f s, []).
Definition tell (e : Ev) : Eff St Ev unit := fun s => (tt, s, [e]).

Definition state_of {A} (r : A * St * list Ev) : St := snd (fst r).
Definition trace_of {A} (r : A * St * list Ev) : list Ev := snd r.
End Ops.
End Eff.

Declare Scope eff_scope.
Delimit Scope eff_scope with eff.
Notation "'let*' x ':=' m 'in' k" := (Eff.bind m (fun x => k))
  (at level 10, x name, m at level 100, k at level 200) : eff_scope.
Notation "m ';;;' k" := (Eff.bind m (fun _ => k))
  (at level 100, k at level 200, right associativity) : eff_scope.

(** ** The parts of Qt the three classes use *)

Module Qt.

(** [int] is 32 bits wide; arithmetic that can leave the range wraps. *)
Definition INT_MIN : Z := - 2 ^ 31.
Definition INT_MAX : Z := 2 ^ 31 - 1.
Definition wrap32 (z : Z) : Z := (z + 2 ^ 31) mod 2 ^ 32 - 2 ^ 31.
Definition int_add (a b : Z) : Z := wrap32 (a + b).
Definition int_sub (a b : Z) : Z := wrap32 (a - b).
Definition int_div (a b : Z) : Z := wrap32 (Z.quot a b).

(** [switch (x) { case k: return v; ... default: return d; }] with distinct labels. *)
Fixpoint switch {A} (x : Z) (cases : list (Z * A)) (default : A) : A :=
  match cases with
  | [] => default
  | (k, v) :: rest => if x =? k then v else switch x rest default
  end.

(** qnamespace.h, [enum Qt::Key]. *)
Definition Key_Space : Z := 0x20.
Definition Key_0 : Z := 0x30.
Definition Key_9 : Z := 0x39.
Definition Key_A : Z := 0x41.
Definition Key_Z : Z := 0x5a.
Definition Key_Escape : Z := 0x01000000.
Definition Key_Tab : Z := 0x01000001.
Definition Key_Backspace : Z := 0x01000003.
Definition Key_Return : Z := 0x01000004.
Definition Key_Enter : Z := 0x01000005.
Definition Key_Insert : Z := 0x01000006.
Definition Key_Delete : Z := 0x01000007.
Definition Key_Home : Z := 0x01000010.
Definition Key_End : Z := 0x01000011.
Definition Key_Left : Z := 0x01000012.
Definition Key_Up : Z := 0x01000013.
Definition Key_Right : Z := 0x01000014.
Definition Key_Down : Z := 0x01000015.
Definition Key_PageUp : Z := 0x01000016.
Definition Key_PageDown : Z := 0x01000017.
Definition Key_Shift : Z := 0x01000020.
Definition Key_Control : Z := 0x01000021.
Definition Key_Alt : Z := 0x01000023.
Definition Key_CapsLock : Z := 0x01000024.
Definition Key_F1 : Z := 0x01000030.
Definition Key_F2 : Z := 0x01000031.
Definition Key_F3 : Z := 0x01000032.
Definition Key_F4 : Z := 0x01000033.
Definition Key_F5 : Z := 0x01000034.
Definition Key_F6 : Z := 0x01000035.
Definition Key_F7 : Z := 0x01000036.
Definition Key_F8 : Z := 0x01000037.
Definition Key_F9 : Z := 0x01000038.
Definition Key_F10 : Z := 0x01000039.
Definition Key_F11 : Z := 0x0100003a.
Definition Key_F12 : Z := 0x0100003b.

(** qnamespace.h, [enum Qt::MouseButton]; [Qt::MouseButtons] is a bit set of them. *)
Definition NoButton : Z := 0x00000000.
Definition LeftButton : Z := 0x00000001.
Definition RightButton : Z := 0x00000002.
Definition MiddleButton : Z := 0x00000004.
Definition XButton1 : Z := 0x00000008.
Definition XButton2 : Z := 0x00000010.

(** The event types the handlers distinguish ([QEvent::Type]). *)
Inductive EventType : Type :=
  | MouseButtonPress | MouseButtonRelease | MouseButtonDblClick | MouseMove
  | KeyPress | KeyRelease | Wheel.

Global Instance EventType_eq_dec : EqDecision EventType.
Proof. solve_decision. Defined.

Record QPoint : Type := mkQPoint { px : Z; py : Z }.
Record QSize : Type := mkQSize { width : Z; height : Z }.

(** [QPoint operator-(const QPoint &, const QPoint &)]. *)
Definition point_sub (p q : QPoint) : QPoint :=
  mkQPoint (int_sub (px p) (px q)) (int_sub (py p) (py q)).

(** [QSize::isEmpty]: either dimension below 1. *)
Definition isEmpty (s : QSize) : bool := (width s <? 1) || (height s <? 1).

(** [QRect] stores its two corners; the right and bottom edges are inclusive. *)
Record QRect : Type := mkQRect { x1 : Z; y1 : Z; x2 : Z; y2 : Z }.

Definition rect_of_size (w h : Z) : QRect := mkQRect 0 0 (int_sub w 1) (int_sub h 1).
Definition rect_width (r : QRect) : Z := int_add (int_sub (x2 r) (x1 r)) 1.
Definition rect_height (r : QRect) : Z := int_add (int_sub (y2 r) (y1 r)) 1.
Definition setX (x : Z) (r : QRect) : QRect := mkQRect x (y1 r) (x2 r) (y2 r).
Definition setY (y : Z) (r : QRect) : QRect := mkQRect (x1 r) y (x2 r) (y2 r).
Definition setWidth (w : Z) (r : QRect) : QRect :=
  mkQRect (x1 r) (y1 r) (int_sub (int_add (x1 r) w) 1) (y2 r).
Definition setHeight (h : Z) (r : QRect) : QRect :=
  mkQRect (x1 r) (y1 r) (x2 r) (int_sub (int_add (y1 r) h) 1).
Definition topLeft (r : QRect) : QPoint := mkQPoint (x1 r) (y1 r).

(** qglobal.h: [qMin], [qMax] and [qBound(min, val, max)]. *)
Definition qMin (a b : Z) : Z := if a <? b then a else b.
Definition qMax (a b : Z) : Z := if a <? b then b else a.
Definition qBound (lo val hi : Z) : Z := qMax lo (qMin hi val).

(** [double] is IEEE 754 binary64. *)
Definition double : Type := float.

(** Conversion of an [int] to [double] (exact for 32-bit values). *)
Definition double_of_int (z : Z) : double :=
  if z <? 0 then PrimFloat.opp (PrimFloat.of_uint63 (Uint63.of_Z (- z)))
  else PrimFloat.of_uint63 (Uint63.of_Z z).

(** Conversion of a [double] to [int]: the fraction is discarded.  For NaN,
    infinities and values outside the range of [int] the C++ standard leaves
    the result undefined; the model returns [INT_MIN] there, as the x86-64
    conversion instruction does. *)
Definition trunc (d : double) : option Z :=
  match Prim2SF d with
  | S754_zero _ => Some 0
  | S754_finite sign m e =>
      let a := match e with
               | Z0 => Zpos m
               | Zpos p => Z.shiftl (Zpos m) (Zpos p)
               | Zneg p => Z.shiftr (Zpos m) (Zpos p)
               end in
      Some (if sign then - a else a)
  | S754_infinity _ | S754_nan => None
  end.

Definition int_of_double (d : double) : Z :=
  match trunc d with
  | Some z => if (INT_MIN <=? z) && (z <=? INT_MAX) then z else INT_MIN
  | None => INT_MIN
  end.

(** qnumeric / qglobal.h: [qRound(double d)] is
    [d >= 0.0 ? int(d + 0.5) : int(d - 0.5)]. *)
Definition qRound (d : double) : Z :=
  if PrimFloat.leb PrimFloat.zero d
  then int_of_double (PrimFloat.add d 0.5%float)
  else int_of_double (PrimFloat.sub d 0.5%float).

(** [QSize operator*(const QSize &, qreal)]. *)
Definition size_scale (s : QSize) (c : double) : QSize :=
  mkQSize (qRound (PrimFloat.mul (double_of_int (width s)) c))
          (qRound (PrimFloat.mul (double_of_int (height s)) c)).

(** [QTimer]: [start(msec)] sets the interval and arms the timer. *)
Record QTimer : Type := mkQTimer { active : bool; interval : Z }.
Definition timer_start (msec : Z) (t : QTimer) : QTimer := mkQTimer true msec.
Definition timer_stop (t : QTimer) : QTimer := mkQTimer false (interval t).

(** JSON values; a [QJsonObject] keeps its members sorted by key. *)
Inductive QJsonValue : Type :=
  | JNull
  | JBool (b : bool)
  | JInt (n : Z)
  | JString (s : string)
  | JArray (a : list QJsonValue)
  | JObject (o : list (string * QJsonValue)).

Definition QJsonObject : Type := list (string * QJsonValue).
Definition QJsonArray : Type := list QJsonValue.

(** [obj[key] = v]: replaces the member or inserts it in key order. *)
Fixpoint json_set (key : string) (v : QJsonValue) (o : QJsonObject) : QJsonObject :=
  match o with
  | [] => [(key, v)]
  | (k, w) :: rest =>
      match String.compare key k with
      | Lt => (key, v) :: o
      | Eq => (key, v) :: rest
      | Gt => (k, w) :: json_set key v rest
      end
  end.

(** [obj.value(key)]; [None] stands for the undefined value. *)
Fixpoint json_get (key : string) (o : QJsonObject) : option QJsonValue :=
  match o with
  | [] => None
  | (k, w) :: rest => if String.eqb key k then Some w else json_get key rest
  end.

Definition json_keys (o : QJsonObject) : list string := map fst o.
Definition json_isEmpty (o : QJsonObject) : bool :=
  match o with [] => true | _ => false end.

Definition toString (v : option QJsonValue) : string :=
  match v with Some (JString s) => s | _ => EmptyString end.
Definition toBool (v : option QJsonValue) : bool :=
  match v with Some (JBool b) => b | _ => false end.
Definition toArray (v : option QJsonValue) : QJsonArray :=
  match v with Some (JArray a) => a | _ => [] end.
Definition toObject (v : option QJsonValue) : QJsonObject :=
  match v with Some (JObject o) => o | _ => [] end.

(** [QJsonDocument]: null, an object or an array. *)
Inductive QJsonDocument : Type :=
  | DocNull
  | DocObject (o : QJsonObject)
  | DocArray (a : QJsonArray).

Definition doc_object (d : QJsonDocument) : QJsonObject :=
  match d with DocObject o => o | _ => [] end.

(** [QString::number(int)] and [QString::arg(int)]: decimal digits with a
    leading minus sign for negative values. *)
Definition number (n : Z) : string := NilZero.string_of_int (Z.to_int n).

End Qt.

(** ** InputHandler (src/input/input_handler.cpp) *)

Module InputHandler.
Import Qt.
Local Open Scope eff_scope.

Record State : Type := mkState {
  m_inputCaptured : bool;
  m_pressedButtons : Z;
  m_pressedKeys : gset Z;
  m_mouseSensitivity : double;
  m_keyboardRepeatDelay : Z;
  m_keyboardRepeatRate : Z;
  m_keyRepeatTimer : QTimer;
  m_lastPressedKey : Z;
  m_lastMousePos : QPoint;
  m_remoteResolution : QSize;
  m_localResolution : QSize;
  m_zoomLevel : double
}.

Definition set_pressedButtons (f : Z -> Z) (s : State) : State :=
  mkState (m_inputCaptured s) (f (m_pressedButtons s)) (m_pressedKeys s)
    (m_mouseSensitivity s) (m_keyboardRepeatDelay s) (m_keyboardRepeatRate s)
    (m_keyRepeatTimer s) (m_lastPressedKey s) (m_lastMousePos s)
    (m_remoteResolution s) (m_localResolution s) (m_zoomLevel s).

Definition set_pressedKeys (f : gset Z -> gset Z) (s : State) : State :=
  mkState (m_inputCaptured s) (m_pressedButtons s) (f (m_pressedKeys s))
    (m_mouseSensitivity s) (m_keyboardRepeatDelay s) (m_keyboardRepeatRate s)
    (m_keyRepeatTimer s) (m_lastPressedKey s) (m_lastMousePos s)
    (m_remoteResolution s) (m_localResolution s) (m_zoomLevel s).

Definition set_keyRepeatTimer (f : QTimer -> QTimer) (s : State) : State :=
  mkState (m_inputCaptured s) (m_pressedButtons s) (m_pressedKeys s)
    (m_mouseSensitivity s) (m_keyboardRepeatDelay s) (m_keyboardRepeatRate s)
    (f (m_keyRepeatTimer s)) (m_lastPressedKey s) (m_lastMousePos s)
    (m_remoteResolution s) (m_localResolution s) (m_zoomLevel s).

Definition set_lastPressedKey (k : Z) (s : State) : State :=
  mkState (m_inputCaptured s) (m_pressedButtons s) (m_pressedKeys s)
    (m_mouseSensitivity s) (m_keyboardRepeatDelay s) (m_keyboardRepeatRate s)
    (m_keyRepeatTimer s) k (m_lastMousePos s)
    (m_remoteResolution s) (m_localResolution s) (m_zoomLevel s).

Definition set_lastMousePos (p : QPoint) (s : State) : State :=
  mkState (m_inputCaptured s) (m_pressedButtons s) (m_pressedKeys s)
    (m_mouseSensitivity s) (m_keyboardRepeatDelay s) (m_keyboardRepeatRate s)
    (m_keyRepeatTimer s) (m_lastPressedKey s) p
    (m_remoteResolution s) (m_localResolution s) (m_zoomLevel s).

(** The state the constructor leaves. *)
Definition init : State :=
  mkState false NoButton ∅ 1%float 500 30 (mkQTimer false 0) 0 (mkQPoint 0 0)
    (mkQSize 1024 768) (mkQSize 1024 768) 1%float.

Record QMouseEvent : Type :=
  mkQMouseEvent { mouse_type : EventType; mouse_pos : QPoint; mouse_button : Z }.
Record QKeyEvent : Type :=
  mkQKeyEvent { key_type : EventType; key : Z; isAutoRepeat : bool }.
Record QWheelEvent : Type := mkQWheelEvent { angleDelta : QPoint }.

(** The signals of the class. *)
Inductive Signal : Type :=
  | inputEventSent (eventData : QJsonObject)
  | mouseEvent (x y button : Z) (pressed : bool)
  | keyEvent (key : Z) (pressed : bool)
  | wheelEvent (delta : Z).

Definition Handler : Type := Eff State Signal unit.

(** The [case] labels of [convertQtKeyToRDP] with the values they return. *)
Definition key_cases : list (Z * Z) :=
  [ (Key_Escape, 0x1B); (Key_Tab, 0x09); (Key_CapsLock, 0x14); (Key_Shift, 0x10);
    (Key_Control, 0x11); (Key_Alt, 0x12); (Key_Backspace, 0x08); (Key_Return, 0x0D);
    (Key_Enter, 0x0D); (Key_Space, 0x20); (Key_Left, 0x25); (Key_Up, 0x26);
    (Key_Right, 0x27); (Key_Down, 0x28); (Key_Insert, 0x2D); (Key_Delete, 0x2E);
    (Key_Home, 0x24); (Key_End, 0x23); (Key_PageUp, 0x21); (Key_PageDown, 0x22);
    (Key_F1, 0x70); (Key_F2, 0x71); (Key_F3, 0x72); (Key_F4, 0x73);
    (Key_F5, 0x74); (Key_F6, 0x75); (Key_F7, 0x76); (Key_F8, 0x77);
    (Key_F9, 0x78); (Key_F10, 0x79); (Key_F11, 0x7A); (Key_F12, 0x7B) ].

(** Character literals ['A'] and ['0']. *)
Definition char_A : Z := Z.of_N (Ascii.N_of_ascii "A"%char).
Definition char_0 : Z := Z.of_N (Ascii.N_of_ascii "0"%char).

Definition convertQtKeyToRDP (this : State) (qtKey : Z) : Z :=
  switch qtKey key_cases
    (if (Key_A <=? qtKey) && (qtKey <=? Key_Z) then qtKey - Key_A + char_A
     else if (Key_0 <=? qtKey) && (qtKey <=? Key_9) then qtKey - Key_0 + char_0
     else 0).

Definition convertQtMouseButton (this : State) (button : Z) : Z :=
  switch button
    [ (LeftButton, 1); (RightButton, 2); (MiddleButton, 4); (XButton1, 8); (XButton2, 16) ]
    0.

Definition convertToRemoteCoordinates (this : State) (localPoint : QPoint) : QPoint :=
  if isEmpty (m_remoteResolution this) || isEmpty (m_localResolution this) then localPoint
  else
    let scaleX := PrimFloat.div (double_of_int (width (m_remoteResolution this)))
                                (double_of_int (width (m_localResolution this))) in
    let scaleY := PrimFloat.div (double_of_int (height (m_remoteResolution this)))
                                (double_of_int (height (m_localResolution this))) in
    let remoteX := int_of_double
      (PrimFloat.mul (PrimFloat.mul (double_of_int (px localPoint)) scaleX) (m_zoomLevel this)) in
    let remoteY := int_of_double
      (PrimFloat.mul (PrimFloat.mul (double_of_int (py localPoint)) scaleY) (m_zoomLevel this)) in
    mkQPoint remoteX remoteY.

Definition emit (sig : Signal) : Handler := Eff.tell sig.

Definition sendMouseEvent (x y button : Z) (pressed : bool) : Handler :=
  let eventData :=
    json_set "pressed" (JBool pressed)
      (json_set "button" (JInt button)
        (json_set "y" (JInt y)
          (json_set "x" (JInt x)
            (json_set "type" (JString "mouse") [])))) in
  emit (inputEventSent eventData) ;;;
  emit (mouseEvent x y button pressed).

Definition sendKeyEvent (key : Z) (pressed : bool) : Handler :=
  let eventData :=
    json_set "pressed" (JBool pressed)
      (json_set "key" (JInt key)
        (json_set "type" (JString "keyboard") [])) in
  emit (inputEventSent eventData) ;;;
  emit (keyEvent key pressed).

Definition sendWheelEvent (delta : Z) : Handler :=
  let eventData :=
    json_set "delta" (JInt delta)
      (json_set "type" (JString "wheel") []) in
  emit (inputEventSent eventData) ;;;
  emit (wheelEvent delta).

Definition handleMouseEvent (event : QMouseEvent) : Handler :=
  let* this := Eff.get in
  if negb (m_inputCaptured this) then Eff.ret tt
  else
    let remotePos := convertToRemoteCoordinates this (mouse_pos event) in
    (match mouse_type event with
     | MouseButtonPress =>
         Eff.modify (set_pressedButtons (fun b => Z.lor b (mouse_button event))) ;;;
         sendMouseEvent (px remotePos) (py remotePos)
           (convertQtMouseButton this (mouse_button event)) true
     | MouseButtonRelease =>
         Eff.modify (set_pressedButtons (fun b => Z.land b (Z.lnot (mouse_button event)))) ;;;
         sendMouseEvent (px remotePos) (py remotePos)
           (convertQtMouseButton this (mouse_button event)) false
     | MouseMove =>
         if negb (m_pressedButtons this =? NoButton)
         then sendMouseEvent (px remotePos) (py remotePos) 0 true
         else Eff.ret tt
     | _ => Eff.ret tt
     end) ;;;
    Eff.modify (set_lastMousePos (mouse_pos event)).

Definition handleKeyEvent (event : QKeyEvent) : Handler :=
  let* this := Eff.get in
  if negb (m_inputCaptured this) then Eff.ret tt
  else
    let rdpKey := convertQtKeyToRDP this (key event) in
    if rdpKey =? 0 then Eff.ret tt
    else
      let pressed := bool_decide (key_type event = KeyPress) in
      (if pressed then
         Eff.modify (set_pressedKeys (fun ks => {[ key event ]} ∪ ks)) ;;;
         Eff.modify (set_lastPressedKey (key event)) ;;;
         (if isAutoRepeat event
          then Eff.modify (fun s => set_keyRepeatTimer (timer_start (m_keyboardRepeatRate s)) s)
          else Eff.modify (fun s => set_keyRepeatTimer (timer_start (m_keyboardRepeatDelay s)) s))
       else
         Eff.modify (set_pressedKeys (fun ks => ks ∖ {[ key event ]})) ;;;
         Eff.modify (set_keyRepeatTimer timer_stop)) ;;;
      sendKeyEvent rdpKey pressed.

Definition handleWheelEvent (event : QWheelEvent) : Handler :=
  let* this := Eff.get in
  if negb (m_inputCaptured this) then Eff.ret tt
  else
    let delta := Z.quot (py (angleDelta event)) 120 in
    sendWheelEvent delta.

Definition onKeyRepeat : Handler :=
  let* this := Eff.get in
  if negb (m_lastPressedKey this =? 0) && bool_decide (m_lastPressedKey this ∈ m_pressedKeys this)
  then
    let rdpKey := convertQtKeyToRDP this (m_lastPressedKey this) in
    if negb (rdpKey =? 0) then sendKeyEvent rdpKey true else Eff.ret tt
  else Eff.ret tt.

End InputHandler.

(** ** RDPDisplayWidget (src/display/rdp_display.cpp) *)

Module RDPDisplayWidget.
Import Qt.

(** [geometry] is the size of the underlying [QWidget], from which
    [QWidget::rect()] is computed; the other fields are the members of the
    class. *)
Record State : Type := mkState {
  geometry : QSize;
  m_zoomLevel : double;
  m_isFullscreen : bool;
  m_remoteResolution : QSize;
  m_widgetSize : QSize;
  m_mouseCaptured : bool;
  m_keyboardCaptured : bool;
  m_pressedButtons : Z;
  m_useHardwareAcceleration : bool
}.

(** [QWidget::rect()]: the rectangle (0, 0, width, height). *)
Definition rect (this : State) : QRect :=
  rect_of_size (width (geometry this)) (height (geometry this)).

Definition convertToRemoteCoordinates (this : State) (localPoint : QPoint) : QPoint :=
  if isEmpty (m_remoteResolution this) then localPoint
  else
    (* Calculate the display area *)
    let scaledSize := size_scale (m_remoteResolution this) (m_zoomLevel this) in
    let displayRect := rect this in
    let displayRect :=
      if width scaledSize <? rect_width displayRect then
        setWidth (width scaledSize)
          (setX (int_div (int_sub (rect_width displayRect) (width scaledSize)) 2) displayRect)
      else displayRect in
    let displayRect :=
      if height scaledSize <? rect_height displayRect then
        setHeight (height scaledSize)
          (setY (int_div (int_sub (rect_height displayRect) (height scaledSize)) 2) displayRect)
      else displayRect in
    (* Convert coordinates *)
    let relativePoint := point_sub localPoint (topLeft displayRect) in
    let remotePoint :=
      mkQPoint
        (int_of_double (PrimFloat.div (double_of_int (px relativePoint)) (m_zoomLevel this)))
        (int_of_double (PrimFloat.div (double_of_int (py relativePoint)) (m_zoomLevel this))) in
    (* Clamp to remote resolution; the resolution is not empty here, so
       neither subtraction can overflow *)
    let remotePoint :=
      mkQPoint (qBound 0 (px remotePoint) (width (m_remoteResolution this) - 1))
               (py remotePoint) in
    let remotePoint :=
      mkQPoint (px remotePoint)
               (qBound 0 (py remotePoint) (height (m_remoteResolution this) - 1)) in
    remotePoint.

Definition convertQtMouseButton (this : State) (button : Z) : Z :=
  switch button
    [ (LeftButton, 1); (RightButton, 2); (MiddleButton, 3); (XButton1, 4); (XButton2, 5) ]
    0.

Definition key_cases : list (Z * Z) :=
  [ (Key_Escape, 0x1B); (Key_Return, 0x0D); (Key_Tab, 0x09); (Key_Backspace, 0x08);
    (Key_Delete, 0x2E); (Key_Insert, 0x2D); (Key_Home, 0x24); (Key_End, 0x23);
    (Key_PageUp, 0x21); (Key_PageDown, 0x22); (Key_Up, 0x26); (Key_Down, 0x28);
    (Key_Left, 0x25); (Key_Right, 0x27);
    (Key_F1, 0x70); (Key_F2, 0x71); (Key_F3, 0x72); (Key_F4, 0x73);
    (Key_F5, 0x74); (Key_F6, 0x75); (Key_F7, 0x76); (Key_F8, 0x77);
    (Key_F9, 0x78); (Key_F10, 0x79); (Key_F11, 0x7A); (Key_F12, 0x7B) ].

Definition convertQtKeyToRDP (this : State) (qtKey : Z) : Z :=
  switch qtKey key_cases
    (if (0x20 <=? qtKey) && (qtKey <=? 0x7E) then qtKey else 0).

End RDPDisplayWidget.

(** ** GoRDPBridge (src/utils/gordp_bridge.cpp) *)

Module GoRDPBridge.
Import Qt.
Local Open Scope eff_scope.

Definition QByteArray : Type := list Byte.byte.

(** [QProcess::ProcessState] and [QAbstractSocket::SocketState]. *)
Inductive ProcessState : Type := NotRunning | Starting | Running.
Inductive SocketState : Type :=
  | UnconnectedState | HostLookupState | ConnectingState | ConnectedState
  | BoundState | ListeningState | ClosingState.

Global Instance ProcessState_eq_dec : EqDecision ProcessState.
Proof. solve_decision. Defined.
Global Instance SocketState_eq_dec : EqDecision SocketState.
Proof. solve_decision. Defined.

(** A [QImage] is either null or holds pixels; the bridge never looks inside. *)
Inductive QImage : Type :=
  | NullImage
  | Image (size : QSize) (bits : QByteArray).

Definition isNull (image : QImage) : bool :=
  match image with NullImage => true | Image _ _ => false end.

(** [QNetworkReply]: [reply_error] is 0 for [QNetworkReply::NoError]. *)
Record QNetworkReply : Type := mkQNetworkReply {
  reply_error : Z;
  errorString : string;
  readAll : QByteArray
}.
Definition NoError : Z := 0.

(** What the Qt objects owned by the bridge and the operating system answer
    during one call. *)
Record Env : Type := mkEnv {
  (** trimmed output of [which gordp-api] when it exits with code 0 *)
  which_gordp_api : option string;
  (** [QStandardPaths::findExecutable("gordp-api")] *)
  findExecutable : string;
  (** [QFile::exists] *)
  fileExists : string -> bool;
  (** [m_gordpProcess->state()] *)
  processState : ProcessState;
  (** [m_gordpProcess->waitForStarted()] after [start] *)
  waitForStarted : bool;
  (** [m_gordpProcess->waitForFinished(msecs)] after [terminate] *)
  waitForFinished : Z -> bool;
  (** [m_websocket->state()] *)
  socketState : SocketState;
  (** [QImage::loadFromData]: the loaded image, or [None] when it returns false *)
  loadFromData : QByteArray -> option QImage;
  (** [QJsonDocument::fromJson]: the document, or [None] on a parse error *)
  fromJson : QByteArray -> option QJsonDocument
}.

(** The members of the class that are plain values. *)
Record State : Type := mkState {
  m_apiUrl : string;
  m_apiPort : Z;
  m_isConnected : bool;
  m_apiRunning : bool;
  m_currentServer : string;
  m_currentPort : Z;
  m_currentUsername : string;
  m_lastPerformanceStats : QJsonObject
}.

Definition set_isConnected (b : bool) (s : State) : State :=
  mkState (m_apiUrl s) (m_apiPort s) b (m_apiRunning s)
    (m_currentServer s) (m_currentPort s) (m_currentUsername s) (m_lastPerformanceStats s).
Definition set_apiRunning (b : bool) (s : State) : State :=
  mkState (m_apiUrl s) (m_apiPort s) (m_isConnected s) b
    (m_currentServer s) (m_currentPort s) (m_currentUsername s) (m_lastPerformanceStats s).
Definition set_currentServer (server : string) (s : State) : State :=
  mkState (m_apiUrl s) (m_apiPort s) (m_isConnected s) (m_apiRunning s)
    server (m_currentPort s) (m_currentUsername s) (m_lastPerformanceStats s).
Definition set_currentPort (port : Z) (s : State) : State :=
  mkState (m_apiUrl s) (m_apiPort s) (m_isConnected s) (m_apiRunning s)
    (m_currentServer s) port (m_currentUsername s) (m_lastPerformanceStats s).
Definition set_currentUsername (username : string) (s : State) : State :=
  mkState (m_apiUrl s) (m_apiPort s) (m_isConnected s) (m_apiRunning s)
    (m_currentServer s) (m_currentPort s) username (m_lastPerformanceStats s).
Definition set_lastPerformanceStats (stats : QJsonObject) (s : State) : State :=
  mkState (m_apiUrl s) (m_apiPort s) (m_isConnected s) (m_apiRunning s)
    (m_currentServer s) (m_currentPort s) (m_currentUsername s) stats.

(** The state the constructor leaves. *)
Definition init : State :=
  mkState ("http://localhost:" +:+ number 8080) 8080 false false EmptyString 0 EmptyString [].

(** The signals of the class. *)
Inductive Signal : Type :=
  | connectionStatusChanged (connected : bool)
  | connectionError (error : string)
  | bitmapReceived (image : QImage)
  | errorOccurred (error : string)
  | connectionHistoryLoaded (history : QJsonArray)
  | favoritesLoaded (favorites : QJsonArray)
  | performanceStatsReceived (stats : QJsonObject)
  | apiStarted
  | apiStopped
  | apiError (error : string).

(** What a member function does to the outside, in program order: signals
    emitted and calls on the engine process [m_gordpProcess], the socket
    [m_websocket], the network manager and the reply.  [LookupStart] is the
    start of the short-lived local process of [getGoRDPExecutablePath]. *)
Inductive Action : Type :=
  | Emit (sig : Signal)
  | LookupStart (program : string) (arguments : list string)
  | ProcessStart (program : string) (arguments : list string)
  | ProcessTerminate
  | ProcessKill
  | WebSocketOpen (url : string)
  | WebSocketClose
  | WebSocketSendTextMessage (message : QJsonObject)
  | HttpPost (url : string) (contentType : string) (body : QJsonObject)
  | ReplyDeleteLater.

Definition Method (A : Type) : Type := Eff State Action A.

Definition emit (sig : Signal) : Method unit := Eff.tell (Emit sig).

(** The signals in a trace, the requests posted and the engine starts. *)
Definition emitted (t : list Action) : list Signal :=
  omap (fun a => match a with Emit sig => Some sig | _ => None end) t.
Definition http_posts (t : list Action) : list (string * QJsonObject) :=
  omap (fun a => match a with HttpPost url _ body => Some (url, body) | _ => None end) t.
Definition engine_starts (t : list Action) : list (string * list string) :=
  omap (fun a => match a with ProcessStart p args => Some (p, args) | _ => None end) t.
Definition websocket_messages (t : list Action) : list QJsonObject :=
  omap (fun a => match a with WebSocketSendTextMessage m => Some m | _ => None end) t.

Definition getGoRDPExecutablePath (env : Env) : Method string :=
  Eff.tell (LookupStart "which" ["gordp-api"]) ;;;
  match which_gordp_api env with
  | Some path => Eff.ret path
  | None =>
      let possiblePaths :=
        [ "./gordp-api"; "../gordp-api"; "bin/gordp-api"; findExecutable env ] in
      match List.find (fileExists env) possiblePaths with
      | Some path => Eff.ret path
      | None => Eff.ret EmptyString
      end
  end.

Definition setupWebSocket : Method unit :=
  let* this := Eff.get in
  let wsUrl := "ws://localhost:" +:+ number (m_apiPort this) +:+ "/ws" in
  Eff.tell (WebSocketOpen wsUrl).

Definition startGoRDPAPI (env : Env) : Method unit :=
  let* this := Eff.get in
  if m_apiRunning this then Eff.ret tt
  else
    let* executablePath := getGoRDPExecutablePath env in
    if String.eqb executablePath EmptyString then emit (apiError "GoRDP executable not found")
    else
      let arguments := [ "--api"; "--port"; number (m_apiPort this) ] in
      Eff.tell (ProcessStart executablePath arguments) ;;;
      if waitForStarted env then
        Eff.modify (set_apiRunning true) ;;;
        setupWebSocket ;;;
        emit apiStarted
      else emit (apiError "Failed to start GoRDP API server").

Definition stopGoRDPAPI (env : Env) : Method unit :=
  (if negb (bool_decide (processState env = NotRunning)) then
     Eff.tell ProcessTerminate ;;;
     (if negb (waitForFinished env 5000) then Eff.tell ProcessKill else Eff.ret tt)
   else Eff.ret tt) ;;;
  Eff.tell WebSocketClose ;;;
  Eff.modify (set_apiRunning false) ;;;
  Eff.modify (set_isConnected false) ;;;
  emit apiStopped.

Definition sendHttpRequest (endpoint : string) (data : QJsonObject) : Method unit :=
  let* this := Eff.get in
  let url := m_apiUrl this +:+ endpoint in
  Eff.tell (HttpPost url "application/json" data).

Definition connectToServer (server : string) (port : Z) (username password : string)
    (options : QJsonObject) : Method unit :=
  let* this := Eff.get in
  if negb (m_apiRunning this) then emit (connectionError "GoRDP API not running")
  else
    Eff.modify (set_currentServer server) ;;;
    Eff.modify (set_currentPort port) ;;;
    Eff.modify (set_currentUsername username) ;;;
    let requestData :=
      json_set "password" (JString password)
        (json_set "username" (JString username)
          (json_set "port" (JInt port)
            (json_set "server" (JString server) []))) in
    let requestData :=
      if negb (json_isEmpty options) then json_set "options" (JObject options) requestData
      else requestData in
    sendHttpRequest "/api/connect" requestData.

Definition disconnectFromServer : Method unit :=
  let* this := Eff.get in
  if m_isConnected this then
    sendHttpRequest "/api/disconnect" [] ;;;
    Eff.modify (set_isConnected false) ;;;
    emit (connectionStatusChanged false)
  else Eff.ret tt.

Definition sendMouseEvent (env : Env) (x y button : Z) (pressed : bool) : Method unit :=
  if bool_decide (socketState env = ConnectedState) then
    let event :=
      json_set "pressed" (JBool pressed)
        (json_set "button" (JInt button)
          (json_set "y" (JInt y)
            (json_set "x" (JInt x)
              (json_set "type" (JString "mouse") [])))) in
    Eff.tell (WebSocketSendTextMessage event)
  else Eff.ret tt.

Definition sendKeyEvent (env : Env) (key : Z) (pressed : bool) : Method unit :=
  if bool_decide (socketState env = ConnectedState) then
    let event :=
      json_set "pressed" (JBool pressed)
        (json_set "key" (JInt key)
          (json_set "type" (JString "keyboard") [])) in
    Eff.tell (WebSocketSendTextMessage event)
  else Eff.ret tt.

Definition sendWheelEvent (env : Env) (delta : Z) : Method unit :=
  if bool_decide (socketState env = ConnectedState) then
    let event :=
      json_set "delta" (JInt delta)
        (json_set "type" (JString "wheel") []) in
    Eff.tell (WebSocketSendTextMessage event)
  else Eff.ret tt.

Definition getPerformanceStats : Method unit :=
  let* this := Eff.get in
  if m_isConnected this then sendHttpRequest "/api/performance/stats" [] else Eff.ret tt.

Definition getConnectionStatus : Method unit := sendHttpRequest "/api/status" [].

Definition handleHttpResponse (response : QJsonDocument) : Method unit :=
  let obj := doc_object response in
  let type := toString (json_get "type" obj) in
  if String.eqb type "connection_status" then
    let connected := toBool (json_get "connected" obj) in
    Eff.modify (set_isConnected connected) ;;;
    emit (connectionStatusChanged connected)
  else if String.eqb type "error" then
    emit (connectionError (toString (json_get "message" obj)))
  else if String.eqb type "history" then
    emit (connectionHistoryLoaded (toArray (json_get "data" obj)))
  else if String.eqb type "favorites" then
    emit (favoritesLoaded (toArray (json_get "data" obj)))
  else if String.eqb type "performance" then
    Eff.modify (set_lastPerformanceStats (toObject (json_get "data" obj))) ;;;
    let* this := Eff.get in
    emit (performanceStatsReceived (m_lastPerformanceStats this))
  else Eff.ret tt.

Definition onNetworkReplyFinished (env : Env) (reply : QNetworkReply) : Method unit :=
  Eff.tell ReplyDeleteLater ;;;
  if negb (reply_error reply =? NoError) then emit (connectionError (errorString reply))
  else
    let data := readAll reply in
    match fromJson env data with
    | None => emit (connectionError "Invalid JSON response")
    | Some response => handleHttpResponse response
    end.

Definition handleWebSocketMessage (message : QJsonDocument) : Method unit :=
  let obj := doc_object message in
  let type := toString (json_get "type" obj) in
  if String.eqb type "bitmap" then Eff.ret tt
  else if String.eqb type "connection_status" then
    let connected := toBool (json_get "connected" obj) in
    Eff.modify (set_isConnected connected) ;;;
    emit (connectionStatusChanged connected)
  else Eff.ret tt.

Definition onWebSocketTextMessageReceived (env : Env) (message : string) : Method unit :=
  match fromJson env (String.list_byte_of_string message) with
  | None => Eff.ret tt
  | Some doc => handleWebSocketMessage doc
  end.

Definition decodeBitmapData (env : Env) (data : QByteArray) : QImage :=
  match loadFromData env data with
  | Some image => image
  | None => NullImage
  end.

Definition onWebSocketBinaryMessageReceived (env : Env) (message : QByteArray) : Method unit :=
  let image := decodeBitmapData env message in
  if negb (isNull image) then emit (bitmapReceived image) else Eff.ret tt.

Definition onProcessFinished (exitCode : Z) (standardError : string) : Method unit :=
  Eff.modify (set_apiRunning false) ;;;
  if negb (exitCode =? 0)
  then emit (apiError ("GoRDP API exited with error: " +:+ standardError))
  else Eff.ret tt.

End GoRDPBridge.

(** ** More of Qt: floating-point bounds, cursors, pixmaps *)

Module QtMore.
Import Qt.

(** [qMin], [qMax] and [qBound] at type [double]. *)
Definition qMin_double (a b : double) : double := if PrimFloat.ltb a b then a else b.
Definition qMax_double (a b : double) : double := if PrimFloat.ltb a b then b else a.
Definition qBound_double (lo val hi : double) : double := qMax_double lo (qMin_double hi val).

(** The literal [0.1]: the closest binary64 value. *)
Definition one_tenth : double := 0x1.999999999999ap-4%float.

(** The cursor shape the input handler installs ([Qt::CursorShape]). *)
Inductive CursorShape : Type := ArrowCursor | BlankCursor.

(** What a pixmap holds: a solid fill or the pixels of an image. *)
Inductive Pixels : Type :=
  | Black
  | Bits (bits : list Byte.byte).

(** [QPixmap]: null, or pixels of a given size. *)
Inductive QPixmap : Type :=
  | NullPixmap
  | Pixmap (size : QSize) (pixels : Pixels).

(** [QPixmap(size)] followed by [fill(Qt::black)]: a pixmap of an empty size
    is null, and filling a null pixmap does nothing. *)
Definition blackPixmap (size : QSize) : QPixmap :=
  if isEmpty size then NullPixmap else Pixmap size Black.

Definition pixmap_isNull (p : QPixmap) : bool :=
  match p with NullPixmap => true | Pixmap _ _ => false end.

(** [QPixmap::rect()]. *)
Definition pixmap_rect (p : QPixmap) : QRect :=
  match p with
  | NullPixmap => rect_of_size 0 0
  | Pixmap size _ => rect_of_size (width size) (height size)
  end.

(** Re-labelling of the effects of a computation. *)
Definition relabel {St Ev Ev' A} (f : Ev -> Ev') (m : Eff St Ev A) : Eff St Ev' A :=
  fun s => let '(a, s', t) := m s in (a, s', map f t).

End QtMore.

(** ** InputHandler: configuration, capture and the handler as a machine *)

Module InputHandlerOps.
Import Qt QtMore InputHandler.
Local Open Scope eff_scope.

Definition set_inputCaptured (b : bool) (s : State) : State :=
  mkState b (m_pressedButtons s) (m_pressedKeys s)
    (m_mouseSensitivity s) (m_keyboardRepeatDelay s) (m_keyboardRepeatRate s)
    (m_keyRepeatTimer s) (m_lastPressedKey s) (m_lastMousePos s)
    (m_remoteResolution s) (m_localResolution s) (m_zoomLevel s).

Definition set_mouseSensitivity (d : double) (s : State) : State :=
  mkState (m_inputCaptured s) (m_pressedButtons s) (m_pressedKeys s)
    d (m_keyboardRepeatDelay s) (m_keyboardRepeatRate s)
    (m_keyRepeatTimer s) (m_lastPressedKey s) (m_lastMousePos s)
    (m_remoteResolution s) (m_localResolution s) (m_zoomLevel s).

Definition set_keyboardRepeatDelay (delay : Z) (s : State) : State :=
  mkState (m_inputCaptured s) (m_pressedButtons s) (m_pressedKeys s)
    (m_mouseSensitivity s) delay (m_keyboardRepeatRate s)
    (m_keyRepeatTimer s) (m_lastPressedKey s) (m_lastMousePos s)
    (m_remoteResolution s) (m_localResolution s) (m_zoomLevel s).

Definition set_keyboardRepeatRate (rate : Z) (s : State) : State :=
  mkState (m_inputCaptured s) (m_pressedButtons s) (m_pressedKeys s)
    (m_mouseSensitivity s) (m_keyboardRepeatDelay s) rate
    (m_keyRepeatTimer s) (m_lastPressedKey s) (m_lastMousePos s)
    (m_remoteResolution s) (m_localResolution s) (m_zoomLevel s).

(** Calls on [QApplication]'s stack of override cursors. *)
Inductive CursorCall : Type :=
  | SetOverrideCursor (shape : CursorShape)
  | RestoreOverrideCursor.

Definition setMouseSensitivity (sensitivity : double) : Eff State CursorCall unit :=
  Eff.modify (set_mouseSensitivity (qBound_double one_tenth sensitivity 5%float)).

Definition setKeyboardRepeatDelay (delay : Z) : Eff State CursorCall unit :=
  Eff.modify (set_keyboardRepeatDelay (qBound 100 delay 2000)).

Definition setKeyboardRepeatRate (rate : Z) : Eff State CursorCall unit :=
  Eff.modify (set_keyboardRepeatRate (qBound 10 rate 100)).

Definition releaseInput : Eff State CursorCall unit :=
  Eff.modify (set_inputCaptured false) ;;;
  Eff.modify (set_pressedButtons (fun _ => NoButton)) ;;;
  Eff.modify (set_pressedKeys (fun _ => ∅)) ;;;
  Eff.modify (set_keyRepeatTimer timer_stop) ;;;
  Eff.tell RestoreOverrideCursor.

Definition captureInput (capture : bool) : Eff State CursorCall unit :=
  Eff.modify (set_inputCaptured capture) ;;;
  if capture then Eff.tell (SetOverrideCursor BlankCursor)
  else releaseInput.

(** The entry points of the class: the public member functions and the
    slot of the repeat timer. *)
Inductive Op : Type :=
  | HandleMouseEvent (event : QMouseEvent)
  | HandleKeyEvent (event : QKeyEvent)
  | HandleWheelEvent (event : QWheelEvent)
  | SetMouseSensitivity (sensitivity : double)
  | SetKeyboardRepeatDelay (delay : Z)
  | SetKeyboardRepeatRate (rate : Z)
  | CaptureInput (capture : bool)
  | ReleaseInput
  | OnKeyRepeat.

(** What an entry point does to the outside: a signal or a cursor call. *)
Inductive Event : Type :=
  | Signalled (sig : Signal)
  | Cursor (call : CursorCall).

Definition step (op : Op) : Eff State Event unit :=
  match op with
  | HandleMouseEvent event => relabel Signalled (handleMouseEvent event)
  | HandleKeyEvent event => relabel Signalled (handleKeyEvent event)
  | HandleWheelEvent event => relabel Signalled (handleWheelEvent event)
  | SetMouseSensitivity sensitivity => relabel Cursor (setMouseSensitivity sensitivity)
  | SetKeyboardRepeatDelay delay => relabel Cursor (setKeyboardRepeatDelay delay)
  | SetKeyboardRepeatRate rate => relabel Cursor (setKeyboardRepeatRate rate)
  | CaptureInput capture => relabel Cursor (captureInput capture)
  | ReleaseInput => relabel Cursor releaseInput
  | OnKeyRepeat => relabel Signalled onKeyRepeat
  end.

(** A sequence of calls, first to last. *)
Fixpoint run (ops : list Op) : Eff State Event unit :=
  match ops with
  | [] => Eff.ret tt
  | op :: rest => step op ;;; run rest
  end.

(** The signals among the events. *)
Definition signals (t : list Event) : list Signal :=
  omap (fun e => match e with Signalled sig => Some sig | Cursor _ => None end) t.

End InputHandlerOps.

(** ** RDPDisplayWidget: the display surface and its event handlers *)

Module RDPDisplayEvents.
Import Qt QtMore RDPDisplayWidget.
Local Open Scope eff_scope.

(** The widget with its pixmap member. *)
Record Widget : Type := mkWidget {
  core : State;
  m_displayPixmap : QPixmap
}.

Definition set_geometry (size : QSize) (s : State) : State :=
  mkState size (m_zoomLevel s) (m_isFullscreen s) (m_remoteResolution s) (m_widgetSize s)
    (m_mouseCaptured s) (m_keyboardCaptured s) (m_pressedButtons s)
    (m_useHardwareAcceleration s).
Definition set_zoomLevel (zoom : double) (s : State) : State :=
  mkState (geometry s) zoom (m_isFullscreen s) (m_remoteResolution s) (m_widgetSize s)
    (m_mouseCaptured s) (m_keyboardCaptured s) (m_pressedButtons s)
    (m_useHardwareAcceleration s).
Definition set_isFullscreen (b : bool) (s : State) : State :=
  mkState (geometry s) (m_zoomLevel s) b (m_remoteResolution s) (m_widgetSize s)
    (m_mouseCaptured s) (m_keyboardCaptured s) (m_pressedButtons s)
    (m_useHardwareAcceleration s).
Definition set_remoteResolution (size : QSize) (s : State) : State :=
  mkState (geometry s) (m_zoomLevel s) (m_isFullscreen s) size (m_widgetSize s)
    (m_mouseCaptured s) (m_keyboardCaptured s) (m_pressedButtons s)
    (m_useHardwareAcceleration s).
Definition set_widgetSize (size : QSize) (s : State) : State :=
  mkState (geometry s) (m_zoomLevel s) (m_isFullscreen s) (m_remoteResolution s) size
    (m_mouseCaptured s) (m_keyboardCaptured s) (m_pressedButtons s)
    (m_useHardwareAcceleration s).
Definition set_pressedButtons (f : Z -> Z) (s : State) : State :=
  mkState (geometry s) (m_zoomLevel s) (m_isFullscreen s) (m_remoteResolution s)
    (m_widgetSize s) (m_mouseCaptured s) (m_keyboardCaptured s) (f (m_pressedButtons s))
    (m_useHardwareAcceleration s).

Definition on_core (f : State -> State) (w : Widget) : Widget :=
  mkWidget (f (core w)) (m_displayPixmap w).
Definition set_displayPixmap (p : QPixmap) (w : Widget) : Widget :=
  mkWidget (core w) p.

(** The widget the constructor leaves; [size] is the size the toolkit gave
    the new [QWidget]. *)
Definition init (size : QSize) : Widget :=
  mkWidget
    (mkState size 1%float false (mkQSize 1024 768) (mkQSize 800 600)
       false false NoButton true)
    (blackPixmap (mkQSize 1024 768)).

(** The signals of the class. *)
Inductive Signal : Type :=
  | mouseEvent (x y button : Z) (pressed : bool)
  | keyEvent (key : Z) (pressed : bool)
  | wheelEvent (delta : Z)
  | focusChanged (focused : bool).

(** Signals and the calls on the widget itself and on its painter. *)
Inductive Effect : Type :=
  | Emit (sig : Signal)
  | Update
  | SetFocus
  | ShowFullScreen
  | ShowNormal
  | FillRect (area : QRect)
  | DrawText (area : QRect) (text : string)
  | DrawPixmap (target : QRect) (pixmap : QPixmap) (source : QRect).

Definition Handler : Type := Eff Widget Effect unit.
Definition emit (sig : Signal) : Handler := Eff.tell (Emit sig).

Definition emitted (t : list Effect) : list Signal :=
  omap (fun e => match e with Emit sig => Some sig | _ => None end) t.

Definition updateBitmap (image : GoRDPBridge.QImage) : Handler :=
  match image with
  | GoRDPBridge.NullImage => Eff.ret tt
  | GoRDPBridge.Image size bits =>
      Eff.modify (on_core (set_remoteResolution size)) ;;;
      Eff.modify (set_displayPixmap (Pixmap size (Bits bits))) ;;;
      Eff.tell Update
  end.

Definition clearDisplay : Handler :=
  let* this := Eff.get in
  Eff.modify (set_displayPixmap (blackPixmap (m_remoteResolution (core this)))) ;;;
  Eff.tell Update.

Definition setZoomLevel (zoom : double) : Handler :=
  if PrimFloat.ltb zoom one_tenth || PrimFloat.ltb 5%float zoom then Eff.ret tt
  else
    Eff.modify (on_core (set_zoomLevel zoom)) ;;;
    Eff.tell Update.

Definition setFullscreen (fullscreen : bool) : Handler :=
  Eff.modify (on_core (set_isFullscreen fullscreen)) ;;;
  if fullscreen then Eff.tell ShowFullScreen else Eff.tell ShowNormal.

Definition handleResize (width height : Z) : Handler :=
  Eff.modify (on_core (set_widgetSize (mkQSize width height))) ;;;
  Eff.tell Update.

(** The rectangle [paintEvent] draws the pixmap into. *)
Definition targetRect (this : State) : QRect :=
  let scaledSize := size_scale (m_remoteResolution this) (m_zoomLevel this) in
  let targetRect := rect this in
  let targetRect :=
    if width scaledSize <? rect_width targetRect then
      setWidth (width scaledSize)
        (setX (int_div (int_sub (rect_width targetRect) (width scaledSize)) 2) targetRect)
    else targetRect in
  let targetRect :=
    if height scaledSize <? rect_height targetRect then
      setHeight (height scaledSize)
        (setY (int_div (int_sub (rect_height targetRect) (height scaledSize)) 2) targetRect)
    else targetRect in
  targetRect.

Definition paintEvent : Handler :=
  let* this := Eff.get in
  if pixmap_isNull (m_displayPixmap this) then
    Eff.tell (FillRect (rect (core this))) ;;;
    Eff.tell (DrawText (rect (core this)) "No remote display")
  else
    Eff.tell (DrawPixmap (targetRect (core this)) (m_displayPixmap this)
                (pixmap_rect (m_displayPixmap this))).

(** The widget has been resized to [size] by the toolkit, which then
    delivers the resize event. *)
Definition resizeEvent (size : QSize) : Handler :=
  Eff.modify (on_core (set_geometry size)) ;;;
  Eff.modify (on_core (set_widgetSize size)).

Definition mousePressEvent (event : InputHandler.QMouseEvent) : Handler :=
  let* this := Eff.get in
  let remotePoint := convertToRemoteCoordinates (core this) (InputHandler.mouse_pos event) in
  let button := convertQtMouseButton (core this) (InputHandler.mouse_button event) in
  emit (mouseEvent (px remotePoint) (py remotePoint) button true) ;;;
  Eff.modify (on_core (set_pressedButtons
                         (fun b => Z.lor b (InputHandler.mouse_button event)))) ;;;
  Eff.tell SetFocus.

Definition mouseReleaseEvent (event : InputHandler.QMouseEvent) : Handler :=
  let* this := Eff.get in
  let remotePoint := convertToRemoteCoordinates (core this) (InputHandler.mouse_pos event) in
  let button := convertQtMouseButton (core this) (InputHandler.mouse_button event) in
  emit (mouseEvent (px remotePoint) (py remotePoint) button false) ;;;
  Eff.modify (on_core (set_pressedButtons
                         (fun b => Z.land b (Z.lnot (InputHandler.mouse_button event))))).

Definition mouseMoveEvent (event : InputHandler.QMouseEvent) : Handler :=
  let* this := Eff.get in
  let remotePoint := convertToRemoteCoordinates (core this) (InputHandler.mouse_pos event) in
  emit (mouseEvent (px remotePoint) (py remotePoint) 0 false).

(** The handler of wheel events; in the source it is called [wheelEvent],
    as the signal is. *)
Definition wheelEventHandler (event : InputHandler.QWheelEvent) : Handler :=
  let delta := py (InputHandler.angleDelta event) in
  emit (wheelEvent delta).

Definition keyPressEvent (event : InputHandler.QKeyEvent) : Handler :=
  let* this := Eff.get in
  let rdpKey := convertQtKeyToRDP (core this) (InputHandler.key event) in
  emit (keyEvent rdpKey true).

Definition keyReleaseEvent (event : InputHandler.QKeyEvent) : Handler :=
  let* this := Eff.get in
  let rdpKey := convertQtKeyToRDP (core this) (InputHandler.key event) in
  emit (keyEvent rdpKey false).

Definition focusInEvent : Handler := emit (focusChanged true).
Definition focusOutEvent : Handler := emit (focusChanged false).

Definition convertFromRemoteCoordinates (this : State) (remotePoint : QPoint) : QPoint :=
  if isEmpty (m_remoteResolution this) then remotePoint
  else
    (* the display area is computed by the same statements as in [paintEvent] *)
    let displayRect := targetRect this in
    mkQPoint
      (int_of_double
         (PrimFloat.add (PrimFloat.mul (double_of_int (px remotePoint)) (m_zoomLevel this))
                        (double_of_int (x1 displayRect))))
      (int_of_double
         (PrimFloat.add (PrimFloat.mul (double_of_int (py remotePoint)) (m_zoomLevel this))
                        (double_of_int (y1 displayRect)))).

(** The public member functions and the event handlers the toolkit calls. *)
Inductive Op : Type :=
  | UpdateBitmap (image : GoRDPBridge.QImage)
  | ClearDisplay
  | SetZoomLevel (zoom : double)
  | SetFullscreen (fullscreen : bool)
  | HandleResize (width height : Z)
  | PaintEvent
  | ResizeEvent (size : QSize)
  | MousePressEvent (event : InputHandler.QMouseEvent)
  | MouseReleaseEvent (event : InputHandler.QMouseEvent)
  | MouseMoveEvent (event : InputHandler.QMouseEvent)
  | WheelEvent (event : InputHandler.QWheelEvent)
  | KeyPressEvent (event : InputHandler.QKeyEvent)
  | KeyReleaseEvent (event : InputHandler.QKeyEvent)
  | FocusInEvent
  | FocusOutEvent.

Definition step (op : Op) : Handler :=
  match op with
  | UpdateBitmap image => updateBitmap image
  | ClearDisplay => clearDisplay
  | SetZoomLevel zoom => setZoomLevel zoom
  | SetFullscreen fullscreen => setFullscreen fullscreen
  | HandleResize width height => handleResize width height
  | PaintEvent => paintEvent
  | ResizeEvent size => resizeEvent size
  | MousePressEvent event => mousePressEvent event
  | MouseReleaseEvent event => mouseReleaseEvent event
  | MouseMoveEvent event => mouseMoveEvent event
  | WheelEvent event => wheelEventHandler event
  | KeyPressEvent event => keyPressEvent event
  | KeyReleaseEvent event => keyReleaseEvent event
  | FocusInEvent => focusInEvent
  | FocusOutEvent => focusOutEvent
  end.

Fixpoint run (ops : list Op) : Handler :=
  match ops with
  | [] => Eff.ret tt
  | op :: rest => step op ;;; run rest
  end.

(** A [QImage] that is not null has at least one pixel in each direction;
    an operation is well formed when the image it carries is. *)
Definition image_ok (image : GoRDPBridge.QImage) : bool :=
  match image with
  | GoRDPBridge.NullImage => true
  | GoRDPBridge.Image size _ => negb (isEmpty size)
  end.

Definition op_ok (op : Op) : bool :=
  match op with
  | UpdateBitmap image => image_ok image
  | _ => true
  end.

End RDPDisplayEvents.

(** ** GoRDPBridge: the remaining member functions and the bridge as a machine *)

Module GoRDPBridgeOps.
Import Qt GoRDPBridge.
Local Open Scope eff_scope.

Definition checkGoRDPAvailability (env : Env) : Method bool :=
  let* executablePath := getGoRDPExecutablePath env in
  if String.eqb executablePath EmptyString then Eff.ret false else Eff.ret true.

Definition saveConnectionHistory (connection : QJsonObject) : Method unit :=
  let requestData := json_set "connection" (JObject connection) [] in
  sendHttpRequest "/api/history/save" requestData.

Definition loadConnectionHistory : Method unit :=
  sendHttpRequest "/api/history/load" [].

Definition saveFavorites (favorites : QJsonArray) : Method unit :=
  let requestData := json_set "favorites" (JArray favorites) [] in
  sendHttpRequest "/api/favorites/save" requestData.

Definition loadFavorites : Method unit :=
  sendHttpRequest "/api/favorites/load" [].

(** [QProcess::ProcessError]. *)
Inductive ProcessError : Type :=
  | FailedToStart | Crashed | Timedout | ReadError | WriteError | UnknownError.

Definition onProcessError (error : ProcessError) : Method unit :=
  Eff.modify (set_apiRunning false) ;;;
  let errorString :=
    match error with
    | FailedToStart => "Failed to start GoRDP API"
    | Crashed => "GoRDP API crashed"
    | _ => "GoRDP API process error"
    end in
  emit (apiError errorString).

Definition onWebSocketConnected : Method unit := Eff.ret tt.
Definition onWebSocketDisconnected : Method unit := Eff.ret tt.

Definition createRequest (action : string) (data : QJsonObject) : QJsonObject :=
  let request := json_set "action" (JString action) [] in
  if negb (json_isEmpty data) then json_set "data" (JObject data) request
  else request.

(** The public member functions and the slots Qt calls. *)
Inductive Call : Type :=
  | CheckGoRDPAvailability
  | StartGoRDPAPI
  | StopGoRDPAPI
  | ConnectToServer (server : string) (port : Z) (username password : string)
      (options : QJsonObject)
  | DisconnectFromServer
  | SendMouseEvent (x y button : Z) (pressed : bool)
  | SendKeyEvent (key : Z) (pressed : bool)
  | SendWheelEvent (delta : Z)
  | SaveConnectionHistory (connection : QJsonObject)
  | LoadConnectionHistory
  | SaveFavorites (favorites : QJsonArray)
  | LoadFavorites
  | GetPerformanceStats
  | GetConnectionStatus
  | OnNetworkReplyFinished (reply : QNetworkReply)
  | OnWebSocketConnected
  | OnWebSocketDisconnected
  | OnWebSocketTextMessageReceived (message : string)
  | OnWebSocketBinaryMessageReceived (message : QByteArray)
  | OnProcessFinished (exitCode : Z) (standardError : string)
  | OnProcessError (error : ProcessError).

Definition step (env : Env) (call : Call) : Method unit :=
  match call with
  | CheckGoRDPAvailability => checkGoRDPAvailability env ;;; Eff.ret tt
  | StartGoRDPAPI => startGoRDPAPI env
  | StopGoRDPAPI => stopGoRDPAPI env
  | ConnectToServer server port username password options =>
      connectToServer server port username password options
  | DisconnectFromServer => disconnectFromServer
  | SendMouseEvent x y button pressed => sendMouseEvent env x y button pressed
  | SendKeyEvent key pressed => sendKeyEvent env key pressed
  | SendWheelEvent delta => sendWheelEvent env delta
  | SaveConnectionHistory connection => saveConnectionHistory connection
  | LoadConnectionHistory => loadConnectionHistory
  | SaveFavorites favorites => saveFavorites favorites
  | LoadFavorites => loadFavorites
  | GetPerformanceStats => getPerformanceStats
  | GetConnectionStatus => getConnectionStatus
  | OnNetworkReplyFinished reply => onNetworkReplyFinished env reply
  | OnWebSocketConnected => onWebSocketConnected
  | OnWebSocketDisconnected => onWebSocketDisconnected
  | OnWebSocketTextMessageReceived message => onWebSocketTextMessageReceived env message
  | OnWebSocketBinaryMessageReceived message => onWebSocketBinaryMessageReceived env message
  | OnProcessFinished exitCode standardError => onProcessFinished exitCode standardError
  | OnProcessError error => onProcessError error
  end.

(** A sequence of calls, each in the environment it meets. *)
Fixpoint run (calls : list (Env * Call)) : Method unit :=
  match calls with
  | [] => Eff.ret tt
  | (env, call) :: rest => step env call ;;; run rest
  end.

(** The socket addresses opened in a trace. *)
Definition websocket_opens (t : list Action) : list string :=
  omap (fun a => match a with WebSocketOpen url => Some url | _ => None end) t.

(** The endpoints of the engine's HTTP interface the bridge knows. *)
Definition endpoints : list string :=
  [ "/api/connect"; "/api/disconnect"; "/api/history/save"; "/api/history/load";
    "/api/favorites/save"; "/api/favorites/load"; "/api/performance/stats"; "/api/status" ].

End GoRDPBridgeOps.

(** ** MainWindow: the connections between the widget and the bridge
    (src/mainwindow/mainwindow.cpp) *)

Module MainWindow.
Import Qt.
Local Open Scope eff_scope.

(** [setupCentralWidget] connects the widget's [mouseEvent] signal to
    [GoRDPBridge::sendMouseEvent] and its [keyEvent] signal to
    [GoRDPBridge::sendKeyEvent]; no other signal of the widget is connected. *)
Definition widget_signal_slot (env : GoRDPBridge.Env) (sig : RDPDisplayEvents.Signal)
    : GoRDPBridge.Method unit :=
  match sig with
  | RDPDisplayEvents.mouseEvent x y button pressed =>
      GoRDPBridge.sendMouseEvent env x y button pressed
  | RDPDisplayEvents.keyEvent key pressed => GoRDPBridge.sendKeyEvent env key pressed
  | RDPDisplayEvents.wheelEvent _ => Eff.ret tt
  | RDPDisplayEvents.focusChanged _ => Eff.ret tt
  end.

Fixpoint deliver_to_bridge (env : GoRDPBridge.Env) (sigs : list RDPDisplayEvents.Signal)
    : GoRDPBridge.Method unit :=
  match sigs with
  | [] => Eff.ret tt
  | sig :: rest => widget_signal_slot env sig ;;; deliver_to_bridge env rest
  end.

(** [onBitmapReceived], the slot the constructor connects to
    [GoRDPBridge::bitmapReceived]. *)
Definition onBitmapReceived (image : GoRDPBridge.QImage) : RDPDisplayEvents.Handler :=
  RDPDisplayEvents.updateBitmap image.

Fixpoint deliver_to_widget (sigs : list GoRDPBridge.Signal) : RDPDisplayEvents.Handler :=
  match sigs with
  | [] => Eff.ret tt
  | GoRDPBridge.bitmapReceived image :: rest =>
      onBitmapReceived image ;;; deliver_to_widget rest
  | _ :: rest => deliver_to_widget rest
  end.

(** The widget and the bridge the window owns. *)
Record App : Type := mkApp {
  display : RDPDisplayEvents.Widget;
  bridge : GoRDPBridge.State
}.

(** An event on the widget: its handler runs, and each signal it emits
    runs the connected slot of the bridge.  The result is the new
    application state and what the bridge did. *)
Definition widget_event (env : GoRDPBridge.Env) (op : RDPDisplayEvents.Op) (app : App)
    : App * list GoRDPBridge.Action :=
  let '(_, display', effects) := RDPDisplayEvents.step op (display app) in
  let '(_, bridge', actions) :=
    deliver_to_bridge env (RDPDisplayEvents.emitted effects) (bridge app) in
  (mkApp display' bridge', actions).

(** A call or slot invocation on the bridge: each [bitmapReceived] it emits
    runs [onBitmapReceived] on the widget. *)
Definition bridge_event (env : GoRDPBridge.Env) (call : GoRDPBridgeOps.Call) (app : App)
    : App * list GoRDPBridge.Action :=
  let '(_, bridge', actions) := GoRDPBridgeOps.step env call (bridge app) in
  let '(_, display', _) :=
    deliver_to_widget (GoRDPBridge.emitted actions) (display app) in
  (mkApp display' bridge', actions).

End MainWindow.

(** * Vocabulary of the statements and sample objects *)

Definition uppercase_letters : string := "ABCDEFGHIJKLMNOPQRSTUVWXYZ".
Definition decimal_digits : string := "0123456789".

(** ASCII code of the [i]-th character of [s]. *)
Definition ascii_code_at (s : string) (i : nat) : Z :=
  match String.get i s with
  | Some c => Z.of_N (N_of_ascii c)
  | None => 0
  end.

Definition captured_handler : InputHandler.State :=
  InputHandler.mkState true Qt.NoButton ∅ 1%float 500 30 (Qt.mkQTimer false 0) 0
    (Qt.mkQPoint 0 0) (Qt.mkQSize 1920 1080) (Qt.mkQSize 1024 768) 1.5%float.

Definition half_zoom_widget : RDPDisplayWidget.State :=
  RDPDisplayWidget.mkState (Qt.mkQSize 800 600) 0.5%float false (Qt.mkQSize 1024 768)
    (Qt.mkQSize 800 600) false false Qt.NoButton true.

Definition blank_widget : RDPDisplayWidget.State :=
  RDPDisplayWidget.mkState (Qt.mkQSize 800 600) 1%float false (Qt.mkQSize 0 0)
    (Qt.mkQSize 800 600) false false Qt.NoButton true.

Definition other_handler : InputHandler.State :=
  InputHandler.mkState false Qt.LeftButton {[ Qt.Key_A ]} 2%float 100 10
    (Qt.mkQTimer true 30) Qt.Key_A (Qt.mkQPoint 5 6)
    (Qt.mkQSize 1920 1080) (Qt.mkQSize 1024 768) 1.5%float.

Definition other_widget : RDPDisplayWidget.State :=
  RDPDisplayWidget.mkState (Qt.mkQSize 800 600) 0.5%float true (Qt.mkQSize 1024 768)
    (Qt.mkQSize 640 480) true true Qt.RightButton false.

Section BridgeSamples.
Import Qt GoRDPBridge.

(** An engine found on the PATH that starts, with the socket connected. *)
Definition healthy_env : Env :=
  mkEnv (Some "/usr/local/bin/gordp-api") EmptyString (fun _ => false) Running true
    (fun _ => true) ConnectedState (fun _ => None) (fun _ => None).

(** No engine anywhere, nothing running, the socket closed. *)
Definition bare_env : Env :=
  mkEnv None EmptyString (fun _ => false) NotRunning false
    (fun _ => false) UnconnectedState (fun _ => None) (fun _ => None).

(** An engine in the working directory that hangs: it neither starts nor
    stops in time. *)
Definition stuck_env : Env :=
  mkEnv None EmptyString (fun path => String.eqb path "./gordp-api") Starting false
    (fun _ => false) ConnectingState (fun _ => None) (fun _ => None).

(** The engine shipped in [bin/] with another copy on the search path. *)
Definition packaged_env : Env :=
  mkEnv None "/opt/gordp/gordp-api"
    (fun path => String.eqb path "bin/gordp-api" || String.eqb path "/opt/gordp/gordp-api")
    NotRunning true (fun _ => true) ConnectedState (fun _ => None) (fun _ => None).

(** The engine only on the search path of [QStandardPaths]. *)
Definition installed_env : Env :=
  mkEnv None "/opt/gordp/gordp-api" (fun path => String.eqb path "/opt/gordp/gordp-api")
    NotRunning true (fun _ => true) ConnectedState (fun _ => None) (fun _ => None).

Definition running_bridge : State := set_apiRunning true init.

(** What C3 asks of one call with result [r]: a single text message with
    the given ["type"] member when the socket is connected, no action
    otherwise, and the bridge unchanged. *)
Definition sends_iff_connected (env : Env) (this : State)
    (r : unit * State * list Action) (type : string) : Prop :=
  (socketState env = ConnectedState ->
     exists message, Eff.trace_of r = [WebSocketSendTextMessage message] /\
                     json_get "type" message = Some (JString type)) /\
  (socketState env <> ConnectedState -> Eff.trace_of r = []) /\
  (websocket_messages (Eff.trace_of r) <> [] <-> socketState env = ConnectedState) /\
  Eff.state_of r = this.

(** The path [getGoRDPExecutablePath] returns; it does not depend on the bridge. *)
Definition executablePath (env : Env) : string :=
  fst (fst (getGoRDPExecutablePath env init)).

Definition failed_reply : QNetworkReply :=
  mkQNetworkReply 1 "Connection refused" [].
Definition garbled_reply : QNetworkReply :=
  mkQNetworkReply NoError EmptyString (String.list_byte_of_string "<html>").

(** C2 as stated: every binary message from the engine reaches the GUI, that
    is, whatever the image loader makes of the bytes, the handler emits a
    signal for the message. *)
Definition forwards_every_binary_message : Prop :=
  forall (env : Env) (message : QByteArray) (this : State),
    exists sig, emitted (Eff.trace_of (onWebSocketBinaryMessageReceived env message this)) = [sig].

(** A frame that is not in an image file format, as the engine would send a
    raw bitmap update, and a loader that knows single-pixel frames only. *)
Definition raw_frame : QByteArray := [Byte.x00; Byte.x01; Byte.x02; Byte.x03].

Definition pixel_env : Env :=
  mkEnv None EmptyString (fun _ => false) Running true (fun _ => true) ConnectedState
    (fun data => match data with
                 | [_] => Some (Image (mkQSize 1 1) [Byte.xff; Byte.xff; Byte.xff; Byte.xff])
                 | _ => None
                 end)
    (fun _ => None).

End BridgeSamples.

(** What every state of the input handler satisfies, however it was
    reached from the constructor. *)
Record handler_invariant (s : InputHandler.State) : Prop := {
  inv_delay : 100 <= InputHandler.m_keyboardRepeatDelay s <= 2000;
  inv_rate : 10 <= InputHandler.m_keyboardRepeatRate s <= 100;
  inv_idle :
    InputHandler.m_inputCaptured s = false ->
    InputHandler.m_pressedButtons s = Qt.NoButton /\
    InputHandler.m_pressedKeys s = ∅ /\
    Qt.active (InputHandler.m_keyRepeatTimer s) = false;
  inv_timer :
    Qt.active (InputHandler.m_keyRepeatTimer s) = true ->
    InputHandler.m_inputCaptured s = true /\
    InputHandler.m_lastPressedKey s ∈ InputHandler.m_pressedKeys s /\
    10 <= Qt.interval (InputHandler.m_keyRepeatTimer s) <= 2000;
  inv_keys :
    forall k, k ∈ InputHandler.m_pressedKeys s -> InputHandler.convertQtKeyToRDP s k <> 0;
  inv_scaling :
    InputHandler.m_remoteResolution s = Qt.mkQSize 1024 768 /\
    InputHandler.m_localResolution s = Qt.mkQSize 1024 768 /\
    InputHandler.m_zoomLevel s = 1%float
}.

(** The JSON document of an [inputEventSent] signal carries the values of
    the typed signal emitted with it. *)
Definition payload_matches (doc : Qt.QJsonObject) (sig : InputHandler.Signal) : Prop :=
  match sig with
  | InputHandler.mouseEvent x y button pressed =>
      doc = [ ("button", Qt.JInt button); ("pressed", Qt.JBool pressed);
              ("type", Qt.JString "mouse"); ("x", Qt.JInt x); ("y", Qt.JInt y) ]
  | InputHandler.keyEvent key pressed =>
      doc = [ ("key", Qt.JInt key); ("pressed", Qt.JBool pressed);
              ("type", Qt.JString "keyboard") ]
  | InputHandler.wheelEvent delta =>
      doc = [ ("delta", Qt.JInt delta); ("type", Qt.JString "wheel") ]
  | InputHandler.inputEventSent _ => False
  end.

(** A signal trace made of pairs: a JSON event followed by the typed signal
    it describes. *)
Fixpoint paired (t : list InputHandler.Signal) : Prop :=
  match t with
  | [] => True
  | InputHandler.inputEventSent doc :: sig :: rest => payload_matches doc sig /\ paired rest
  | _ => False
  end.

(** A handler with input captured, the keys A and B held and the repeat
    timer running for B; and sample call sequences. *)
Definition two_keys_handler : InputHandler.State :=
  InputHandler.mkState true Qt.NoButton {[ Qt.Key_A; 0x42 ]} 1%float 500 30
    (Qt.mkQTimer true 30) 0x42 (Qt.mkQPoint 0 0)
    (Qt.mkQSize 1024 768) (Qt.mkQSize 1024 768) 1%float.

Definition press_A : InputHandler.QKeyEvent :=
  InputHandler.mkQKeyEvent Qt.KeyPress Qt.Key_A false.
Definition release_B : InputHandler.QKeyEvent :=
  InputHandler.mkQKeyEvent Qt.KeyRelease 0x42 false.

Definition capture_type_release : list InputHandlerOps.Op :=
  [ InputHandlerOps.CaptureInput true;
    InputHandlerOps.HandleKeyEvent press_A;
    InputHandlerOps.HandleMouseEvent
      (InputHandler.mkQMouseEvent Qt.MouseButtonPress (Qt.mkQPoint 3 4) Qt.LeftButton);
    InputHandlerOps.CaptureInput false ].

Definition capture_and_type : list InputHandlerOps.Op :=
  [ InputHandlerOps.SetKeyboardRepeatDelay 50;
    InputHandlerOps.CaptureInput true;
    InputHandlerOps.HandleKeyEvent press_A ].

(** The codes the two key tables can return: 0 or a 7-bit value from
    backspace upwards. *)
Definition key_code_ok (code : Z) : Prop := code = 0 \/ 0x08 <= code <= 0x7E.

(** The keys only [InputHandler::convertQtKeyToRDP] knows. *)
Definition handler_only_keys : list Z :=
  [ Qt.Key_CapsLock; Qt.Key_Shift; Qt.Key_Control; Qt.Key_Alt; Qt.Key_Enter ].

Definition mouse_at (type : Qt.EventType) (x y button : Z) : InputHandler.QMouseEvent :=
  InputHandler.mkQMouseEvent type (Qt.mkQPoint x y) button.

(** What the display surface keeps: a remote resolution that is not empty
    and a pixmap of exactly that size. *)
Record surface_invariant (w : RDPDisplayEvents.Widget) : Prop := {
  surface_resolution :
    Qt.isEmpty (RDPDisplayWidget.m_remoteResolution (RDPDisplayEvents.core w)) = false;
  surface_pixmap :
    exists pixels,
      RDPDisplayEvents.m_displayPixmap w
      = QtMore.Pixmap (RDPDisplayWidget.m_remoteResolution (RDPDisplayEvents.core w)) pixels
}.

(** A zoom level the widget accepts: neither below 0.1 nor above 5. *)
Definition zoom_in_range (zoom : Qt.double) : Prop :=
  PrimFloat.ltb zoom QtMore.one_tenth = false /\ PrimFloat.ltb 5%float zoom = false.

(** The coordinates of a [mouseEvent] signal lie inside a resolution. *)
Definition inside (resolution : Qt.QSize) (sig : RDPDisplayEvents.Signal) : Prop :=
  match sig with
  | RDPDisplayEvents.mouseEvent x y _ _ =>
      0 <= x <= Qt.width resolution - 1 /\ 0 <= y <= Qt.height resolution - 1
  | _ => False
  end.

Definition small_frame : GoRDPBridge.QImage :=
  GoRDPBridge.Image (Qt.mkQSize 320 200) [Byte.x00; Byte.x01].

Definition show_and_click : list RDPDisplayEvents.Op :=
  [ RDPDisplayEvents.UpdateBitmap small_frame;
    RDPDisplayEvents.SetZoomLevel 2%float;
    RDPDisplayEvents.SetZoomLevel 9%float;
    RDPDisplayEvents.MousePressEvent (mouse_at Qt.MouseButtonPress 700 10 Qt.LeftButton);
    RDPDisplayEvents.ClearDisplay ].

(** An action addressed to the engine on this machine: a JSON request to one
    of the known endpoints under [http://localhost:8080], or a socket opened
    to [ws://localhost:8080/ws]; actions that are no request and open no
    socket count as such. *)
Definition to_local_engine (a : GoRDPBridge.Action) : Prop :=
  match a with
  | GoRDPBridge.HttpPost url contentType _ =>
      contentType = "application/json" /\
      exists endpoint, endpoint ∈ GoRDPBridgeOps.endpoints /\
                       url = "http://localhost:8080" +:+ endpoint
  | GoRDPBridge.WebSocketOpen url => url = "ws://localhost:8080/ws"
  | _ => True
  end.

(** The action [a] with the ["password"] member of a posted body set to
    [password]; the URL and the content type of the request, the other
    members of its body and every other action are left as they are. *)
Definition with_password (password : string) (a : GoRDPBridge.Action) : GoRDPBridge.Action :=
  match a with
  | GoRDPBridge.HttpPost url contentType body =>
      GoRDPBridge.HttpPost url contentType
        (Qt.json_set "password" (Qt.JString password) body)
  | _ => a
  end.

(** The response types [handleHttpResponse] knows. *)
Definition response_types : list string :=
  [ "connection_status"; "error"; "history"; "favorites"; "performance" ].

(** The candidates [getGoRDPExecutablePath] tries when [which] fails. *)
Definition candidate_paths (env : GoRDPBridge.Env) : list string :=
  [ "./gordp-api"; "../gordp-api"; "bin/gordp-api"; GoRDPBridge.findExecutable env ].

Definition connected_bridge : GoRDPBridge.State :=
  GoRDPBridge.set_isConnected true running_bridge.

Definition status_message (connected : bool) : Qt.QJsonDocument :=
  Qt.DocObject [ ("connected", Qt.JBool connected); ("type", Qt.JString "connection_status") ].

Definition session : list (GoRDPBridge.Env * GoRDPBridgeOps.Call) :=
  [ (healthy_env, GoRDPBridgeOps.StartGoRDPAPI);
    (healthy_env, GoRDPBridgeOps.ConnectToServer "rdp.example.org" 3389 "alice" "secret" []);
    (healthy_env, GoRDPBridgeOps.OnWebSocketTextMessageReceived "status");
    (healthy_env, GoRDPBridgeOps.GetPerformanceStats);
    (healthy_env, GoRDPBridgeOps.SaveFavorites []);
    (healthy_env, GoRDPBridgeOps.DisconnectFromServer);
    (stuck_env, GoRDPBridgeOps.StopGoRDPAPI) ].

(** An action addressed to the engine at [base], with its socket on [port]. *)
Definition addressed (base : string) (port : Z) (a : GoRDPBridge.Action) : Prop :=
  match a with
  | GoRDPBridge.HttpPost url contentType _ =>
      contentType = "application/json" /\
      exists endpoint, endpoint ∈ GoRDPBridgeOps.endpoints /\ url = base +:+ endpoint
  | GoRDPBridge.WebSocketOpen url => url = "ws://localhost:" +:+ Qt.number port +:+ "/ws"
  | _ => True
  end.

(** The operations of the widget that are connected to the bridge: mouse
    and key events. *)
Definition is_input_event (op : RDPDisplayEvents.Op) : bool :=
  match op with
  | RDPDisplayEvents.MousePressEvent _ | RDPDisplayEvents.MouseReleaseEvent _
  | RDPDisplayEvents.MouseMoveEvent _
  | RDPDisplayEvents.KeyPressEvent _ | RDPDisplayEvents.KeyReleaseEvent _ => true
  | _ => false
  end.

Definition fresh_app : MainWindow.App :=
  MainWindow.mkApp (RDPDisplayEvents.init (Qt.mkQSize 800 600)) running_bridge.

(** An environment whose image loader accepts two-byte frames. *)
Definition frame_env : GoRDPBridge.Env :=
  GoRDPBridge.mkEnv None EmptyString (fun _ => false) GoRDPBridge.Running true
    (fun _ => true) GoRDPBridge.ConnectedState
    (fun data => match data with
                 | [_; _] => Some (GoRDPBridge.Image (Qt.mkQSize 320 200) data)
                 | _ => None
                 end)
    (fun _ => None).

(** * Properties *)

(** ** Auxiliary facts *)

Lemma switch_no_case {A} (x : Z) (cases : list (Z * A)) (d : A) :
  x ∉ map fst cases -> Qt.switch x cases d = d.
Proof.
  induction cases as [|[k v] rest IH]; simpl; intros Hx.
  - reflexivity.
  - apply not_elem_of_cons in Hx as [Hne Hrest].
    destruct (Z.eqb_spec x k) as [->|_]; [contradiction|].
    now apply IH.
Qed.

Lemma qBound_range (lo val hi : Z) :
  lo <= hi -> lo <= Qt.qBound lo val hi <= hi.
Proof.
  intros Hle. unfold Qt.qBound, Qt.qMax, Qt.qMin.
  destruct (Z.ltb_spec hi val); destruct (Z.ltb_spec lo hi);
    try destruct (Z.ltb_spec lo val); lia.
Qed.

Lemma isEmpty_false (sz : Qt.QSize) :
  Qt.isEmpty sz = false -> 1 <= Qt.width sz /\ 1 <= Qt.height sz.
Proof.
  unfold Qt.isEmpty. intros H. apply orb_false_iff in H as [Hw Hh].
  apply Z.ltb_ge in Hw, Hh. lia.
Qed.

(** Keys below the function-key block carry no [case] label of
    [InputHandler::convertQtKeyToRDP] except the space bar. *)
Lemma low_key_no_case (k : Z) :
  0x21 <= k < 0x01000000 -> k ∉ map fst InputHandler.key_cases.
Proof.
  intros Hk. unfold InputHandler.key_cases. cbn [map fst].
  repeat (apply not_elem_of_cons; split; [vm_compute; lia|]).
  apply not_elem_of_nil.
Qed.

Lemma uppercase_code (i : nat) :
  (i < 26)%nat -> ascii_code_at uppercase_letters i = 65 + Z.of_nat i.
Proof.
  intros Hi.
  do 26 (destruct i as [|i]; [reflexivity|]). lia.
Qed.

Lemma digit_code (i : nat) :
  (i < 10)%nat -> ascii_code_at decimal_digits i = 48 + Z.of_nat i.
Proof.
  intros Hi.
  do 10 (destruct i as [|i]; [reflexivity|]). lia.
Qed.

(** ** InputHandler *)

(** C1. [InputHandler::convertQtKeyToRDP] returns, for the [i]-th key of
    [Qt::Key_A .. Qt::Key_Z], the ASCII code of the [i]-th uppercase letter;
    for the [i]-th key of [Qt::Key_0 .. Qt::Key_9], the ASCII code of the
    [i]-th digit; for F1..F12 the codes 0x70..0x7B; for Left, Up, Right and
    Down the codes 0x25, 0x26, 0x27 and 0x28; and 0 for every key that has no
    [case] label and is neither a letter nor a digit.  When the conversion
    returns 0, [InputHandler::handleKeyEvent] emits no signal (and leaves the
    handler as it was). *)
Theorem convertQtKeyToRDP_translation (this : InputHandler.State) :
  (forall i : nat, (i < 26)%nat ->
     InputHandler.convertQtKeyToRDP this (Qt.Key_A + Z.of_nat i)
     = ascii_code_at uppercase_letters i) /\
  (forall i : nat, (i < 10)%nat ->
     InputHandler.convertQtKeyToRDP this (Qt.Key_0 + Z.of_nat i)
     = ascii_code_at decimal_digits i) /\
  (forall i : nat, (i < 12)%nat ->
     InputHandler.convertQtKeyToRDP this (Qt.Key_F1 + Z.of_nat i) = 0x70 + Z.of_nat i) /\
  InputHandler.convertQtKeyToRDP this Qt.Key_Left = 0x25 /\
  InputHandler.convertQtKeyToRDP this Qt.Key_Up = 0x26 /\
  InputHandler.convertQtKeyToRDP this Qt.Key_Right = 0x27 /\
  InputHandler.convertQtKeyToRDP this Qt.Key_Down = 0x28 /\
  (forall k : Z,
     k ∉ map fst InputHandler.key_cases ->
     ~ (Qt.Key_A <= k <= Qt.Key_Z) -> ~ (Qt.Key_0 <= k <= Qt.Key_9) ->
     InputHandler.convertQtKeyToRDP this k = 0) /\
  (forall event : InputHandler.QKeyEvent,
     InputHandler.convertQtKeyToRDP this (InputHandler.key event) = 0 ->
     InputHandler.handleKeyEvent event this = (tt, this, [])).
Proof.
  split; [|split; [|split; [|split; [|split; [|split; [|split; [|split]]]]]]].
  - intros i Hi. rewrite uppercase_code by assumption.
    unfold InputHandler.convertQtKeyToRDP.
    rewrite switch_no_case by (apply low_key_no_case; unfold Qt.Key_A; lia).
    unfold Qt.Key_A, Qt.Key_Z, InputHandler.char_A.
    replace (0x41 <=? 0x41 + Z.of_nat i) with true by (symmetry; apply Z.leb_le; lia).
    replace (0x41 + Z.of_nat i <=? 0x5a) with true by (symmetry; apply Z.leb_le; lia).
    cbn [andb]. change (Z.of_N (N_of_ascii "A")) with 65. lia.
  - intros i Hi. rewrite digit_code by assumption.
    unfold InputHandler.convertQtKeyToRDP.
    rewrite switch_no_case by (apply low_key_no_case; unfold Qt.Key_0; lia).
    unfold Qt.Key_A, Qt.Key_Z, Qt.Key_0, Qt.Key_9, InputHandler.char_0.
    replace (0x41 <=? 0x30 + Z.of_nat i) with false by (symmetry; apply Z.leb_gt; lia).
    replace (0x30 <=? 0x30 + Z.of_nat i) with true by (symmetry; apply Z.leb_le; lia).
    replace (0x30 + Z.of_nat i <=? 0x39) with true by (symmetry; apply Z.leb_le; lia).
    cbn [andb]. change (Z.of_N (N_of_ascii "0")) with 48. lia.
  - intros i Hi.
    do 12 (destruct i as [|i]; [reflexivity|]). lia.
  - reflexivity.
  - reflexivity.
  - reflexivity.
  - reflexivity.
  - intros k Hk HA H0. unfold InputHandler.convertQtKeyToRDP.
    rewrite switch_no_case by assumption.
    destruct (Z.leb_spec Qt.Key_A k), (Z.leb_spec k Qt.Key_Z); cbn [andb]; try lia;
      destruct (Z.leb_spec Qt.Key_0 k), (Z.leb_spec k Qt.Key_9); cbn [andb]; lia.
  - intros event Hzero. unfold InputHandler.handleKeyEvent, Eff.bind, Eff.get.
    destruct (InputHandler.m_inputCaptured this); cbn [negb]; [|reflexivity].
    rewrite Hzero. reflexivity.
Qed.

Lemma convertQtKeyToRDP_translation_witness :
  InputHandler.convertQtKeyToRDP captured_handler (Qt.Key_A + Z.of_nat 2) = 67 /\
  InputHandler.convertQtKeyToRDP captured_handler (Qt.Key_0 + Z.of_nat 7) = 55 /\
  InputHandler.convertQtKeyToRDP captured_handler (Qt.Key_F1 + Z.of_nat 11) = 0x7B /\
  InputHandler.convertQtKeyToRDP captured_handler 0x01000022 = 0 /\
  InputHandler.handleKeyEvent (InputHandler.mkQKeyEvent Qt.KeyPress 0x01000022 false)
    captured_handler = (tt, captured_handler, []).
Proof.
  destruct (convertQtKeyToRDP_translation captured_handler)
    as (HA & H0 & HF & _ & _ & _ & _ & Hother & Hnone).
  split; [apply (HA 2%nat); lia|].
  split; [apply (H0 7%nat); lia|].
  split; [apply (HF 11%nat); lia|].
  split.
  - apply Hother.
    + vm_compute. intros Hin.
      repeat (apply elem_of_cons in Hin as [Hin|Hin]; [discriminate Hin|]).
      now apply elem_of_nil in Hin.
    + unfold Qt.Key_A, Qt.Key_Z. lia.
    + unfold Qt.Key_0, Qt.Key_9. lia.
  - apply Hnone. reflexivity.
Defined.

(** C10. While [m_inputCaptured] is false, [InputHandler::handleMouseEvent],
    [handleKeyEvent] and [handleWheelEvent] emit no signal and return the
    handler with every field as it was. *)
Theorem handlers_idle_when_not_captured (this : InputHandler.State)
    (mouse : InputHandler.QMouseEvent) (keyboard : InputHandler.QKeyEvent)
    (wheel : InputHandler.QWheelEvent) :
  InputHandler.m_inputCaptured this = false ->
  InputHandler.handleMouseEvent mouse this = (tt, this, []) /\
  InputHandler.handleKeyEvent keyboard this = (tt, this, []) /\
  InputHandler.handleWheelEvent wheel this = (tt, this, []).
Proof.
  intros Hidle.
  unfold InputHandler.handleMouseEvent, InputHandler.handleKeyEvent,
    InputHandler.handleWheelEvent, Eff.bind, Eff.get.
  rewrite Hidle. simpl. auto.
Qed.

Lemma handlers_idle_when_not_captured_witness :
  InputHandler.m_inputCaptured InputHandler.init = false /\
  InputHandler.handleMouseEvent
    (InputHandler.mkQMouseEvent Qt.MouseButtonPress (Qt.mkQPoint 10 20) Qt.LeftButton)
    InputHandler.init = (tt, InputHandler.init, []) /\
  InputHandler.handleKeyEvent (InputHandler.mkQKeyEvent Qt.KeyPress Qt.Key_A false)
    InputHandler.init = (tt, InputHandler.init, []) /\
  InputHandler.handleWheelEvent (InputHandler.mkQWheelEvent (Qt.mkQPoint 0 240))
    InputHandler.init = (tt, InputHandler.init, []).
Proof.
  split; [reflexivity|].
  apply (handlers_idle_when_not_captured InputHandler.init). reflexivity.
Defined.

Example handleKeyEvent_when_captured :
  Eff.trace_of
    (InputHandler.handleKeyEvent (InputHandler.mkQKeyEvent Qt.KeyPress Qt.Key_A false)
       captured_handler)
  = [ InputHandler.inputEventSent
        [("key", Qt.JInt 65); ("pressed", Qt.JBool true); ("type", Qt.JString "keyboard")];
      InputHandler.keyEvent 65 true ].
Proof. reflexivity. Qed.

Example handleMouseEvent_when_captured :
  Eff.trace_of
    (InputHandler.handleMouseEvent
       (InputHandler.mkQMouseEvent Qt.MouseButtonPress (Qt.mkQPoint 100 (-7)) Qt.LeftButton)
       captured_handler)
  = [ InputHandler.inputEventSent
        [("button", Qt.JInt 1); ("pressed", Qt.JBool true); ("type", Qt.JString "mouse");
         ("x", Qt.JInt 281); ("y", Qt.JInt (-14))];
      InputHandler.mouseEvent 281 (-14) 1 true ].
Proof. vm_compute. reflexivity. Qed.

(** ** RDPDisplayWidget *)

(** C9. Whenever the remote resolution is not empty,
    [RDPDisplayWidget::convertToRemoteCoordinates] returns a point with x in
    [0, remote width - 1] and y in [0, remote height - 1], for every input
    point; when the remote resolution is empty it returns the input point. *)
Theorem convertToRemoteCoordinates_clamped (this : RDPDisplayWidget.State)
    (localPoint : Qt.QPoint) :
  (Qt.isEmpty (RDPDisplayWidget.m_remoteResolution this) = false ->
     0 <= Qt.px (RDPDisplayWidget.convertToRemoteCoordinates this localPoint)
       <= Qt.width (RDPDisplayWidget.m_remoteResolution this) - 1 /\
     0 <= Qt.py (RDPDisplayWidget.convertToRemoteCoordinates this localPoint)
       <= Qt.height (RDPDisplayWidget.m_remoteResolution this) - 1) /\
  (Qt.isEmpty (RDPDisplayWidget.m_remoteResolution this) = true ->
     RDPDisplayWidget.convertToRemoteCoordinates this localPoint = localPoint).
Proof.
  unfold RDPDisplayWidget.convertToRemoteCoordinates.
  split; intros Hres; rewrite Hres; [|reflexivity].
  apply isEmpty_false in Hres as [Hw Hh].
  cbn [Qt.px Qt.py].
  split; apply qBound_range; lia.
Qed.

Example convertToRemoteCoordinates_centre :
  RDPDisplayWidget.convertToRemoteCoordinates half_zoom_widget (Qt.mkQPoint 400 300)
  = Qt.mkQPoint 512 384.
Proof. vm_compute. reflexivity. Qed.

Example convertToRemoteCoordinates_corner :
  RDPDisplayWidget.convertToRemoteCoordinates half_zoom_widget (Qt.mkQPoint 799 (-5))
  = Qt.mkQPoint 1023 0.
Proof. vm_compute. reflexivity. Qed.

Lemma convertToRemoteCoordinates_clamped_witness :
  (0 <= Qt.px (RDPDisplayWidget.convertToRemoteCoordinates half_zoom_widget
                 (Qt.mkQPoint 799 (-5))) <= 1024 - 1 /\
   0 <= Qt.py (RDPDisplayWidget.convertToRemoteCoordinates half_zoom_widget
                 (Qt.mkQPoint 799 (-5))) <= 768 - 1) /\
  RDPDisplayWidget.convertToRemoteCoordinates blank_widget (Qt.mkQPoint 799 (-5))
  = Qt.mkQPoint 799 (-5).
Proof.
  split.
  - apply (proj1 (convertToRemoteCoordinates_clamped half_zoom_widget (Qt.mkQPoint 799 (-5)))).
    reflexivity.
  - apply (proj2 (convertToRemoteCoordinates_clamped blank_widget (Qt.mkQPoint 799 (-5)))).
    reflexivity.
Defined.

(** ** The mapping functions are pure *)

(** C7. Each of the six mapping functions returns the same result on any two
    objects that agree on the fields it reads (the resolutions and the zoom
    level for [InputHandler::convertToRemoteCoordinates]; the remote
    resolution, the zoom level and the widget rectangle for
    [RDPDisplayWidget::convertToRemoteCoordinates]; nothing for the key and
    button conversions), whatever the other fields hold.  The six are
    [const] member functions: in the embedding each is a function from the
    object and the argument to the result, with no state to return and no
    signal to emit. *)
Theorem mapping_functions_pure :
  (forall (s1 s2 : InputHandler.State) (qtKey : Z),
     InputHandler.convertQtKeyToRDP s1 qtKey = InputHandler.convertQtKeyToRDP s2 qtKey) /\
  (forall (s1 s2 : InputHandler.State) (button : Z),
     InputHandler.convertQtMouseButton s1 button
     = InputHandler.convertQtMouseButton s2 button) /\
  (forall (s1 s2 : InputHandler.State) (p : Qt.QPoint),
     InputHandler.m_remoteResolution s1 = InputHandler.m_remoteResolution s2 ->
     InputHandler.m_localResolution s1 = InputHandler.m_localResolution s2 ->
     InputHandler.m_zoomLevel s1 = InputHandler.m_zoomLevel s2 ->
     InputHandler.convertToRemoteCoordinates s1 p
     = InputHandler.convertToRemoteCoordinates s2 p) /\
  (forall (w1 w2 : RDPDisplayWidget.State) (p : Qt.QPoint),
     RDPDisplayWidget.m_remoteResolution w1 = RDPDisplayWidget.m_remoteResolution w2 ->
     RDPDisplayWidget.m_zoomLevel w1 = RDPDisplayWidget.m_zoomLevel w2 ->
     RDPDisplayWidget.rect w1 = RDPDisplayWidget.rect w2 ->
     RDPDisplayWidget.convertToRemoteCoordinates w1 p
     = RDPDisplayWidget.convertToRemoteCoordinates w2 p) /\
  (forall (w1 w2 : RDPDisplayWidget.State) (qtKey : Z),
     RDPDisplayWidget.convertQtKeyToRDP w1 qtKey
     = RDPDisplayWidget.convertQtKeyToRDP w2 qtKey) /\
  (forall (w1 w2 : RDPDisplayWidget.State) (button : Z),
     RDPDisplayWidget.convertQtMouseButton w1 button
     = RDPDisplayWidget.convertQtMouseButton w2 button).
Proof.
  repeat split.
  - intros s1 s2 p Hremote Hlocal Hzoom.
    unfold InputHandler.convertToRemoteCoordinates.
    now rewrite Hremote, Hlocal, Hzoom.
  - intros w1 w2 p Hremote Hzoom Hrect.
    unfold RDPDisplayWidget.convertToRemoteCoordinates.
    now rewrite Hremote, Hzoom, Hrect.
Qed.

Lemma mapping_functions_pure_witness :
  InputHandler.convertToRemoteCoordinates captured_handler (Qt.mkQPoint 100 (-7))
  = InputHandler.convertToRemoteCoordinates other_handler (Qt.mkQPoint 100 (-7)) /\
  RDPDisplayWidget.convertToRemoteCoordinates half_zoom_widget (Qt.mkQPoint 400 300)
  = RDPDisplayWidget.convertToRemoteCoordinates other_widget (Qt.mkQPoint 400 300).
Proof.
  destruct mapping_functions_pure as (_ & _ & Hhandler & Hwidget & _).
  split.
  - apply Hhandler; reflexivity.
  - apply Hwidget; reflexivity.
Defined.

(** ** GoRDPBridge *)

Section Bridge.
Import Qt GoRDPBridge.

Lemma guarded_send (env : Env) (this : State) (message : QJsonObject) (type : string) :
  json_get "type" message = Some (JString type) ->
  sends_iff_connected env this
    ((if bool_decide (socketState env = ConnectedState)
      then Eff.tell (WebSocketSendTextMessage message)
      else Eff.ret tt) this) type.
Proof.
  intros Htype. unfold sends_iff_connected.
  case_bool_decide as Hconn; cbn.
  - split; [intros _; now exists message|].
    split; [intros Hne; contradiction|].
    split; [|reflexivity].
    split; [intros _; assumption|intros _; discriminate].
  - split; [intros Heq; contradiction|].
    split; [reflexivity|].
    split; [|reflexivity].
    split; [intros Hne; now contradiction Hne|intros Heq; contradiction].
Qed.

(** C3. [sendMouseEvent], [sendKeyEvent] and [sendWheelEvent] send exactly
    one text message, a JSON object whose ["type"] member is ["mouse"],
    ["keyboard"] and ["wheel"] respectively, when the WebSocket is in
    [ConnectedState], and nothing in any other socket state; so a message is
    sent if and only if the socket is connected.  In neither case does the
    bridge change. *)
Theorem send_events_iff_connected (env : Env) (this : State)
    (x y button key delta : Z) (pressed : bool) :
  sends_iff_connected env this (sendMouseEvent env x y button pressed this) "mouse" /\
  sends_iff_connected env this (sendKeyEvent env key pressed this) "keyboard" /\
  sends_iff_connected env this (sendWheelEvent env delta this) "wheel".
Proof.
  unfold sendMouseEvent, sendKeyEvent, sendWheelEvent.
  split; [|split]; apply guarded_send; reflexivity.
Qed.

Lemma send_events_iff_connected_witness :
  (exists message,
     Eff.trace_of (sendKeyEvent healthy_env 65 true init) = [WebSocketSendTextMessage message] /\
     json_get "type" message = Some (JString "keyboard")) /\
  Eff.trace_of (sendWheelEvent bare_env (-1) init) = [].
Proof.
  split.
  - apply (send_events_iff_connected healthy_env init 10 20 1 65 (-1) true). reflexivity.
  - apply (send_events_iff_connected bare_env init 10 20 1 65 (-1) true). discriminate.
Defined.

Lemma getGoRDPExecutablePath_run (env : Env) (s : State) :
  getGoRDPExecutablePath env s
  = (executablePath env, s, [LookupStart "which" ["gordp-api"]]).
Proof.
  unfold executablePath, getGoRDPExecutablePath, Eff.bind, Eff.tell, Eff.ret.
  destruct (which_gordp_api env); [reflexivity|].
  destruct (find _ _); reflexivity.
Qed.

(** [startGoRDPAPI] path by path. *)
Lemma startGoRDPAPI_run (env : Env) (this : State) :
  startGoRDPAPI env this =
  let probe := LookupStart "which" ["gordp-api"] in
  let start := ProcessStart (executablePath env) ["--api"; "--port"; number (m_apiPort this)] in
  if m_apiRunning this then (tt, this, [])
  else if String.eqb (executablePath env) EmptyString then
    (tt, this, [probe; Emit (apiError "GoRDP executable not found")])
  else if waitForStarted env then
    (tt, set_apiRunning true this,
     [probe; start;
      WebSocketOpen ("ws://localhost:" +:+ number (m_apiPort this) +:+ "/ws");
      Emit apiStarted])
  else (tt, this, [probe; start; Emit (apiError "Failed to start GoRDP API server")]).
Proof.
  unfold startGoRDPAPI, Eff.bind at 1. unfold Eff.get.
  destruct (m_apiRunning this) eqn:Hrun; [reflexivity|].
  unfold Eff.bind at 1. rewrite getGoRDPExecutablePath_run.
  destruct (String.eqb (executablePath env) EmptyString); [reflexivity|].
  destruct (waitForStarted env); reflexivity.
Qed.

(** C4. [startGoRDPAPI] does nothing when the API is already running.
    Otherwise, when no executable is found it emits
    [apiError("GoRDP executable not found")] and does not start the engine
    process (the only process started is the [which] probe of the lookup);
    when one is found it starts it with the arguments [--api --port <port>],
    and then either the start succeeds: the API-running flag is set, the
    WebSocket is opened to [ws://localhost:<port>/ws] and [apiStarted] is
    emitted; or it fails: [apiError("Failed to start GoRDP API server")] is
    emitted and the bridge, its API-running flag included, stays as it was. *)
Theorem startGoRDPAPI_outcomes (env : Env) (this : State) :
  let r := startGoRDPAPI env this in
  let probe := LookupStart "which" ["gordp-api"] in
  let start := ProcessStart (executablePath env) ["--api"; "--port"; number (m_apiPort this)] in
  (m_apiRunning this = true -> r = (tt, this, [])) /\
  (m_apiRunning this = false -> executablePath env = EmptyString ->
     r = (tt, this, [probe; Emit (apiError "GoRDP executable not found")]) /\
     engine_starts (Eff.trace_of r) = []) /\
  (m_apiRunning this = false -> executablePath env <> EmptyString -> waitForStarted env = true ->
     r = (tt, set_apiRunning true this,
          [probe; start;
           WebSocketOpen ("ws://localhost:" +:+ number (m_apiPort this) +:+ "/ws");
           Emit apiStarted]) /\
     m_apiRunning (Eff.state_of r) = true) /\
  (m_apiRunning this = false -> executablePath env <> EmptyString -> waitForStarted env = false ->
     r = (tt, this, [probe; start; Emit (apiError "Failed to start GoRDP API server")]) /\
     m_apiRunning (Eff.state_of r) = false).
Proof.
  cbv zeta. rewrite startGoRDPAPI_run.
  split; [|split; [|split]].
  - intros ->. reflexivity.
  - intros -> ->. split; reflexivity.
  - intros -> Hfound ->. apply String.eqb_neq in Hfound. rewrite Hfound.
    split; reflexivity.
  - intros Hidle Hfound ->. apply String.eqb_neq in Hfound. rewrite Hidle, Hfound.
    split; [reflexivity|exact Hidle].
Qed.

Lemma startGoRDPAPI_outcomes_witness :
  startGoRDPAPI healthy_env running_bridge = (tt, running_bridge, []) /\
  startGoRDPAPI bare_env init
  = (tt, init, [LookupStart "which" ["gordp-api"];
                Emit (apiError "GoRDP executable not found")]) /\
  startGoRDPAPI healthy_env init
  = (tt, running_bridge,
     [LookupStart "which" ["gordp-api"];
      ProcessStart "/usr/local/bin/gordp-api" ["--api"; "--port"; "8080"];
      WebSocketOpen "ws://localhost:8080/ws";
      Emit apiStarted]) /\
  startGoRDPAPI stuck_env init
  = (tt, init, [LookupStart "which" ["gordp-api"];
                ProcessStart "./gordp-api" ["--api"; "--port"; "8080"];
                Emit (apiError "Failed to start GoRDP API server")]).
Proof.
  split; [|split; [|split]].
  - apply (startGoRDPAPI_outcomes healthy_env running_bridge). reflexivity.
  - apply (startGoRDPAPI_outcomes bare_env init); reflexivity.
  - apply (startGoRDPAPI_outcomes healthy_env init); [reflexivity|discriminate|reflexivity].
  - apply (startGoRDPAPI_outcomes stuck_env init); [reflexivity|discriminate|reflexivity].
Defined.

(** C8. [stopGoRDPAPI] terminates the engine process whenever its state is
    not [NotRunning], and kills it when [waitForFinished(5000)] reports that
    it has not finished; it then closes the WebSocket, clears the API-running
    and connected flags and emits [apiStopped].  The flags are false and
    [apiStopped] has been emitted whatever the state before the call. *)
Theorem stopGoRDPAPI_postconditions (env : Env) (this : State) :
  let r := stopGoRDPAPI env this in
  let stop_engine :=
    if decide (processState env = NotRunning) then []
    else if waitForFinished env 5000 then [ProcessTerminate]
    else [ProcessTerminate; ProcessKill] in
  Eff.trace_of r = stop_engine ++ [WebSocketClose; Emit apiStopped] /\
  Eff.state_of r = set_isConnected false (set_apiRunning false this) /\
  m_apiRunning (Eff.state_of r) = false /\
  m_isConnected (Eff.state_of r) = false /\
  emitted (Eff.trace_of r) = [apiStopped].
Proof.
  cbv zeta. unfold stopGoRDPAPI.
  destruct (decide (processState env = NotRunning)) as [Hstate|Hstate].
  - rewrite bool_decide_eq_true_2 by assumption. repeat split.
  - rewrite bool_decide_eq_false_2 by assumption.
    destruct (waitForFinished env 5000); repeat split.
Qed.

Example stopGoRDPAPI_kills_stuck_engine :
  stopGoRDPAPI stuck_env running_bridge
  = (tt, init, [ProcessTerminate; ProcessKill; WebSocketClose; Emit apiStopped]).
Proof. reflexivity. Qed.

Example stopGoRDPAPI_when_nothing_runs :
  stopGoRDPAPI bare_env init = (tt, init, [WebSocketClose; Emit apiStopped]).
Proof. reflexivity. Qed.


(** C6. When the API is not running, [connectToServer] emits
    [connectionError("GoRDP API not running")], posts nothing and leaves the
    bridge (its recorded connection parameters included) unchanged.  When the
    API is running, it records the server, port and user name and posts one
    request to [/api/connect] whose JSON body has the members ["server"],
    ["port"], ["username"] and ["password"] with the values passed, and the
    member ["options"] exactly when the options object is not empty. *)
Theorem connectToServer_request (this : State) (server : string) (port : Z)
    (username password : string) (options : QJsonObject) :
  let r := connectToServer server port username password options this in
  (m_apiRunning this = false ->
     r = (tt, this, [Emit (connectionError "GoRDP API not running")]) /\
     http_posts (Eff.trace_of r) = []) /\
  (m_apiRunning this = true ->
     Eff.state_of r
     = set_currentUsername username (set_currentPort port (set_currentServer server this)) /\
     Eff.state_of r
     = mkState (m_apiUrl this) (m_apiPort this) (m_isConnected this) (m_apiRunning this)
         server port username (m_lastPerformanceStats this) /\
     m_currentServer (Eff.state_of r) = server /\
     m_currentPort (Eff.state_of r) = port /\
     m_currentUsername (Eff.state_of r) = username /\
     exists body,
       Eff.trace_of r = [HttpPost (m_apiUrl this +:+ "/api/connect") "application/json" body] /\
       json_get "server" body = Some (JString server) /\
       json_get "port" body = Some (JInt port) /\
       json_get "username" body = Some (JString username) /\
       json_get "password" body = Some (JString password) /\
       (options = [] ->
          json_get "options" body = None /\
          json_keys body = ["password"; "port"; "server"; "username"]) /\
       (options <> [] ->
          json_get "options" body = Some (JObject options) /\
          json_keys body = ["options"; "password"; "port"; "server"; "username"])).
Proof.
  cbv zeta. unfold connectToServer, Eff.bind, Eff.get.
  split; intros Hrunning; rewrite Hrunning; cbn [negb].
  - split; reflexivity.
  - split; [reflexivity|].
    split; [destruct options; cbn; now rewrite <- Hrunning|].
    split; [destruct options; reflexivity|].
    split; [destruct options; reflexivity|].
    split; [destruct options; reflexivity|].
    destruct options as [|member rest]; cbn [json_isEmpty negb].
    + eexists. split; [reflexivity|].
      repeat (split; [reflexivity|]).
      split; [intros _; split; reflexivity|intros Hne; now contradiction Hne].
    + eexists. split; [reflexivity|].
      repeat (split; [reflexivity|]).
      split; [intros Heq; discriminate Heq|intros _; split; reflexivity].
Qed.

Lemma connectToServer_request_witness :
  connectToServer "rdp.example.org" 3389 "alice" "secret" [] init
  = (tt, init, [Emit (connectionError "GoRDP API not running")]) /\
  Eff.state_of (connectToServer "rdp.example.org" 3389 "alice" "secret" [] running_bridge)
  = mkState "http://localhost:8080" 8080 false true "rdp.example.org" 3389 "alice" [] /\
  m_currentServer
    (Eff.state_of (connectToServer "rdp.example.org" 3389 "alice" "secret" [] running_bridge))
  = "rdp.example.org".
Proof.
  split; [|split].
  - apply (connectToServer_request init "rdp.example.org" 3389 "alice" "secret" []).
    reflexivity.
  - apply (connectToServer_request running_bridge "rdp.example.org" 3389 "alice" "secret" []).
    reflexivity.
  - apply (connectToServer_request running_bridge "rdp.example.org" 3389 "alice" "secret" []).
    reflexivity.
Defined.

Example connectToServer_with_options :
  Eff.trace_of
    (connectToServer "rdp.example.org" 3389 "alice" "secret"
       [("fullscreen", JBool true)] running_bridge)
  = [ HttpPost "http://localhost:8080/api/connect" "application/json"
        [ ("options", JObject [("fullscreen", JBool true)]);
          ("password", JString "secret"); ("port", JInt 3389);
          ("server", JString "rdp.example.org"); ("username", JString "alice") ] ].
Proof. reflexivity. Qed.

(** C5. For a reply that carries a network error, and for a reply without
    error whose body does not parse as JSON, [onNetworkReplyFinished] emits
    exactly one signal, [connectionError] with the reply's error string or
    with ["Invalid JSON response"]; the response is not handled (the bridge is
    unchanged) and no request is posted again: besides the signal the only
    action is the deferred deletion of the reply. *)
Theorem onNetworkReplyFinished_surfaces_errors (env : Env) (reply : QNetworkReply)
    (this : State) :
  let r := onNetworkReplyFinished env reply this in
  (reply_error reply <> NoError ->
     r = (tt, this, [ReplyDeleteLater; Emit (connectionError (errorString reply))]) /\
     emitted (Eff.trace_of r) = [connectionError (errorString reply)] /\
     http_posts (Eff.trace_of r) = []) /\
  (reply_error reply = NoError -> fromJson env (readAll reply) = None ->
     r = (tt, this, [ReplyDeleteLater; Emit (connectionError "Invalid JSON response")]) /\
     emitted (Eff.trace_of r) = [connectionError "Invalid JSON response"] /\
     http_posts (Eff.trace_of r) = []).
Proof.
  cbv zeta. unfold onNetworkReplyFinished, Eff.bind, Eff.tell.
  split.
  - intros Herr. apply Z.eqb_neq in Herr. rewrite Herr. repeat split.
  - intros Hok Hparse. apply Z.eqb_eq in Hok. rewrite Hok, Hparse. repeat split.
Qed.

Lemma onNetworkReplyFinished_surfaces_errors_witness :
  onNetworkReplyFinished healthy_env failed_reply running_bridge
  = (tt, running_bridge, [ReplyDeleteLater; Emit (connectionError "Connection refused")]) /\
  onNetworkReplyFinished healthy_env garbled_reply running_bridge
  = (tt, running_bridge, [ReplyDeleteLater; Emit (connectionError "Invalid JSON response")]).
Proof.
  split.
  - apply (onNetworkReplyFinished_surfaces_errors healthy_env failed_reply running_bridge).
    discriminate.
  - apply (onNetworkReplyFinished_surfaces_errors healthy_env garbled_reply running_bridge);
      reflexivity.
Defined.

(** C2 fails on the code: a binary message that the image loader rejects is
    dropped without any signal. *)
Lemma binary_message_dropped : ~ forwards_every_binary_message.
Proof.
  intros Hforward.
  destruct (Hforward pixel_env raw_frame init) as [sig Hsig].
  discriminate Hsig.
Qed.

(** What is forwarded is the decoded image, not the bytes received. *)
Example binary_message_decoded :
  Eff.trace_of (onWebSocketBinaryMessageReceived pixel_env [Byte.x2a] init)
  = [Emit (bitmapReceived (Image (mkQSize 1 1) [Byte.xff; Byte.xff; Byte.xff; Byte.xff]))].
Proof. reflexivity. Qed.

(** C2, amended.  [onWebSocketBinaryMessageReceived] hands every binary
    message to [decodeBitmapData], which decodes it with the toolkit's image
    loader.  When the loader yields a non-null image, exactly one
    [bitmapReceived] signal carrying the decoded image is emitted; when it
    fails, nothing is emitted.  The bridge is unchanged either way, and no
    other decoding is attempted. *)
Theorem binary_message_loaded_or_dropped (env : Env) (message : QByteArray) (this : State) :
  let r := onWebSocketBinaryMessageReceived env message this in
  Eff.state_of r = this /\
  Eff.trace_of r =
    match loadFromData env message with
    | Some image => if isNull image then [] else [Emit (bitmapReceived image)]
    | None => []
    end.
Proof.
  cbv zeta. unfold onWebSocketBinaryMessageReceived, decodeBitmapData.
  destruct (loadFromData env message) as [image|]; [destruct image|]; split; reflexivity.
Qed.

End Bridge.

(** * Further properties *)

(** ** InputHandler as a machine *)

Section HandlerMachine.
Import Qt QtMore InputHandler InputHandlerOps.

Lemma handleKeyEvent_run (event : QKeyEvent) (s : State) :
  handleKeyEvent event s =
  if negb (m_inputCaptured s) then (tt, s, [])
  else
    let rdpKey := convertQtKeyToRDP s (key event) in
    if rdpKey =? 0 then (tt, s, [])
    else if bool_decide (key_type event = KeyPress) then
      (tt,
       set_keyRepeatTimer
         (timer_start (if isAutoRepeat event then m_keyboardRepeatRate s
                       else m_keyboardRepeatDelay s))
         (set_lastPressedKey (key event)
            (set_pressedKeys (fun ks => {[ key event ]} ∪ ks) s)),
       [ inputEventSent [("key", JInt rdpKey); ("pressed", JBool true);
                         ("type", JString "keyboard")];
         keyEvent rdpKey true ])
    else
      (tt,
       set_keyRepeatTimer timer_stop (set_pressedKeys (fun ks => ks ∖ {[ key event ]}) s),
       [ inputEventSent [("key", JInt rdpKey); ("pressed", JBool false);
                         ("type", JString "keyboard")];
         keyEvent rdpKey false ]).
Proof.
  unfold handleKeyEvent, Eff.bind at 1. unfold Eff.get.
  destruct (m_inputCaptured s); cbn [negb]; [|reflexivity].
  cbv zeta. destruct (convertQtKeyToRDP s (key event) =? 0); [reflexivity|].
  destruct (bool_decide (key_type event = KeyPress)); [|reflexivity].
  destruct (isAutoRepeat event); reflexivity.
Qed.

Lemma handleMouseEvent_state (event : QMouseEvent) (s : State) :
  Eff.state_of (handleMouseEvent event s) =
  if negb (m_inputCaptured s) then s
  else
    set_lastMousePos (mouse_pos event)
      (match mouse_type event with
       | MouseButtonPress => set_pressedButtons (fun b => Z.lor b (mouse_button event)) s
       | MouseButtonRelease =>
           set_pressedButtons (fun b => Z.land b (Z.lnot (mouse_button event))) s
       | _ => s
       end).
Proof.
  unfold handleMouseEvent, Eff.bind at 1. unfold Eff.get.
  destruct (m_inputCaptured s); cbn [negb]; [|reflexivity].
  destruct (mouse_type event); try reflexivity.
  unfold Eff.bind, Eff.modify, Eff.ret, Eff.state_of.
  destruct (negb (m_pressedButtons s =? NoButton)); reflexivity.
Qed.

Lemma handleWheelEvent_state (event : QWheelEvent) (s : State) :
  Eff.state_of (handleWheelEvent event s) = s.
Proof.
  unfold handleWheelEvent, Eff.bind at 1. unfold Eff.get.
  destruct (m_inputCaptured s); reflexivity.
Qed.

Lemma onKeyRepeat_state (s : State) : Eff.state_of (onKeyRepeat s) = s.
Proof.
  unfold onKeyRepeat, Eff.bind at 1. unfold Eff.get.
  destruct (negb (m_lastPressedKey s =? 0) && _); [|reflexivity].
  cbv zeta. destruct (negb (convertQtKeyToRDP s (m_lastPressedKey s) =? 0)); reflexivity.
Qed.

Lemma relabel_state {St Ev Ev' A} (f : Ev -> Ev') (m : Eff St Ev A) (s : St) :
  Eff.state_of (relabel f m s) = Eff.state_of (m s).
Proof. unfold relabel. destruct (m s) as [[a s'] t]. reflexivity. Qed.

Lemma relabel_trace {St Ev Ev' A} (f : Ev -> Ev') (m : Eff St Ev A) (s : St) :
  Eff.trace_of (relabel f m s) = map f (Eff.trace_of (m s)).
Proof. unfold relabel. destruct (m s) as [[a s'] t]. reflexivity. Qed.

Lemma init_invariant : handler_invariant InputHandler.init.
Proof.
  constructor; cbn; try lia; try discriminate.
  - intros _. repeat split.
  - repeat split.
Qed.

Lemma step_invariant (op : Op) (s : State) :
  handler_invariant s -> handler_invariant (Eff.state_of (step op s)).
Proof.
  intros Hs. pose proof Hs as [Hdelay Hrate Hidle Htimer Hkeys Hscaling].
  destruct op as [event|event|event|sensitivity|delay|rate|capture| |]; cbn [step];
    rewrite relabel_state.
  - rewrite handleMouseEvent_state.
    destruct (m_inputCaptured s) eqn:Hcaptured; cbn [negb]; [|exact Hs].
    destruct (mouse_type event);
      constructor; cbn; rewrite ?Hcaptured; try assumption; discriminate.
  - rewrite handleKeyEvent_run.
    destruct (m_inputCaptured s) eqn:Hcaptured; cbn [negb]; [|exact Hs].
    cbv zeta. destruct (Z.eqb_spec (convertQtKeyToRDP s (key event)) 0) as [Hzero|Hmapped];
      [exact Hs|].
    destruct (bool_decide (key_type event = KeyPress)).
    + constructor; cbn; try assumption.
      * rewrite Hcaptured. discriminate.
      * intros _. split; [assumption|]. split; [apply elem_of_union_l, elem_of_singleton; reflexivity|].
        destruct (isAutoRepeat event); lia.
      * intros k Hk. apply elem_of_union in Hk as [Hk|Hk].
        -- apply elem_of_singleton in Hk. subst k. exact Hmapped.
        -- now apply Hkeys.
    + constructor; cbn; try assumption.
      * rewrite Hcaptured. discriminate.
      * discriminate.
      * intros k Hk. apply elem_of_difference in Hk as [Hk _]. now apply Hkeys.
  - rewrite handleWheelEvent_state. exact Hs.
  - constructor; assumption.
  - constructor; cbn; try assumption. apply qBound_range. lia.
  - constructor; cbn; try assumption. apply qBound_range. lia.
  - destruct capture.
    + constructor; cbn; try assumption.
      * discriminate.
      * intros Hactive. destruct (Htimer Hactive) as (_ & Hlast & Hinterval). auto.
    + constructor; cbn; try assumption.
      * intros _. repeat split.
      * discriminate.
      * intros k Hk. now apply not_elem_of_empty in Hk.
  - constructor; cbn; try assumption.
    + intros _. repeat split.
    + discriminate.
    + intros k Hk. now apply not_elem_of_empty in Hk.
  - rewrite onKeyRepeat_state. exact Hs.
Qed.

Lemma run_state (ops : list Op) (op : Op) (s : State) :
  Eff.state_of (run (op :: ops) s) = Eff.state_of (run ops (Eff.state_of (step op s))).
Proof.
  cbn [run]. unfold Eff.bind, Eff.state_of.
  destruct (step op s) as [[u s1] t1]. cbn [fst snd].
  destruct (run ops s1) as [[v s2] t2]. reflexivity.
Qed.

Lemma run_invariant (ops : list Op) (s : State) :
  handler_invariant s -> handler_invariant (Eff.state_of (run ops s)).
Proof.
  revert s. induction ops as [|op ops IH]; intros s Hs.
  - exact Hs.
  - rewrite run_state. apply IH. now apply step_invariant.
Qed.

End HandlerMachine.

Section HandlerProperties.
Import Qt QtMore InputHandler InputHandlerOps.

(** X1. However the handler is driven, the keyboard repeat delay stays in
    100..2000 ms and the repeat rate in 10..100 ms, and the interval of a
    running repeat timer lies in 10..2000 ms. *)
Theorem repeat_settings_bounded (ops : list Op) :
  let s := Eff.state_of (run ops InputHandler.init) in
  100 <= m_keyboardRepeatDelay s <= 2000 /\
  10 <= m_keyboardRepeatRate s <= 100 /\
  (active (m_keyRepeatTimer s) = true -> 10 <= interval (m_keyRepeatTimer s) <= 2000).
Proof.
  cbv zeta.
  destruct (run_invariant ops _ init_invariant) as [Hdelay Hrate _ Htimer _ _].
  split; [exact Hdelay|]. split; [exact Hrate|].
  intros Hactive. now destruct (Htimer Hactive) as (_ & _ & Hinterval).
Qed.

Lemma repeat_settings_bounded_witness :
  active (m_keyRepeatTimer (Eff.state_of (run capture_and_type InputHandler.init))) = true /\
  10 <= interval (m_keyRepeatTimer (Eff.state_of (run capture_and_type InputHandler.init)))
     <= 2000.
Proof.
  split; [reflexivity|].
  apply (repeat_settings_bounded capture_and_type). reflexivity.
Defined.

(** X2. Whenever input is not captured, no mouse button and no key is
    recorded as pressed and the repeat timer is stopped, whatever calls led
    there. *)
Theorem nothing_pressed_while_released (ops : list Op) :
  let s := Eff.state_of (run ops InputHandler.init) in
  m_inputCaptured s = false ->
  m_pressedButtons s = NoButton /\ m_pressedKeys s = ∅ /\
  active (m_keyRepeatTimer s) = false.
Proof.
  cbv zeta. intros Hreleased.
  now apply (inv_idle _ (run_invariant ops _ init_invariant)).
Qed.

Lemma nothing_pressed_while_released_witness :
  m_inputCaptured (Eff.state_of (run capture_type_release InputHandler.init)) = false /\
  m_pressedKeys (Eff.state_of (run capture_type_release InputHandler.init)) = ∅.
Proof.
  split; [reflexivity|].
  apply (nothing_pressed_while_released capture_type_release). reflexivity.
Defined.



(** No call changes the resolutions or the zoom level of the input
    handler, so its coordinate mapping is the one of a freshly constructed
    handler throughout its life. *)
Theorem handler_mapping_fixed (ops : list Op) (p : QPoint) :
  convertToRemoteCoordinates (Eff.state_of (run ops InputHandler.init)) p
  = convertToRemoteCoordinates InputHandler.init p.
Proof.
  destruct (run_invariant ops _ init_invariant) as [_ _ _ _ _ (Hremote & Hlocal & Hzoom)].
  unfold convertToRemoteCoordinates. rewrite Hremote, Hlocal, Hzoom. reflexivity.
Qed.

(** X4. Releasing a mapped key while input is captured stops the repeat
    timer and removes only that key from the pressed set: keys that are
    still held stay recorded, but are no longer repeated. *)
Theorem key_release_stops_repeat (s : State) (event : QKeyEvent) :
  m_inputCaptured s = true ->
  convertQtKeyToRDP s (key event) <> 0 ->
  key_type event <> KeyPress ->
  let s' := Eff.state_of (handleKeyEvent event s) in
  active (m_keyRepeatTimer s') = false /\
  m_pressedKeys s' = m_pressedKeys s ∖ {[ key event ]} /\
  Eff.trace_of (handleKeyEvent event s) =
    [ inputEventSent [("key", JInt (convertQtKeyToRDP s (key event)));
                      ("pressed", JBool false); ("type", JString "keyboard")];
      keyEvent (convertQtKeyToRDP s (key event)) false ].
Proof.
  intros Hcaptured Hmapped Hrelease. cbv zeta.
  rewrite handleKeyEvent_run, Hcaptured. cbn [negb]. cbv zeta.
  apply Z.eqb_neq in Hmapped. rewrite Hmapped.
  rewrite bool_decide_eq_false_2 by exact Hrelease.
  repeat split.
Qed.

Lemma key_release_stops_repeat_witness :
  active (m_keyRepeatTimer (Eff.state_of (handleKeyEvent release_B two_keys_handler))) = false /\
  m_pressedKeys (Eff.state_of (handleKeyEvent release_B two_keys_handler))
  = m_pressedKeys two_keys_handler ∖ {[ 0x42 ]}.
Proof.
  destruct (key_release_stops_repeat two_keys_handler release_B) as (Hstop & Hkeys & _);
    [reflexivity|discriminate|discriminate|].
  split; [exact Hstop|exact Hkeys].
Defined.

End HandlerProperties.

Section HandlerEvents.
Import Qt QtMore InputHandler InputHandlerOps.




(** X6. With input captured, every wheel event is sent, with the vertical
    angle delta divided by 120 and rounded toward zero: the delta sent
    accounts for whole notches only, and a movement of less than one notch
    is sent as a wheel event with delta 0. *)
Theorem wheel_delta_in_notches (s : State) (event : QWheelEvent) :
  m_inputCaptured s = true ->
  let y := py (angleDelta event) in
  exists delta,
    handleWheelEvent event s =
      (tt, s, [ inputEventSent [("delta", JInt delta); ("type", JString "wheel")];
                wheelEvent delta ]) /\
    120 * Z.abs delta <= Z.abs y < 120 * (Z.abs delta + 1) /\
    (0 <= y -> 0 <= delta) /\ (y <= 0 -> delta <= 0) /\
    (-120 < y < 120 -> delta = 0).
Proof.
  intros Hcaptured. cbv zeta. exists (Z.quot (py (angleDelta event)) 120).
  split.
  - unfold handleWheelEvent, Eff.bind at 1. unfold Eff.get. rewrite Hcaptured. reflexivity.
  - set (y := py (angleDelta event)).
    pose proof (Z.quot_rem' y 120) as Hqr.
    destruct (Z.le_gt_cases 0 y) as [Hpos|Hneg].
    + pose proof (Z.rem_bound_pos y 120 Hpos ltac:(lia)) as Hrem.
      pose proof (Z.quot_pos y 120 Hpos ltac:(lia)) as Hq. lia.
    + assert (Hopp : y ÷ 120 = - ((- y) ÷ 120)).
      { rewrite Z.quot_opp_l by lia. lia. }
      pose proof (Z.quot_rem' (- y) 120) as Hqr'.
      pose proof (Z.rem_bound_pos (- y) 120 ltac:(lia) ltac:(lia)) as Hrem.
      pose proof (Z.quot_pos (- y) 120 ltac:(lia) ltac:(lia)) as Hq. lia.
Qed.

Lemma wheel_delta_in_notches_witness :
  exists delta,
    handleWheelEvent (mkQWheelEvent (mkQPoint 0 (-119))) captured_handler =
      (tt, captured_handler,
       [ inputEventSent [("delta", JInt delta); ("type", JString "wheel")];
         wheelEvent delta ]) /\
    delta = 0.
Proof.
  destruct (wheel_delta_in_notches captured_handler (mkQWheelEvent (mkQPoint 0 (-119))))
    as (delta & Hrun & _ & _ & _ & Hsmall); [reflexivity|].
  exists delta. split; [exact Hrun|]. apply Hsmall. cbn. lia.
Defined.

Lemma signals_of_signalled (t : list Signal) : signals (map Signalled t) = t.
Proof. induction t as [|sig t IH]; [reflexivity|]. cbn. now f_equal. Qed.

Lemma signals_of_cursor (t : list CursorCall) : signals (map Cursor t) = [].
Proof. induction t as [|c t IH]; [reflexivity|exact IH]. Qed.

(** X7. Whatever entry point is called in whatever state, the signals come
    in pairs: an [inputEventSent] whose JSON object has exactly the members
    of the event, followed by the typed signal ([mouseEvent], [keyEvent] or
    [wheelEvent]) with the same values. *)
Theorem json_event_mirrors_signal (op : Op) (s : State) :
  paired (signals (Eff.trace_of (step op s))).
Proof.
  destruct op as [event|event|event|sensitivity|delay|rate|capture| |]; cbn [step];
    rewrite relabel_trace, ?signals_of_signalled, ?signals_of_cursor; try exact I.
  - unfold handleMouseEvent, Eff.bind at 1. unfold Eff.get.
    destruct (m_inputCaptured s); cbn [negb]; [|exact I].
    destruct (mouse_type event); try exact I; try (cbn; auto; fail).
    destruct (m_pressedButtons s =? NoButton); cbn; auto.
  - rewrite handleKeyEvent_run.
    destruct (m_inputCaptured s); cbn [negb]; [|exact I].
    cbv zeta. destruct (convertQtKeyToRDP s (key event) =? 0); [exact I|].
    destruct (bool_decide (key_type event = KeyPress)); cbn; auto.
  - unfold handleWheelEvent, Eff.bind at 1. unfold Eff.get.
    destruct (m_inputCaptured s); cbn; auto.
  - unfold onKeyRepeat, Eff.bind at 1. unfold Eff.get.
    destruct (negb (m_lastPressedKey s =? 0) && _); [|exact I].
    cbv zeta. destruct (negb (convertQtKeyToRDP s (m_lastPressedKey s) =? 0)); cbn; auto.
Qed.

Example capture_then_release_cursor :
  Eff.trace_of (run [CaptureInput true; CaptureInput false] InputHandler.init)
  = [Cursor (SetOverrideCursor BlankCursor); Cursor RestoreOverrideCursor].
Proof. reflexivity. Qed.

Example setMouseSensitivity_clamps :
  m_mouseSensitivity (Eff.state_of (setMouseSensitivity 7.5%float InputHandler.init))
  = 5%float.
Proof. vm_compute. reflexivity. Qed.

End HandlerEvents.

(** ** The two key tables and the two button tables *)

Section Tables.
Import Qt.

(** Case analysis on the scrutinee of a [switch]: in every [case] branch the
    key is known, and [tac] must close the goal. *)
Ltac switch_on k tac :=
  repeat match goal with
         | |- context [Z.eqb k ?c] => destruct (Z.eqb_spec k c) as [->|?]; [tac|]
         end.

Ltac decide_bounds :=
  repeat match goal with
         | |- context [Z.leb ?a ?b] => destruct (Z.leb_spec a b)
         end;
  cbn [andb].

Lemma and_snoc2 (A B C : Prop) : A /\ B -> C -> A /\ B /\ C.
Proof. tauto. Qed.

Lemma and_snoc (A B C D : Prop) : A /\ B /\ C -> D -> A /\ B /\ C /\ D.
Proof. tauto. Qed.

(** X8. The key tables of the input handler and of the display widget never
    contradict each other.  A key the handler maps is mapped to the same code
    by the widget, except Caps Lock, Shift, Control, Alt and Enter, which the
    widget does not know: for these five the handler returns 0x14, 0x10,
    0x11, 0x12 and 0x0D and the widget returns 0.  A key only the widget maps
    is a printable ASCII character other than the space, a digit or an
    uppercase letter. *)
Theorem key_tables_agree (s : InputHandler.State) (w : RDPDisplayWidget.State) (k : Z) :
  let a := InputHandler.convertQtKeyToRDP s k in
  let b := RDPDisplayWidget.convertQtKeyToRDP w k in
  (a <> 0 -> b = a \/ (b = 0 /\ k ∈ handler_only_keys)) /\
  (b <> 0 -> a = b \/ (a = 0 /\ b = k /\ 0x21 <= k <= 0x7E)) /\
  (map (InputHandler.convertQtKeyToRDP s) handler_only_keys = [0x14; 0x10; 0x11; 0x12; 0x0D] /\
   map (RDPDisplayWidget.convertQtKeyToRDP w) handler_only_keys = [0; 0; 0; 0; 0]).
Proof.
  cbv zeta.
  apply and_snoc2; [|split; reflexivity].
  unfold InputHandler.convertQtKeyToRDP, RDPDisplayWidget.convertQtKeyToRDP,
    InputHandler.key_cases, RDPDisplayWidget.key_cases.
  cbn [switch].
  switch_on k ltac:(solve [ vm_compute; split; intros Hne;
                            first [ left; reflexivity
                                  | right; split; [reflexivity|]; repeat constructor
                                  | exfalso; apply Hne; reflexivity ] ]).
  assert (Hspace : k <> 0x20) by assumption.
  repeat match goal with H : k <> ?c |- _ => is_const c; clear H end.
  unfold Key_A, Key_Z, Key_0, Key_9, InputHandler.char_A, InputHandler.char_0.
  change (Z.of_N (N_of_ascii "A")) with 65. change (Z.of_N (N_of_ascii "0")) with 48.
  decide_bounds; split; intros Hne; try lia; try (left; lia); try (now contradiction Hne).
  all: right; repeat split; lia.
Qed.

Lemma key_tables_agree_witness :
  RDPDisplayWidget.convertQtKeyToRDP half_zoom_widget Key_F5
  = InputHandler.convertQtKeyToRDP captured_handler Key_F5 /\
  RDPDisplayWidget.convertQtKeyToRDP half_zoom_widget Key_Shift = 0 /\
  InputHandler.convertQtKeyToRDP captured_handler Key_Control = 0x11 /\
  RDPDisplayWidget.convertQtKeyToRDP half_zoom_widget Key_Control = 0.
Proof.
  split; [|split; [|split]].
  - destruct (proj1 (key_tables_agree captured_handler half_zoom_widget Key_F5))
      as [Hsame|[Hzero _]]; [discriminate|exact Hsame|discriminate Hzero].
  - destruct (proj1 (key_tables_agree captured_handler half_zoom_widget Key_Shift))
      as [Hsame|[Hzero _]]; [discriminate|discriminate Hsame|exact Hzero].
  - destruct (key_tables_agree captured_handler half_zoom_widget Key_Control)
      as (_ & _ & Hhandler & _).
    exact (f_equal (fun codes => nth 2 codes 0) Hhandler).
  - destruct (key_tables_agree captured_handler half_zoom_widget Key_Control)
      as (_ & _ & _ & Hwidget).
    exact (f_equal (fun codes => nth 2 codes 0) Hwidget).
Defined.

(** X9. The two classes encode mouse buttons differently: for the left,
    right, middle and the two extra buttons the input handler sends the
    button's bit mask (1, 2, 4, 8, 16), the display widget its ordinal (1, 2,
    3, 4, 5); both send 0 for any other button.  They agree on every button
    except the middle button and the two extra buttons. *)
Theorem button_tables_differ (s : InputHandler.State) (w : RDPDisplayWidget.State) (b : Z) :
  let known := [LeftButton; RightButton; MiddleButton; XButton1; XButton2] in
  (b ∈ known -> InputHandler.convertQtMouseButton s b = b) /\
  (b ∉ known -> InputHandler.convertQtMouseButton s b = 0 /\
                RDPDisplayWidget.convertQtMouseButton w b = 0) /\
  (InputHandler.convertQtMouseButton s b = RDPDisplayWidget.convertQtMouseButton w b
   <-> b ∉ [MiddleButton; XButton1; XButton2]) /\
  (map (InputHandler.convertQtMouseButton s) known = [1; 2; 4; 8; 16] /\
   map (RDPDisplayWidget.convertQtMouseButton w) known = [1; 2; 3; 4; 5]).
Proof.
  cbv zeta.
  apply and_snoc; [|split; reflexivity].
  unfold InputHandler.convertQtMouseButton, RDPDisplayWidget.convertQtMouseButton.
  cbn [switch].
  switch_on b ltac:(solve [vm_compute; split; [reflexivity|]; split;
                    [ intros Hout; exfalso; apply Hout; repeat constructor
                    | split; [intros Heq; try discriminate Heq;
                              intros Hin; repeat (apply elem_of_cons in Hin as [Hin|Hin];
                                                  [discriminate Hin|]);
                              now apply elem_of_nil in Hin
                             | intros Hout; try reflexivity;
                               exfalso; apply Hout; repeat constructor ] ]]).
  split; [|split].
  - intros Hin.
    repeat (apply elem_of_cons in Hin as [Hin|Hin]; [contradiction|]).
    now apply elem_of_nil in Hin.
  - intros _. split; reflexivity.
  - split; [|reflexivity]. intros _ Hin.
    repeat (apply elem_of_cons in Hin as [Hin|Hin]; [contradiction|]).
    now apply elem_of_nil in Hin.
Qed.

Lemma button_tables_differ_witness :
  InputHandler.convertQtMouseButton captured_handler MiddleButton = MiddleButton /\
  InputHandler.convertQtMouseButton captured_handler 0x20 = 0 /\
  InputHandler.convertQtMouseButton captured_handler RightButton
  = RDPDisplayWidget.convertQtMouseButton half_zoom_widget RightButton /\
  RDPDisplayWidget.convertQtMouseButton half_zoom_widget MiddleButton = 3 /\
  RDPDisplayWidget.convertQtMouseButton half_zoom_widget XButton2 = 5.
Proof.
  destruct (button_tables_differ captured_handler half_zoom_widget MiddleButton)
    as (Hknown & _ & _ & _ & Hwidget).
  destruct (button_tables_differ captured_handler half_zoom_widget 0x20)
    as (_ & Hother & _).
  destruct (button_tables_differ captured_handler half_zoom_widget RightButton)
    as (_ & _ & Hagree & _).
  split; [apply Hknown; repeat constructor|].
  split; [|split; [|split]].
  - apply Hother. intros Hin.
    repeat (apply elem_of_cons in Hin as [Hin|Hin]; [discriminate Hin|]).
    now apply elem_of_nil in Hin.
  - apply Hagree. intros Hin.
    repeat (apply elem_of_cons in Hin as [Hin|Hin]; [discriminate Hin|]).
    now apply elem_of_nil in Hin.
  - exact (f_equal (fun codes => nth 2 codes 0) Hwidget).
  - exact (f_equal (fun codes => nth 4 codes 0) Hwidget).
Defined.

(** X10. Whatever the Qt key, both conversions return either 0 or a code
    between 0x08 and 0x7E: a key code sent to the engine always fits in seven
    bits. *)
Theorem key_codes_in_range (s : InputHandler.State) (w : RDPDisplayWidget.State) (k : Z) :
  key_code_ok (InputHandler.convertQtKeyToRDP s k) /\
  key_code_ok (RDPDisplayWidget.convertQtKeyToRDP w k).
Proof.
  unfold key_code_ok, InputHandler.convertQtKeyToRDP, RDPDisplayWidget.convertQtKeyToRDP,
    InputHandler.key_cases, RDPDisplayWidget.key_cases.
  cbn [switch].
  switch_on k ltac:(solve [vm_compute; split;
                           first [left; reflexivity | right; split; discriminate]]).
  repeat match goal with H : k <> _ |- _ => clear H end.
  unfold Key_A, Key_Z, Key_0, Key_9, InputHandler.char_A, InputHandler.char_0.
  change (Z.of_N (N_of_ascii "A")) with 65. change (Z.of_N (N_of_ascii "0")) with 48.
  decide_bounds; split; lia.
Qed.

End Tables.

(** ** The display widget as a machine *)

Section Surface.
Import Qt QtMore RDPDisplayWidget RDPDisplayEvents.

(** Unfolding of a handler of the widget down to its result, leaving the
    conversions alone. *)
Ltac run_handler :=
  cbv [step updateBitmap clearDisplay setZoomLevel setFullscreen handleResize paintEvent
       resizeEvent mousePressEvent mouseReleaseEvent mouseMoveEvent wheelEventHandler
       keyPressEvent keyReleaseEvent focusInEvent focusOutEvent emit
       Eff.bind Eff.get Eff.modify Eff.tell Eff.ret Eff.state_of Eff.trace_of fst snd
       on_core set_displayPixmap core m_displayPixmap app].

Lemma widget_run_state (ops : list Op) (op : Op) (w : Widget) :
  Eff.state_of (run (op :: ops) w) = Eff.state_of (run ops (Eff.state_of (step op w))).
Proof.
  cbn [run]. unfold Eff.bind, Eff.state_of.
  destruct (step op w) as [[u w1] t1]. cbn [fst snd].
  destruct (run ops w1) as [[v w2] t2]. reflexivity.
Qed.

Lemma surface_step (op : Op) (w : Widget) :
  op_ok op = true -> surface_invariant w -> surface_invariant (Eff.state_of (step op w)).
Proof.
  intros Hok [Hres [pixels Hpix]]. destruct w as [this pixmap]. cbn in Hres, Hpix.
  destruct op as [image| |zoom|fullscreen|width height| |size|event|event|event|event
                 |event|event| |]; try (run_handler; constructor; cbn; eauto; fail).
  - destruct image as [|size bits]; run_handler.
    + constructor; cbn; eauto.
    + cbn in Hok. apply negb_true_iff in Hok. constructor; cbn; eauto.
  - run_handler. constructor; cbn; [exact Hres|].
    unfold blackPixmap. rewrite Hres. eauto.
  - run_handler. destruct (_ || _); constructor; cbn; eauto.
  - run_handler. destruct fullscreen; constructor; cbn; eauto.
  - run_handler. rewrite Hpix. cbn. constructor; cbn; eauto.
Qed.

Lemma surface_run (ops : list Op) (w : Widget) :
  forallb op_ok ops = true -> surface_invariant w ->
  surface_invariant (Eff.state_of (run ops w)).
Proof.
  revert w. induction ops as [|op ops IH]; intros w Hok Hw; [exact Hw|].
  cbn in Hok. apply andb_true_iff in Hok as [Hop Hops].
  rewrite widget_run_state. apply IH; [exact Hops|]. now apply surface_step.
Qed.

Lemma surface_init (size : QSize) : surface_invariant (RDPDisplayEvents.init size).
Proof. constructor; cbn; eauto. Qed.

Lemma zoom_step (op : Op) (w : Widget) :
  zoom_in_range (m_zoomLevel (core w)) ->
  zoom_in_range (m_zoomLevel (core (Eff.state_of (step op w)))).
Proof.
  intros Hzoom. destruct w as [this pixmap]. cbn in Hzoom.
  destruct op as [image| |zoom|fullscreen|width height| |size|event|event|event|event
                 |event|event| |]; try (run_handler; exact Hzoom).
  - destruct image; run_handler; exact Hzoom.
  - run_handler.
    destruct (PrimFloat.ltb zoom one_tenth) eqn:Hlow;
      destruct (PrimFloat.ltb 5 zoom) eqn:Hhigh; cbn; try exact Hzoom.
    split; assumption.
  - run_handler. destruct fullscreen; exact Hzoom.
  - run_handler. destruct (pixmap_isNull pixmap); exact Hzoom.
Qed.

Lemma remote_point_in_range (this : State) (p : QPoint) :
  isEmpty (m_remoteResolution this) = false ->
  0 <= px (convertToRemoteCoordinates this p) <= width (m_remoteResolution this) - 1 /\
  0 <= py (convertToRemoteCoordinates this p) <= height (m_remoteResolution this) - 1.
Proof.
  intros Hres. unfold convertToRemoteCoordinates. rewrite Hres.
  apply isEmpty_false in Hres as [Hw Hh]. cbn [px py].
  split; apply qBound_range; lia.
Qed.

(** X11. As long as every image shown is well formed (null, or at least one
    pixel wide and high), the remote resolution of the widget is never empty
    and its pixmap is never null and always has exactly the size of the
    remote resolution, whatever is called on the widget. *)
Theorem surface_matches_resolution (size : QSize) (ops : list Op) :
  forallb op_ok ops = true ->
  let w := Eff.state_of (run ops (RDPDisplayEvents.init size)) in
  isEmpty (m_remoteResolution (core w)) = false /\
  exists pixels, m_displayPixmap w = Pixmap (m_remoteResolution (core w)) pixels.
Proof.
  intros Hok. cbv zeta.
  destruct (surface_run ops _ Hok (surface_init size)) as [Hres Hpix].
  split; assumption.
Qed.

Lemma surface_matches_resolution_witness :
  isEmpty (m_remoteResolution
             (core (Eff.state_of (run show_and_click (RDPDisplayEvents.init (mkQSize 800 600))))))
  = false.
Proof.
  apply (surface_matches_resolution (mkQSize 800 600) show_and_click). reflexivity.
Defined.

(** Comparison of floating-point numbers, read off their IEEE 754 values: a
    number that does not compare below (above) a bound is NaN or compares at
    or above (at or below) it. *)
Lemma SFcompare_flip (x y : spec_float) :
  SFcompare y x = match SFcompare x y with
                  | Some c => Some (CompOpp c)
                  | None => None
                  end.
Proof.
  destruct x as [sx|sx| |sx mx ex], y as [sy|sy| |sy my ey]; cbn [SFcompare];
    try (destruct sx; destruct sy; reflexivity);
    try (destruct sx; reflexivity); try (destruct sy; reflexivity); try reflexivity.
  change (Pcompare my mx Eq) with (Pos.compare my mx).
  change (Pcompare mx my Eq) with (Pos.compare mx my).
  rewrite (Z.compare_antisym ex ey), (Pos.compare_antisym mx my).
  destruct sx, sy; cbn [CompOpp]; try reflexivity;
    destruct (ex ?= ey); cbn [CompOpp]; try reflexivity;
    destruct (mx ?= my)%positive; reflexivity.
Qed.

Lemma SFcompare_none (x y : spec_float) :
  SFcompare x y = None -> x = S754_nan \/ y = S754_nan.
Proof.
  destruct x as [sx|sx| |sx mx ex], y as [sy|sy| |sy my ey]; cbn [SFcompare];
    try discriminate; auto.
Qed.

Lemma is_nan_of_spec (z : double) : Prim2SF z = S754_nan -> PrimFloat.is_nan z = true.
Proof.
  intros Hz. unfold PrimFloat.is_nan. rewrite FloatAxioms.eqb_spec, Hz. reflexivity.
Qed.

Lemma not_below (z a : double) :
  Prim2SF a <> S754_nan ->
  PrimFloat.ltb z a = false ->
  PrimFloat.is_nan z = true \/ PrimFloat.leb a z = true.
Proof.
  intros Ha. rewrite FloatAxioms.ltb_spec, FloatAxioms.leb_spec. unfold SFltb, SFleb.
  rewrite (SFcompare_flip (Prim2SF z) (Prim2SF a)).
  destruct (SFcompare (Prim2SF z) (Prim2SF a)) as [[]|] eqn:Hc; cbn [CompOpp];
    try discriminate; auto.
  intros _. left. apply is_nan_of_spec.
  destruct (SFcompare_none _ _ Hc) as [Hz|Hz]; [exact Hz|contradiction].
Qed.

Lemma not_above (z a : double) :
  Prim2SF a <> S754_nan ->
  PrimFloat.ltb a z = false ->
  PrimFloat.is_nan z = true \/ PrimFloat.leb z a = true.
Proof.
  intros Ha. rewrite FloatAxioms.ltb_spec, FloatAxioms.leb_spec. unfold SFltb, SFleb.
  rewrite (SFcompare_flip (Prim2SF a) (Prim2SF z)).
  destruct (SFcompare (Prim2SF a) (Prim2SF z)) as [[]|] eqn:Hc; cbn [CompOpp];
    try discriminate; auto.
  intros _. left. apply is_nan_of_spec.
  destruct (SFcompare_none _ _ Hc) as [Hz|Hz]; [contradiction|exact Hz].
Qed.

Lemma zoom_in_range_bounds (zoom : double) :
  zoom_in_range zoom ->
  PrimFloat.is_nan zoom = true \/
  (PrimFloat.leb one_tenth zoom = true /\ PrimFloat.leb zoom 5%float = true).
Proof.
  intros [Hlow Hhigh].
  apply not_below in Hlow as [Hnan|Hlow]; [now left| |vm_compute; discriminate].
  apply not_above in Hhigh as [Hnan|Hhigh]; [now left| |vm_compute; discriminate].
  right. split; assumption.
Qed.

(** X12. [setZoomLevel] ignores a zoom that compares below 0.1 or above 5:
    nothing changes and nothing is repainted.  Every other value is stored
    and a repaint is asked for, and no other operation touches the zoom
    level; so in every state the widget can reach, the zoom level compares
    neither below 0.1 nor above 5: it is NaN or lies between 0.1 and 5.  NaN
    is possible, so the zoom level is not confined to the interval: NaN
    compares neither below nor above anything, [setZoomLevel] does not ignore
    it and the zoom level becomes NaN. *)
Theorem zoom_stays_in_range (size : QSize) (ops : list Op) (w : Widget) (zoom : double) :
  zoom_in_range (m_zoomLevel (core (Eff.state_of (run ops (RDPDisplayEvents.init size))))) /\
  (let reached := m_zoomLevel (core (Eff.state_of (run ops (RDPDisplayEvents.init size)))) in
   PrimFloat.is_nan reached = true \/
   (PrimFloat.leb one_tenth reached = true /\ PrimFloat.leb reached 5%float = true)) /\
  (PrimFloat.ltb zoom one_tenth = true \/ PrimFloat.ltb 5%float zoom = true ->
     setZoomLevel zoom w = (tt, w, [])) /\
  (zoom_in_range zoom ->
     setZoomLevel zoom w
     = (tt,
        mkWidget
          (mkState (geometry (core w)) zoom (m_isFullscreen (core w))
             (m_remoteResolution (core w)) (m_widgetSize (core w))
             (m_mouseCaptured (core w)) (m_keyboardCaptured (core w))
             (m_pressedButtons (core w)) (m_useHardwareAcceleration (core w)))
          (m_displayPixmap w),
        [Update]) /\
     m_zoomLevel (core (Eff.state_of (setZoomLevel zoom w))) = zoom) /\
  (forall op, (forall z, op <> SetZoomLevel z) ->
     m_zoomLevel (core (Eff.state_of (step op w))) = m_zoomLevel (core w)) /\
  zoom_in_range PrimFloat.nan /\
  PrimFloat.is_nan (m_zoomLevel (core (Eff.state_of (setZoomLevel PrimFloat.nan w)))) = true.
Proof.
  assert (Hreached : zoom_in_range
                       (m_zoomLevel (core (Eff.state_of (run ops (RDPDisplayEvents.init size)))))).
  { assert (Hgen : forall w, zoom_in_range (m_zoomLevel (core w)) ->
                             zoom_in_range (m_zoomLevel (core (Eff.state_of (run ops w))))).
    { clear w. induction ops as [|op ops' IH]; intros w Hw; [exact Hw|].
      rewrite widget_run_state. apply IH. now apply zoom_step. }
    apply Hgen. split; reflexivity. }
  split; [exact Hreached|].
  split; [exact (zoom_in_range_bounds _ Hreached)|].
  split; [|split; [|split; [|split]]].
  - unfold setZoomLevel. intros [-> | ->]; [reflexivity|].
    now rewrite orb_true_r.
  - intros [Hlow Hhigh]. unfold setZoomLevel. rewrite Hlow, Hhigh.
    split; reflexivity.
  - intros op Hop. destruct w as [this pixmap].
    destruct op as [image| |z|fullscreen|width height| |size'|event|event|event|event
                   |event|event| |]; try (run_handler; reflexivity).
    + destruct image; run_handler; reflexivity.
    + now contradiction (Hop z).
    + run_handler. destruct fullscreen; reflexivity.
    + run_handler. destruct (pixmap_isNull pixmap); reflexivity.
  - split; reflexivity.
  - reflexivity.
Qed.

Lemma zoom_stays_in_range_witness :
  setZoomLevel 9%float (RDPDisplayEvents.init (mkQSize 800 600))
  = (tt, RDPDisplayEvents.init (mkQSize 800 600), []) /\
  m_zoomLevel (core (Eff.state_of
                       (setZoomLevel 2%float (RDPDisplayEvents.init (mkQSize 800 600)))))
  = 2%float /\
  m_zoomLevel (core (Eff.state_of
                       (step (HandleResize 640 480) (RDPDisplayEvents.init (mkQSize 800 600)))))
  = 1%float.
Proof.
  split; [|split].
  - destruct (zoom_stays_in_range (mkQSize 800 600) []
                (RDPDisplayEvents.init (mkQSize 800 600)) 9%float)
      as (_ & _ & Hignored & _).
    apply Hignored. right. reflexivity.
  - destruct (zoom_stays_in_range (mkQSize 800 600) []
                (RDPDisplayEvents.init (mkQSize 800 600)) 2%float)
      as (_ & _ & _ & Hstored & _).
    apply Hstored. split; reflexivity.
  - destruct (zoom_stays_in_range (mkQSize 800 600) []
                (RDPDisplayEvents.init (mkQSize 800 600)) 2%float)
      as (_ & _ & _ & _ & Hother & _).
    apply (Hother (HandleResize 640 480)). intros z. discriminate.
Defined.

(** X13. In every state the widget can reach (with well-formed images), a
    mouse press, release or move makes it emit exactly one [mouseEvent]
    signal, and the coordinates of that signal lie inside the remote
    resolution of that moment. *)
Theorem mouse_signals_inside_resolution (size : QSize) (ops : list Op)
    (event : InputHandler.QMouseEvent) :
  forallb op_ok ops = true ->
  let w := Eff.state_of (run ops (RDPDisplayEvents.init size)) in
  Forall (fun handler : InputHandler.QMouseEvent -> Handler =>
            exists sig, emitted (Eff.trace_of (handler event w)) = [sig] /\
                        inside (m_remoteResolution (core w)) sig)
         [mousePressEvent; mouseReleaseEvent; mouseMoveEvent].
Proof.
  intros Hok. cbv zeta.
  destruct (surface_run ops _ Hok (surface_init size)) as [Hres _].
  set (w := Eff.state_of (run ops (RDPDisplayEvents.init size))) in *.
  pose proof (remote_point_in_range (core w) (InputHandler.mouse_pos event) Hres) as Hin.
  repeat (apply Forall_cons; split); [..|apply Forall_nil];
    eexists; (split; [run_handler; reflexivity|exact Hin]).
Qed.

Lemma mouse_signals_inside_resolution_witness :
  exists sig,
    emitted (Eff.trace_of
               (mousePressEvent (mouse_at MouseButtonPress 5000 (-3) LeftButton)
                  (Eff.state_of (run show_and_click (RDPDisplayEvents.init (mkQSize 800 600))))))
    = [sig] /\
    inside (mkQSize 320 200) sig.
Proof.
  pose proof (mouse_signals_inside_resolution (mkQSize 800 600) show_and_click
                (mouse_at MouseButtonPress 5000 (-3) LeftButton) eq_refl) as Hall.
  apply Forall_cons in Hall as [Hpress _]. exact Hpress.
Defined.

(** X14. In every state the widget can reach (with well-formed images),
    [paintEvent] draws the pixmap, whole, into the target rectangle; the
    placeholder text is never painted. *)
Theorem paint_draws_pixmap (size : QSize) (ops : list Op) :
  forallb op_ok ops = true ->
  let w := Eff.state_of (run ops (RDPDisplayEvents.init size)) in
  paintEvent w =
    (tt, w, [ DrawPixmap (targetRect (core w)) (m_displayPixmap w)
                (rect_of_size (width (m_remoteResolution (core w)))
                              (height (m_remoteResolution (core w)))) ]).
Proof.
  intros Hok. cbv zeta.
  destruct (surface_run ops _ Hok (surface_init size)) as [_ [pixels Hpix]].
  set (w := Eff.state_of (run ops (RDPDisplayEvents.init size))) in *.
  unfold paintEvent, Eff.bind, Eff.get. rewrite Hpix. reflexivity.
Qed.

Lemma paint_draws_pixmap_witness :
  Eff.trace_of (paintEvent (Eff.state_of (run show_and_click
                                            (RDPDisplayEvents.init (mkQSize 800 600)))))
  = [ DrawPixmap (mkQRect 80 100 719 499) (Pixmap (mkQSize 320 200) Black)
        (mkQRect 0 0 319 199) ].
Proof.
  rewrite (paint_draws_pixmap (mkQSize 800 600) show_and_click eq_refl).
  vm_compute. reflexivity.
Defined.

End Surface.

(** ** Geometry of the painted image *)

Section Geometry.
Import Qt QtMore RDPDisplayWidget RDPDisplayEvents.

Lemma wrap32_id (z : Z) : INT_MIN <= z <= INT_MAX -> wrap32 z = z.
Proof.
  unfold wrap32, INT_MIN, INT_MAX. intros Hz.
  rewrite Z.mod_small by lia. lia.
Qed.

Lemma rect_of_size_width (w h : Z) :
  0 <= w <= INT_MAX -> rect_width (rect_of_size w h) = w.
Proof.
  unfold INT_MAX. intros Hw. unfold rect_width, rect_of_size, int_add, int_sub. cbn [x1 x2].
  rewrite (wrap32_id (w - 1)) by (unfold INT_MIN, INT_MAX; lia).
  rewrite (wrap32_id (w - 1 - 0)) by (unfold INT_MIN, INT_MAX; lia).
  rewrite wrap32_id by (unfold INT_MIN, INT_MAX; lia). lia.
Qed.

Lemma rect_of_size_height (w h : Z) :
  0 <= h <= INT_MAX -> rect_height (rect_of_size w h) = h.
Proof.
  unfold INT_MAX. intros Hh. unfold rect_height, rect_of_size, int_add, int_sub. cbn [y1 y2].
  rewrite (wrap32_id (h - 1)) by (unfold INT_MIN, INT_MAX; lia).
  rewrite (wrap32_id (h - 1 - 0)) by (unfold INT_MIN, INT_MAX; lia).
  rewrite wrap32_id by (unfold INT_MIN, INT_MAX; lia). lia.
Qed.

(** The offset and the last coordinate of a span of [inner] pixels centred
    in [outer] pixels, as [setX]/[setWidth] (or [setY]/[setHeight]) compute
    them. *)
Lemma centred_span (outer inner : Z) :
  0 <= inner < outer -> outer <= INT_MAX ->
  let offset := int_div (int_sub outer inner) 2 in
  offset = (outer - inner) ÷ 2 /\
  int_sub (int_add offset inner) 1 = offset + inner - 1 /\
  0 <= offset /\ offset + inner - 1 <= outer - 1 /\
  0 <= (outer - 1 - (offset + inner - 1)) - offset <= 1.
Proof.
  unfold INT_MAX. intros Hinner Houter. cbv zeta.
  unfold int_div, int_sub, int_add.
  assert (Hq : 0 <= (outer - inner) ÷ 2 <= outer - inner).
  { split; [apply Z.quot_pos; lia|].
    apply Z.quot_le_upper_bound; lia. }
  pose proof (Z.quot_rem' (outer - inner) 2) as Hqr.
  pose proof (Z.rem_bound_pos (outer - inner) 2 ltac:(lia) ltac:(lia)) as Hrem.
  rewrite (wrap32_id (outer - inner)) by (unfold INT_MIN, INT_MAX; lia).
  rewrite (wrap32_id ((outer - inner) ÷ 2)) by (unfold INT_MIN, INT_MAX; lia).
  rewrite (wrap32_id ((outer - inner) ÷ 2 + inner)) by (unfold INT_MIN, INT_MAX; lia).
  rewrite wrap32_id by (unfold INT_MIN, INT_MAX; lia).
  lia.
Qed.

(** X15. When the scaled remote desktop is narrower than the widget, the
    rectangle the image is painted into is centred horizontally: it is as
    wide as the scaled desktop, lies within the widget, and its left and
    right margins differ by at most one pixel (the right one is the larger).
    When it is not narrower, the rectangle spans the whole width of the
    widget.  The same holds vertically. *)
Theorem target_rect_centred (this : State) :
  let scaled := size_scale (m_remoteResolution this) (m_zoomLevel this) in
  let W := width (geometry this) in
  let H := height (geometry this) in
  let target := targetRect this in
  0 <= W <= INT_MAX -> 0 <= H <= INT_MAX ->
  (0 <= width scaled < W ->
     x1 target = (W - width scaled) ÷ 2 /\
     x2 target = x1 target + width scaled - 1 /\
     0 <= x1 target /\ x2 target <= W - 1 /\
     0 <= (W - 1 - x2 target) - x1 target <= 1) /\
  (W <= width scaled -> x1 target = 0 /\ x2 target = W - 1) /\
  (0 <= height scaled < H ->
     y1 target = (H - height scaled) ÷ 2 /\
     y2 target = y1 target + height scaled - 1 /\
     0 <= y1 target /\ y2 target <= H - 1 /\
     0 <= (H - 1 - y2 target) - y1 target <= 1) /\
  (H <= height scaled -> y1 target = 0 /\ y2 target = H - 1).
Proof.
  cbv zeta. intros HW HH.
  unfold targetRect, rect.
  set (scaled := size_scale (m_remoteResolution this) (m_zoomLevel this)).
  set (W := width (geometry this)) in *. set (H := height (geometry this)) in *.
  assert (Hheight : forall r, rect_height (setWidth (width scaled) (setX r (rect_of_size W H)))
                              = H).
  { intros r. transitivity (rect_height (rect_of_size W H));
      [reflexivity|exact (rect_of_size_height W H HH)]. }
  rewrite (rect_of_size_width W H HW).
  assert (Hx2 : x2 (rect_of_size W H) = W - 1).
  { unfold rect_of_size, int_sub. cbn [x2]. apply wrap32_id. unfold INT_MIN, INT_MAX in *. lia. }
  assert (Hy2 : y2 (rect_of_size W H) = H - 1).
  { unfold rect_of_size, int_sub. cbn [y2]. apply wrap32_id. unfold INT_MIN, INT_MAX in *. lia. }
  split; [|split; [|split]].
  - intros Hnarrow.
    destruct (centred_span W (width scaled) Hnarrow ltac:(lia)) as (Hoff & Hlast & Hrest).
    replace (width scaled <? W) with true by (symmetry; apply Z.ltb_lt; lia).
    destruct (height scaled <? _); cbn [x1 x2 setX setY setWidth setHeight];
      rewrite Hlast, Hoff in *; lia.
  - intros Hwide.
    replace (width scaled <? W) with false by (symmetry; apply Z.ltb_ge; lia).
    assert (Hx1 : x1 (rect_of_size W H) = 0) by reflexivity.
    destruct (height scaled <? _); cbn [x1 x2 setY setHeight]; rewrite Hx1, Hx2; lia.
  - intros Hshort.
    destruct (centred_span H (height scaled) Hshort ltac:(lia)) as (Hoff & Hlast & Hrest).
    destruct (width scaled <? W).
    + rewrite Hheight.
      replace (height scaled <? H) with true by (symmetry; apply Z.ltb_lt; lia).
      cbn [y1 y2 setX setY setWidth setHeight]. rewrite Hlast, Hoff in *. lia.
    + rewrite (rect_of_size_height W H HH).
      replace (height scaled <? H) with true by (symmetry; apply Z.ltb_lt; lia).
      cbn [y1 y2 setX setY setWidth setHeight]. rewrite Hlast, Hoff in *. lia.
  - intros Htall.
    destruct (width scaled <? W).
    + rewrite Hheight.
      replace (height scaled <? H) with false by (symmetry; apply Z.ltb_ge; lia).
      cbn [y1 y2 setX setWidth]. rewrite Hy2.
      assert (Hy1 : y1 (rect_of_size W H) = 0) by reflexivity. rewrite Hy1. lia.
    + rewrite (rect_of_size_height W H HH).
      replace (height scaled <? H) with false by (symmetry; apply Z.ltb_ge; lia).
      rewrite Hy2.
      assert (Hy1 : y1 (rect_of_size W H) = 0) by reflexivity. rewrite Hy1. lia.
Qed.

Lemma target_rect_centred_witness :
  x1 (targetRect half_zoom_widget) = (800 - 512) ÷ 2 /\
  x2 (targetRect half_zoom_widget) = x1 (targetRect half_zoom_widget) + 512 - 1.
Proof.
  destruct (target_rect_centred half_zoom_widget) as ((Hleft & Hright & _) & _);
    [vm_compute; split; discriminate .. | vm_compute; split; [discriminate|reflexivity] |].
  split; [exact Hleft|exact Hright].
Defined.

Example convertFromRemoteCoordinates_centre :
  convertFromRemoteCoordinates half_zoom_widget (mkQPoint 512 384) = mkQPoint 400 300.
Proof. vm_compute. reflexivity. Qed.

End Geometry.

(** ** The bridge as a machine *)

Section BridgeMachine.
Import Qt GoRDPBridge GoRDPBridgeOps.

(** Unfolding of a member function of the bridge down to its result. *)
Ltac run_method :=
  cbv [step checkGoRDPAvailability startGoRDPAPI stopGoRDPAPI connectToServer
       disconnectFromServer sendMouseEvent sendKeyEvent sendWheelEvent
       saveConnectionHistory loadConnectionHistory saveFavorites loadFavorites
       getPerformanceStats getConnectionStatus onNetworkReplyFinished handleHttpResponse
       onWebSocketConnected onWebSocketDisconnected onWebSocketTextMessageReceived
       handleWebSocketMessage onWebSocketBinaryMessageReceived onProcessFinished
       onProcessError getGoRDPExecutablePath setupWebSocket sendHttpRequest emit
       Eff.bind Eff.get Eff.modify Eff.tell Eff.ret Eff.state_of Eff.trace_of fst snd app];
  repeat (match goal with
          | |- context [match ?x with _ => _ end] =>
              lazymatch x with
              | context [match _ with _ => _ end] => fail
              | _ => destruct x eqn:?
              end
          end; cbv beta iota zeta).

Lemma bridge_run_cons (env : Env) (call : Call) (calls : list (Env * Call)) (s : State) :
  Eff.state_of (run ((env, call) :: calls) s)
  = Eff.state_of (run calls (Eff.state_of (step env call s))) /\
  Eff.trace_of (run ((env, call) :: calls) s)
  = Eff.trace_of (step env call s) ++ Eff.trace_of (run calls (Eff.state_of (step env call s))).
Proof.
  cbn [run]. unfold Eff.bind, Eff.state_of, Eff.trace_of.
  destruct (step env call s) as [[u s1] t1]. cbn [fst snd].
  destruct (run calls s1) as [[v s2] t2]. split; reflexivity.
Qed.

Lemma address_step (env : Env) (call : Call) (s : State) :
  m_apiUrl (Eff.state_of (step env call s)) = m_apiUrl s /\
  m_apiPort (Eff.state_of (step env call s)) = m_apiPort s.
Proof. destruct call; run_method; split; reflexivity. Qed.

End BridgeMachine.

Section BridgeProperties.
Import Qt GoRDPBridge GoRDPBridgeOps.

Ltac run_method :=
  cbv [step checkGoRDPAvailability startGoRDPAPI stopGoRDPAPI connectToServer
       disconnectFromServer sendMouseEvent sendKeyEvent sendWheelEvent
       saveConnectionHistory loadConnectionHistory saveFavorites loadFavorites
       getPerformanceStats getConnectionStatus onNetworkReplyFinished handleHttpResponse
       onWebSocketConnected onWebSocketDisconnected onWebSocketTextMessageReceived
       handleWebSocketMessage onWebSocketBinaryMessageReceived onProcessFinished
       onProcessError getGoRDPExecutablePath setupWebSocket sendHttpRequest emit
       Eff.bind Eff.get Eff.modify Eff.tell Eff.ret Eff.state_of Eff.trace_of fst snd app];
  repeat (match goal with
          | |- context [match ?x with _ => _ end] =>
              lazymatch x with
              | context [match _ with _ => _ end] => fail
              | _ => destruct x eqn:?
              end
          end; cbv beta iota zeta).

Lemma addressed_step (env : Env) (call : Call) (s : State) :
  Forall (addressed (m_apiUrl s) (m_apiPort s)) (Eff.trace_of (step env call s)).
Proof.
  destruct call; run_method;
    repeat (apply Forall_cons; split); try apply Forall_nil; try exact I;
    try reflexivity;
    (split; [reflexivity|]; eexists; (split; [|reflexivity]); repeat constructor).
Qed.

Lemma addressed_run (calls : list (Env * Call)) (s : State) :
  Forall (addressed (m_apiUrl s) (m_apiPort s)) (Eff.trace_of (run calls s)).
Proof.
  revert s. induction calls as [|[env call] calls IH]; intros s.
  { constructor. }
  destruct (bridge_run_cons env call calls s) as [_ ->].
  apply Forall_app. split; [apply addressed_step|].
  destruct (address_step env call s) as [Hurl Hport].
  rewrite <- Hurl, <- Hport. apply IH.
Qed.

(** X16. Whatever is called on a bridge, in whatever order and environment,
    it talks to the engine on this machine only: every HTTP request is a JSON
    post to one of the eight known endpoints under [http://localhost:8080],
    and every socket is opened to [ws://localhost:8080/ws]. *)
Theorem bridge_talks_to_localhost (calls : list (Env * Call)) :
  Forall to_local_engine (Eff.trace_of (run calls GoRDPBridge.init)).
Proof.
  eapply Forall_impl; [apply addressed_run|].
  intros [sig|program arguments|program arguments| | |url| |message|url contentType body| ];
    exact (fun H => H).
Qed.

(** X17. The password passed to [connectToServer] is not kept and goes
    nowhere but into the ["password"] member of the posted body: the bridge
    state after the call and the signals emitted are the same whatever the
    password, and the actions of a call with another password are those of
    this call with that one member replaced, so the URL, the content type and
    every other member of the body do not depend on the password.  When a
    request is posted, the password is the ["password"] member of its
    body. *)
Theorem password_not_retained (this : State) (server : string) (port : Z)
    (username password password' : string) (options : QJsonObject) :
  let r := connectToServer server port username password options this in
  let r' := connectToServer server port username password' options this in
  Eff.state_of r = Eff.state_of r' /\
  emitted (Eff.trace_of r) = emitted (Eff.trace_of r') /\
  Eff.trace_of r' = map (with_password password') (Eff.trace_of r) /\
  (forall url body, (url, body) ∈ http_posts (Eff.trace_of r) ->
                    json_get "password" body = Some (JString password)).
Proof.
  cbv zeta. unfold connectToServer, Eff.bind, Eff.get.
  destruct (m_apiRunning this); cbn [negb].
  - destruct options as [|member rest]; cbn [json_isEmpty negb];
      (split; [reflexivity|]; split; [reflexivity|]; split; [reflexivity|]);
      intros url body Hin; apply list_elem_of_singleton in Hin;
      injection Hin as -> ->; reflexivity.
  - split; [reflexivity|]. split; [reflexivity|]. split; [reflexivity|].
    intros url body Hin. now apply elem_of_nil in Hin.
Qed.

Lemma password_not_retained_witness :
  json_get "password"
    [ ("password", JString "secret"); ("port", JInt 3389);
      ("server", JString "rdp.example.org"); ("username", JString "alice") ]
  = Some (JString "secret") /\
  Eff.trace_of (connectToServer "rdp.example.org" 3389 "alice" "other" [] running_bridge)
  = [ HttpPost "http://localhost:8080/api/connect" "application/json"
        [ ("password", JString "other"); ("port", JInt 3389);
          ("server", JString "rdp.example.org"); ("username", JString "alice") ] ].
Proof.
  pose proof (password_not_retained running_bridge "rdp.example.org" 3389 "alice"
                "secret" "other" []) as Hcall.
  cbv zeta in Hcall. destruct Hcall as (_ & _ & Htrace & Hbody).
  split.
  - apply (Hbody "http://localhost:8080/api/connect").
    apply list_elem_of_singleton. reflexivity.
  - rewrite Htrace. reflexivity.
Defined.

(** X18. Two starts in a row launch the engine once when the first start
    succeeds: the second call does nothing, in whatever environment it
    runs. *)
Theorem start_is_idempotent (env env' : Env) (this : State) :
  m_apiRunning this = false ->
  executablePath env <> EmptyString ->
  waitForStarted env = true ->
  let started := Eff.state_of (startGoRDPAPI env this) in
  startGoRDPAPI env' started = (tt, started, []) /\
  engine_starts (Eff.trace_of (run [(env, StartGoRDPAPI); (env', StartGoRDPAPI)] this))
  = [(executablePath env, ["--api"; "--port"; number (m_apiPort this)])].
Proof.
  intros Hidle Hfound Hstarted. cbv zeta.
  apply String.eqb_neq in Hfound.
  assert (Hfirst : startGoRDPAPI env this =
                   (tt, set_apiRunning true this,
                    [ LookupStart "which" ["gordp-api"];
                      ProcessStart (executablePath env)
                        ["--api"; "--port"; number (m_apiPort this)];
                      WebSocketOpen ("ws://localhost:" +:+ number (m_apiPort this) +:+ "/ws");
                      Emit apiStarted ])).
  { rewrite startGoRDPAPI_run. cbv zeta. rewrite Hidle, Hfound, Hstarted. reflexivity. }
  assert (Hsecond : startGoRDPAPI env' (set_apiRunning true this)
                    = (tt, set_apiRunning true this, [])).
  { rewrite startGoRDPAPI_run. reflexivity. }
  rewrite Hfirst. cbn [Eff.state_of fst snd]. split; [exact Hsecond|].
  cbn [run step]. unfold Eff.bind at 1. rewrite Hfirst.
  unfold Eff.bind at 1. rewrite Hsecond. reflexivity.
Qed.

Lemma start_is_idempotent_witness :
  startGoRDPAPI bare_env (Eff.state_of (startGoRDPAPI healthy_env GoRDPBridge.init))
  = (tt, Eff.state_of (startGoRDPAPI healthy_env GoRDPBridge.init), []).
Proof.
  apply (start_is_idempotent healthy_env bare_env GoRDPBridge.init);
    [reflexivity|discriminate|reflexivity].
Defined.

End BridgeProperties.

Section BridgeEvents.
Import Qt GoRDPBridge GoRDPBridgeOps.

(** X19. When the engine process exits, the bridge clears its API-running
    flag but not its connected flag: a bridge that was connected goes on
    polling the performance statistics.  A later start launches the engine
    again whenever the executable is found. *)
Theorem engine_exit_keeps_connected_flag (env : Env) (this : State)
    (exitCode : Z) (standardError : string) :
  let exited := Eff.state_of (onProcessFinished exitCode standardError this) in
  m_apiRunning exited = false /\
  m_isConnected exited = m_isConnected this /\
  (exitCode = 0 -> Eff.trace_of (onProcessFinished exitCode standardError this) = []) /\
  (m_isConnected this = true ->
     http_posts (Eff.trace_of (getPerformanceStats exited))
     = [(m_apiUrl this +:+ "/api/performance/stats", [])]) /\
  (executablePath env <> EmptyString ->
     engine_starts (Eff.trace_of (startGoRDPAPI env exited))
     = [(executablePath env, ["--api"; "--port"; number (m_apiPort this)])]).
Proof.
  cbv zeta.
  assert (Hexited : Eff.state_of (onProcessFinished exitCode standardError this)
                    = set_apiRunning false this).
  { unfold onProcessFinished, Eff.bind, Eff.modify.
    destruct (negb (exitCode =? 0)); reflexivity. }
  rewrite Hexited.
  split; [reflexivity|]. split; [reflexivity|]. split; [|split].
  - intros ->. reflexivity.
  - intros Hconnected. unfold getPerformanceStats, Eff.bind, Eff.get.
    cbn [m_isConnected set_apiRunning]. rewrite Hconnected. reflexivity.
  - intros Hfound. apply String.eqb_neq in Hfound.
    rewrite startGoRDPAPI_run. cbv zeta. cbn [m_apiRunning set_apiRunning m_apiPort].
    rewrite Hfound. destruct (waitForStarted env); reflexivity.
Qed.

Lemma engine_exit_keeps_connected_flag_witness :
  http_posts (Eff.trace_of
                (getPerformanceStats
                   (Eff.state_of (onProcessFinished 1 "killed" connected_bridge))))
  = [("http://localhost:8080/api/performance/stats", [])].
Proof.
  apply (engine_exit_keeps_connected_flag healthy_env connected_bridge 1 "killed").
  reflexivity.
Defined.

(** X20. After [stopGoRDPAPI], in whatever state it was called, the bridge
    sends no request on its own account: [connectToServer] only reports
    that the API is not running, and [disconnectFromServer] and
    [getPerformanceStats] do nothing. *)
Theorem stopped_bridge_is_silent (env : Env) (this : State) (server : string) (port : Z)
    (username password : string) (options : QJsonObject) :
  let stopped := Eff.state_of (stopGoRDPAPI env this) in
  connectToServer server port username password options stopped
  = (tt, stopped, [Emit (connectionError "GoRDP API not running")]) /\
  disconnectFromServer stopped = (tt, stopped, []) /\
  getPerformanceStats stopped = (tt, stopped, []).
Proof.
  cbv zeta.
  assert (Hstopped : Eff.state_of (stopGoRDPAPI env this)
                     = set_isConnected false (set_apiRunning false this)).
  { unfold stopGoRDPAPI.
    destruct (negb (bool_decide (processState env = NotRunning))); [|reflexivity].
    destruct (waitForFinished env 5000); reflexivity. }
  rewrite Hstopped. repeat split.
Qed.

Lemma disconnect_run (s : State) :
  disconnectFromServer s =
  if m_isConnected s then
    (tt, set_isConnected false s,
     [ HttpPost (m_apiUrl s +:+ "/api/disconnect") "application/json" [];
       Emit (connectionStatusChanged false) ])
  else (tt, s, []).
Proof.
  cbv [disconnectFromServer sendHttpRequest emit Eff.bind Eff.get Eff.modify Eff.tell
       Eff.ret app].
  destruct (m_isConnected s); reflexivity.
Qed.

(** X21. [disconnectFromServer] acts only on a connected bridge, and then,
    whether or not the API is running, posts one request to
    [/api/disconnect], clears the connected flag and emits
    [connectionStatusChanged(false)]; a second call does nothing. *)
Theorem disconnect_once (this : State) :
  let r := disconnectFromServer this in
  m_isConnected (Eff.state_of r) = false /\
  disconnectFromServer (Eff.state_of r) = (tt, Eff.state_of r, []) /\
  (m_isConnected this = true ->
     r = (tt, set_isConnected false this,
          [ HttpPost (m_apiUrl this +:+ "/api/disconnect") "application/json" [];
            Emit (connectionStatusChanged false) ])) /\
  (m_isConnected this = false -> r = (tt, this, [])).
Proof.
  cbv zeta. rewrite (disconnect_run this).
  destruct (m_isConnected this) eqn:Hconnected; cbn [Eff.state_of fst snd];
    rewrite disconnect_run; cbn [m_isConnected set_isConnected]; rewrite ?Hconnected;
    repeat split; discriminate.
Qed.

Lemma disconnect_once_witness :
  disconnectFromServer connected_bridge
  = (tt, running_bridge,
     [ HttpPost "http://localhost:8080/api/disconnect" "application/json" [];
       Emit (connectionStatusChanged false) ]) /\
  disconnectFromServer running_bridge = (tt, running_bridge, []).
Proof.
  split.
  - apply (disconnect_once connected_bridge). reflexivity.
  - apply (disconnect_once running_bridge). reflexivity.
Defined.

(** X22. An HTTP response is acted on only if it is a JSON object whose
    ["type"] member is one of the five known strings; any other document (an
    array, an object without or with another ["type"]) is ignored without a
    signal or a change of state. *)
Theorem unknown_response_ignored (response : QJsonDocument) (this : State) :
  toString (json_get "type" (doc_object response)) ∉ response_types ->
  handleHttpResponse response this = (tt, this, []).
Proof.
  intros Hunknown. unfold response_types in Hunknown.
  repeat (apply not_elem_of_cons in Hunknown as [?%String.eqb_neq Hunknown]).
  unfold handleHttpResponse.
  repeat match goal with H : String.eqb _ _ = false |- _ => rewrite H; clear H end.
  reflexivity.
Qed.

Lemma unknown_response_ignored_witness :
  handleHttpResponse (DocArray [JString "connection_status"]) connected_bridge
  = (tt, connected_bridge, []) /\
  handleHttpResponse (DocObject [("type", JString "bitmap")]) connected_bridge
  = (tt, connected_bridge, []).
Proof.
  split; apply unknown_response_ignored; vm_compute; intros Hin;
    repeat (apply elem_of_cons in Hin as [Hin|Hin]; [discriminate Hin|]);
    now apply elem_of_nil in Hin.
Defined.

(** X23. A ["connection_status"] message has the same effect whether it
    arrives as an HTTP response or as a WebSocket text message: the connected
    flag becomes its ["connected"] member (false when the member is missing
    or not a boolean) and [connectionStatusChanged] is emitted with it.
    Every other message type on the WebSocket is dropped, also ["error"],
    ["history"], ["favorites"] and ["performance"], which are handled when
    they arrive over HTTP. *)
Theorem status_messages_alike (message : QJsonDocument) (this : State) :
  let type := toString (json_get "type" (doc_object message)) in
  let connected := toBool (json_get "connected" (doc_object message)) in
  (type = "connection_status" ->
     handleWebSocketMessage message this = handleHttpResponse message this /\
     handleWebSocketMessage message this
     = (tt, set_isConnected connected this, [Emit (connectionStatusChanged connected)])) /\
  (type <> "connection_status" -> handleWebSocketMessage message this = (tt, this, [])).
Proof.
  cbv zeta. unfold handleWebSocketMessage, handleHttpResponse.
  split.
  - intros ->. split; reflexivity.
  - intros Hother. apply String.eqb_neq in Hother. rewrite Hother.
    destruct (String.eqb _ "bitmap"); reflexivity.
Qed.

Lemma status_messages_alike_witness :
  handleWebSocketMessage (status_message true) running_bridge
  = (tt, connected_bridge, [Emit (connectionStatusChanged true)]) /\
  handleWebSocketMessage
    (DocObject [("message", JString "refused"); ("type", JString "error")]) running_bridge
  = (tt, running_bridge, []).
Proof.
  split.
  - apply (status_messages_alike (status_message true) running_bridge). reflexivity.
  - apply (status_messages_alike
             (DocObject [("message", JString "refused"); ("type", JString "error")])
             running_bridge).
    discriminate.
Defined.

(** X24. Handling a finished network reply, whatever it carries, never
    sends anything: no HTTP request, no WebSocket message, no process start;
    it emits at most one signal and leaves the API-running flag alone. *)
Theorem reply_handling_sends_nothing (env : Env) (reply : QNetworkReply) (this : State) :
  let r := onNetworkReplyFinished env reply this in
  http_posts (Eff.trace_of r) = [] /\
  websocket_messages (Eff.trace_of r) = [] /\
  engine_starts (Eff.trace_of r) = [] /\
  (length (emitted (Eff.trace_of r)) <= 1)%nat /\
  m_apiRunning (Eff.state_of r) = m_apiRunning this.
Proof.
  cbv zeta. unfold onNetworkReplyFinished, handleHttpResponse, Eff.bind at 1.
  unfold Eff.tell at 1.
  destruct (negb (reply_error reply =? NoError)); [repeat split; cbn; lia|].
  destruct (fromJson env (readAll reply)) as [response|]; [|repeat split; cbn; lia].
  repeat match goal with
         | |- context [String.eqb ?a ?b] => destruct (String.eqb a b)
         end;
    repeat split; cbn; lia.
Qed.

End BridgeEvents.

Section Lookup.
Import Qt GoRDPBridge GoRDPBridgeOps.

(** [List.find] returns the first element that passes the test. *)
Lemma find_first {A : Type} (f : A -> bool) (before : list A) (x : A) (after : list A) :
  (forall y, y ∈ before -> f y = false) -> f x = true ->
  List.find f (before ++ x :: after) = Some x.
Proof.
  intros Hbefore Hx. induction before as [|y before IH]; cbn [app find].
  - now rewrite Hx.
  - rewrite (Hbefore y) by (apply elem_of_cons; now left).
    apply IH. intros z Hz. apply Hbefore. apply elem_of_cons. now right.
Qed.

(** X25. The engine executable is looked up in a fixed order: the answer of
    [which gordp-api] wins; failing that, the first existing file among
    [./gordp-api], [../gordp-api], [bin/gordp-api] and the result of
    [QStandardPaths::findExecutable], tried in this order: a candidate that
    exists is the result as soon as no candidate before it exists, whatever
    comes after it; failing that, the empty path.  A non-empty path that did
    not come from [which] names an existing file. *)
Theorem executable_lookup_order (env : Env) :
  (forall path, which_gordp_api env = Some path -> executablePath env = path) /\
  (which_gordp_api env = None ->
     (executablePath env <> EmptyString ->
        executablePath env ∈ candidate_paths env /\
        fileExists env (executablePath env) = true) /\
     (fileExists env "./gordp-api" = true -> executablePath env = "./gordp-api") /\
     ((forall path, path ∈ candidate_paths env -> fileExists env path = false) ->
        executablePath env = EmptyString) /\
     (forall before path after,
        candidate_paths env = before ++ path :: after ->
        (forall earlier, earlier ∈ before -> fileExists env earlier = false) ->
        fileExists env path = true ->
        executablePath env = path)).
Proof.
  split.
  - unfold executablePath, getGoRDPExecutablePath, Eff.bind, Eff.tell.
    intros path ->. reflexivity.
  - intros Hwhich. apply and_snoc.
    + unfold executablePath, getGoRDPExecutablePath, Eff.bind, Eff.tell, candidate_paths.
      rewrite Hwhich. cbn [find].
      destruct (fileExists env "./gordp-api") eqn:H1;
        [|destruct (fileExists env "../gordp-api") eqn:H2;
          [|destruct (fileExists env "bin/gordp-api") eqn:H3;
            [|destruct (fileExists env (findExecutable env)) eqn:H4]]];
        cbn [Eff.ret fst].
      * split; [intros _; split; [repeat constructor|exact H1]|].
        split; [reflexivity|]. intros Hnone. rewrite Hnone in H1 by repeat constructor.
        discriminate H1.
      * split; [intros _; split; [repeat constructor|exact H2]|].
        split; [discriminate|]. intros Hnone. rewrite Hnone in H2 by repeat constructor.
        discriminate H2.
      * split; [intros _; split; [repeat constructor|exact H3]|].
        split; [discriminate|]. intros Hnone. rewrite Hnone in H3 by repeat constructor.
        discriminate H3.
      * split; [intros _; split; [repeat constructor|exact H4]|].
        split; [discriminate|]. intros Hnone. rewrite Hnone in H4 by repeat constructor.
        discriminate H4.
      * split; [intros Hne; now contradiction Hne|].
        split; [discriminate|reflexivity].
    + intros before path after Hsplit Hbefore Hpath.
      unfold executablePath, getGoRDPExecutablePath, Eff.bind, Eff.tell.
      rewrite Hwhich. cbv zeta.
      change [ "./gordp-api"; "../gordp-api"; "bin/gordp-api"; findExecutable env ]
        with (candidate_paths env).
      rewrite Hsplit, (find_first (fileExists env) before path after Hbefore Hpath).
      reflexivity.
Qed.

Lemma executable_lookup_order_witness :
  executablePath healthy_env = "/usr/local/bin/gordp-api" /\
  executablePath stuck_env = "./gordp-api" /\
  executablePath bare_env = EmptyString /\
  executablePath packaged_env = "bin/gordp-api" /\
  executablePath installed_env = "/opt/gordp/gordp-api".
Proof.
  split; [|split; [|split; [|split]]].
  - apply (proj1 (executable_lookup_order healthy_env)). reflexivity.
  - destruct (proj2 (executable_lookup_order stuck_env) eq_refl) as (_ & Hfirst & _).
    apply Hfirst. reflexivity.
  - destruct (proj2 (executable_lookup_order bare_env) eq_refl) as (_ & _ & Hnone & _).
    apply Hnone. reflexivity.
  - destruct (proj2 (executable_lookup_order packaged_env) eq_refl) as (_ & _ & _ & Horder).
    apply (Horder [ "./gordp-api"; "../gordp-api" ] "bin/gordp-api" [ "/opt/gordp/gordp-api" ]);
      [reflexivity| |reflexivity].
    intros earlier Hin.
    repeat (apply elem_of_cons in Hin as [->|Hin]; [reflexivity|]).
    now apply elem_of_nil in Hin.
  - destruct (proj2 (executable_lookup_order installed_env) eq_refl) as (_ & _ & _ & Horder).
    apply (Horder [ "./gordp-api"; "../gordp-api"; "bin/gordp-api" ] "/opt/gordp/gordp-api" []);
      [reflexivity| |reflexivity].
    intros earlier Hin.
    repeat (apply elem_of_cons in Hin as [->|Hin]; [reflexivity|]).
    now apply elem_of_nil in Hin.
Defined.

(** X26. [checkGoRDPAvailability] changes nothing and tells in advance what
    a start will do: on a bridge whose API is not running, it returns true
    exactly when [startGoRDPAPI], in the same environment, launches the
    engine process. *)
Theorem availability_predicts_start (env : Env) (this : State) :
  Eff.state_of (checkGoRDPAvailability env this) = this /\
  emitted (Eff.trace_of (checkGoRDPAvailability env this)) = [] /\
  (m_apiRunning this = false ->
     (fst (fst (checkGoRDPAvailability env this)) = true
      <-> engine_starts (Eff.trace_of (startGoRDPAPI env this)) <> [])).
Proof.
  unfold checkGoRDPAvailability, Eff.bind. rewrite getGoRDPExecutablePath_run.
  rewrite startGoRDPAPI_run. cbv zeta.
  destruct (String.eqb (executablePath env) EmptyString).
  - repeat split; try discriminate. intros Hstarts. rewrite H in Hstarts.
    now contradiction Hstarts.
  - repeat split; try discriminate; rewrite H; destruct (waitForStarted env); discriminate.
Qed.

Lemma availability_predicts_start_witness :
  fst (fst (checkGoRDPAvailability stuck_env GoRDPBridge.init)) = true /\
  engine_starts (Eff.trace_of (startGoRDPAPI stuck_env GoRDPBridge.init)) <> [].
Proof.
  split; [reflexivity|].
  apply (availability_predicts_start stuck_env GoRDPBridge.init); reflexivity.
Defined.

End Lookup.

(** ** From the widget to the engine and back *)

Section Wiring.
Import Qt QtMore GoRDPBridge.

Ltac run_wiring :=
  cbv [MainWindow.widget_event MainWindow.bridge_event MainWindow.deliver_to_bridge
       MainWindow.deliver_to_widget MainWindow.widget_signal_slot MainWindow.onBitmapReceived
       MainWindow.display MainWindow.bridge
       RDPDisplayEvents.step RDPDisplayEvents.updateBitmap RDPDisplayEvents.clearDisplay
       RDPDisplayEvents.setZoomLevel RDPDisplayEvents.setFullscreen
       RDPDisplayEvents.handleResize RDPDisplayEvents.paintEvent
       RDPDisplayEvents.resizeEvent RDPDisplayEvents.mousePressEvent
       RDPDisplayEvents.mouseReleaseEvent RDPDisplayEvents.mouseMoveEvent
       RDPDisplayEvents.wheelEventHandler RDPDisplayEvents.keyPressEvent
       RDPDisplayEvents.keyReleaseEvent RDPDisplayEvents.focusInEvent
       RDPDisplayEvents.focusOutEvent RDPDisplayEvents.emit RDPDisplayEvents.emitted
       RDPDisplayEvents.on_core RDPDisplayEvents.set_displayPixmap
       RDPDisplayEvents.core RDPDisplayEvents.m_displayPixmap
       GoRDPBridgeOps.step onWebSocketBinaryMessageReceived decodeBitmapData
       sendMouseEvent sendKeyEvent emit emitted isNull
       Eff.bind Eff.get Eff.modify Eff.tell Eff.ret Eff.state_of Eff.trace_of
       fst snd app omap option_bind mbind list_omap negb].

(** X27. Every key press on the display widget is passed on to the engine
    when the socket is connected, as one keyboard message carrying the code
    the widget's table gives; a key the table does not know is passed on all
    the same, with key code 0.  Neither the widget nor the bridge changes. *)
Theorem key_press_reaches_engine (env : Env) (app : MainWindow.App)
    (event : InputHandler.QKeyEvent) :
  let k := InputHandler.key event in
  let code := RDPDisplayWidget.convertQtKeyToRDP (RDPDisplayEvents.core (MainWindow.display app)) k in
  MainWindow.widget_event env (RDPDisplayEvents.KeyPressEvent event) app =
    (app,
     if bool_decide (socketState env = ConnectedState) then
       [ WebSocketSendTextMessage
           [("key", JInt code); ("pressed", JBool true); ("type", JString "keyboard")] ]
     else []) /\
  (k ∉ map fst RDPDisplayWidget.key_cases -> ~ (0x20 <= k <= 0x7E) -> code = 0).
Proof.
  cbv zeta. split.
  - destruct app as [[this pixmap] bridge]. run_wiring.
    destruct (bool_decide (socketState env = ConnectedState)); reflexivity.
  - intros Hcase Hprintable. unfold RDPDisplayWidget.convertQtKeyToRDP.
    rewrite switch_no_case by exact Hcase.
    destruct (Z.leb_spec 0x20 (InputHandler.key event)),
             (Z.leb_spec (InputHandler.key event) 0x7E); cbn [andb]; lia.
Qed.

Lemma key_press_reaches_engine_witness :
  MainWindow.widget_event healthy_env
    (RDPDisplayEvents.KeyPressEvent (InputHandler.mkQKeyEvent KeyPress Key_Shift false))
    fresh_app
  = (fresh_app,
     [ WebSocketSendTextMessage
         [("key", JInt 0); ("pressed", JBool true); ("type", JString "keyboard")] ]) /\
  RDPDisplayWidget.convertQtKeyToRDP
    (RDPDisplayEvents.core (MainWindow.display fresh_app)) Key_Shift = 0.
Proof.
  destruct (key_press_reaches_engine healthy_env fresh_app
              (InputHandler.mkQKeyEvent KeyPress Key_Shift false)) as [Hsent Hzero].
  split.
  - rewrite Hsent. reflexivity.
  - apply Hzero.
    + vm_compute. intros Hin.
      repeat (apply elem_of_cons in Hin as [Hin|Hin]; [discriminate Hin|]).
      now apply elem_of_nil in Hin.
    + cbn [InputHandler.key]. unfold Key_Shift. lia.
Defined.

Lemma press_actions (env : Env) (app : MainWindow.App) (event : InputHandler.QMouseEvent) :
  let this := RDPDisplayEvents.core (MainWindow.display app) in
  let remotePoint :=
    RDPDisplayWidget.convertToRemoteCoordinates this (InputHandler.mouse_pos event) in
  snd (MainWindow.widget_event env (RDPDisplayEvents.MousePressEvent event) app) =
    if bool_decide (socketState env = ConnectedState) then
      [ WebSocketSendTextMessage
          [ ("button", JInt (RDPDisplayWidget.convertQtMouseButton this
                               (InputHandler.mouse_button event)));
            ("pressed", JBool true); ("type", JString "mouse");
            ("x", JInt (px remotePoint)); ("y", JInt (py remotePoint)) ] ]
    else [].
Proof.
  cbv zeta. destruct app as [[this pixmap] bridge]. run_wiring.
  destruct (bool_decide (socketState env = ConnectedState)); reflexivity.
Qed.

(** X28. A mouse press on the display widget, with a remote resolution that
    is not empty and the socket connected, sends the engine exactly one mouse
    message, and the coordinates in it lie inside the remote resolution. *)
Theorem click_reaches_engine_inside (env : Env) (app : MainWindow.App)
    (event : InputHandler.QMouseEvent) :
  let this := RDPDisplayEvents.core (MainWindow.display app) in
  isEmpty (RDPDisplayWidget.m_remoteResolution this) = false ->
  socketState env = ConnectedState ->
  exists x y,
    snd (MainWindow.widget_event env (RDPDisplayEvents.MousePressEvent event) app) =
      [ WebSocketSendTextMessage
          [ ("button", JInt (RDPDisplayWidget.convertQtMouseButton this
                               (InputHandler.mouse_button event)));
            ("pressed", JBool true); ("type", JString "mouse");
            ("x", JInt x); ("y", JInt y) ] ] /\
    0 <= x <= width (RDPDisplayWidget.m_remoteResolution this) - 1 /\
    0 <= y <= height (RDPDisplayWidget.m_remoteResolution this) - 1.
Proof.
  cbv zeta. intros Hres Hconnected.
  pose proof (remote_point_in_range _ (InputHandler.mouse_pos event) Hres) as [Hx Hy].
  do 2 eexists. split; [|split; [exact Hx|exact Hy]].
  rewrite press_actions. cbv zeta.
  rewrite bool_decide_eq_true_2 by exact Hconnected. reflexivity.
Qed.

Lemma click_reaches_engine_inside_witness :
  exists x y,
    snd (MainWindow.widget_event healthy_env
           (RDPDisplayEvents.MousePressEvent (mouse_at MouseButtonPress 100000 (-5) MiddleButton))
           fresh_app) =
      [ WebSocketSendTextMessage
          [ ("button", JInt 3); ("pressed", JBool true); ("type", JString "mouse");
            ("x", JInt x); ("y", JInt y) ] ] /\
    0 <= x <= 1024 - 1 /\ 0 <= y <= 768 - 1.
Proof.
  apply (click_reaches_engine_inside healthy_env fresh_app
           (mouse_at MouseButtonPress 100000 (-5) MiddleButton)); reflexivity.
Defined.

(** X29. Only mouse and key events of the widget reach the bridge: every
    other operation on the widget (wheel events and focus changes included,
    although the widget emits signals for them) leaves the bridge untouched
    and sends nothing to the engine. *)
Theorem only_input_reaches_engine (env : Env) (op : RDPDisplayEvents.Op)
    (app : MainWindow.App) :
  is_input_event op = false ->
  snd (MainWindow.widget_event env op app) = [] /\
  MainWindow.bridge (fst (MainWindow.widget_event env op app)) = MainWindow.bridge app.
Proof.
  intros Hother. destruct app as [[this pixmap] bridge].
  destruct op as [image| |zoom|fullscreen|width height| |size|event|event|event|event
                 |event|event| |]; try discriminate Hother; run_wiring.
  - destruct image; split; reflexivity.
  - split; reflexivity.
  - destruct (_ || _); split; reflexivity.
  - destruct fullscreen; split; reflexivity.
  - split; reflexivity.
  - destruct (pixmap_isNull pixmap); split; reflexivity.
  - split; reflexivity.
  - split; reflexivity.
  - split; reflexivity.
  - split; reflexivity.
Qed.

Lemma only_input_reaches_engine_witness :
  snd (MainWindow.widget_event healthy_env
         (RDPDisplayEvents.WheelEvent (InputHandler.mkQWheelEvent (mkQPoint 0 120)))
         fresh_app) = [].
Proof.
  apply (only_input_reaches_engine healthy_env
           (RDPDisplayEvents.WheelEvent (InputHandler.mkQWheelEvent (mkQPoint 0 120)))
           fresh_app).
  reflexivity.
Defined.

(** X30. A binary message that loads as an image of a non-empty size sets
    the remote resolution of the widget to the size of that image, and a
    mouse press that follows is reported to the engine with coordinates
    inside the image; the bridge itself is unchanged by the message. *)
Theorem frame_sets_click_bounds (env env' : Env) (app : MainWindow.App)
    (message : QByteArray) (size : QSize) (bits : QByteArray)
    (event : InputHandler.QMouseEvent) :
  loadFromData env message = Some (Image size bits) ->
  isEmpty size = false ->
  socketState env' = ConnectedState ->
  let shown :=
    fst (MainWindow.bridge_event env (GoRDPBridgeOps.OnWebSocketBinaryMessageReceived message)
           app) in
  MainWindow.bridge shown = MainWindow.bridge app /\
  RDPDisplayWidget.m_remoteResolution (RDPDisplayEvents.core (MainWindow.display shown)) = size /\
  RDPDisplayEvents.m_displayPixmap (MainWindow.display shown) = Pixmap size (Bits bits) /\
  exists x y button,
    snd (MainWindow.widget_event env' (RDPDisplayEvents.MousePressEvent event) shown) =
      [ WebSocketSendTextMessage
          [ ("button", JInt button); ("pressed", JBool true); ("type", JString "mouse");
            ("x", JInt x); ("y", JInt y) ] ] /\
    0 <= x <= width size - 1 /\ 0 <= y <= height size - 1.
Proof.
  intros Hload Hsize Hconnected. cbv zeta.
  destruct app as [[this pixmap] bridge].
  assert (Hshown :
    fst (MainWindow.bridge_event env (GoRDPBridgeOps.OnWebSocketBinaryMessageReceived message)
           (MainWindow.mkApp (RDPDisplayEvents.mkWidget this pixmap) bridge))
    = MainWindow.mkApp
        (RDPDisplayEvents.mkWidget (RDPDisplayEvents.set_remoteResolution size this)
           (Pixmap size (Bits bits)))
        bridge).
  { run_wiring. rewrite Hload. reflexivity. }
  rewrite Hshown. split; [reflexivity|]. split; [reflexivity|]. split; [reflexivity|].
  rewrite press_actions. cbv zeta.
  rewrite bool_decide_eq_true_2 by exact Hconnected.
  cbn [MainWindow.display RDPDisplayEvents.core].
  pose proof (remote_point_in_range (RDPDisplayEvents.set_remoteResolution size this)
                (InputHandler.mouse_pos event) Hsize) as [Hx Hy].
  do 3 eexists. split; [reflexivity|]. split; [exact Hx|exact Hy].
Qed.

Lemma frame_sets_click_bounds_witness :
  RDPDisplayWidget.m_remoteResolution
    (RDPDisplayEvents.core
       (MainWindow.display
          (fst (MainWindow.bridge_event frame_env
                  (GoRDPBridgeOps.OnWebSocketBinaryMessageReceived [Byte.x00; Byte.x01])
                  fresh_app))))
  = mkQSize 320 200.
Proof.
  apply (frame_sets_click_bounds frame_env healthy_env fresh_app [Byte.x00; Byte.x01]
           (mkQSize 320 200) [Byte.x00; Byte.x01]
           (mouse_at MouseButtonPress 1 1 LeftButton)); reflexivity.
Defined.

End Wiring.
